(** * Sneak 'n Snipe: the proxy pool manager

    A shallow embedding of [services/proxy/proxy-manager.py]: the [Proxy]
    dataclass with its derived metrics, the two concrete providers,
    [ProxyManager] with its three background loops, and [ProxiedClient].

    Modelling conventions.
    - Python [int] is [Z]; Python [float] is an exact rational [Q], so
      rounding of binary64 arithmetic is outside the model; [==] is [Qeq].
      The module [Binary64] repeats the two formulas behind the numeric
      examples on IEEE 754 doubles, to check those examples as Python
      computes them.
    - A [datetime] is a [Q]: seconds on the local time line, so that
      [(a - b).total_seconds()] is [a - b].  Every reading of the clock
      ([datetime.now()], [int(time.time())]) and every draw of
      [random.randint] is an argument; a loop that reads the clock for each
      proxy takes a function from the proxy's URL to the instants read.
    - The Redis store is a record of finite sets and maps keyed by the proxy
      URL: the sets [proxies:active] and [proxies:burned], the hashes
      [proxy:<url>], their expiries, and the messages published on
      [system_alerts].  The client is the one [start] creates
      ([decode_responses=True]): a hash is read back as a dict of strings,
      and a mapping with a [None] value, or with no value at all, is refused
      with [DataError] before anything is sent.  The server does not fail.
      The store holds the hashes [_save_proxy] writes: all fourteen fields of
      the dataclass.  Logging is left out, except where building the message
      can raise.
    - An [async def] is a computation in a state-and-exception monad over
      the manager; a [Proxy] object that a method updates in place is given
      back next to the outcome of the call. *)

From Corelib Require Import PrimFloat.
From Stdlib Require Import QArith Qminmax Qround Lqa.
From Stdlib Require Import Ascii String.
From stdpp Require Import gmap strings list fin_maps pretty.

(** ** Python arithmetic on floats, as rationals *)

Module Py.

Definition Qlt_bool (x y : Q) : bool := negb (Qle_bool y x).

(** [max(a, b)]: the first argument wins a tie. *)
Definition max (a b : Q) : Q := if Qlt_bool a b then b else a.

(** [min(a, b)]: the first argument wins a tie. *)
Definition min (a b : Q) : Q := if Qlt_bool b a then b else a.

(** [sum(l)]: a left fold from [0]. *)
Definition sum (l : list Q) : Q := foldl Qplus 0%Q l.

(** [l[-n:]]: the last [n] elements, the whole list when it is shorter. *)
Definition last_n {A} (n : nat) (l : list A) : list A :=
  drop (length l - n) l.

(** [len(l)] as a float operand. *)
Definition len {A} (l : list A) : Q := inject_Z (Z.of_nat (length l)).

End Py.

(** ** The [Proxy] dataclass

    A [Proxy] object as the dataclass constructor and the providers make it:
    the four numeric attributes hold numbers. *)

Definition datetime := Q.

Record Proxy := mkProxy {
  url : string;
  provider : string;
  proxy_type : string;
  location : option string;
  username : option string;
  password : option string;
  sticky_session_id : option string;
  requests : Z;
  failures : Z;
  success : Z;
  total_bandwidth_mb : Q;
  last_used : option datetime;
  last_error : option string;
  response_times : list Q
}.

(** Field assignments [proxy.f = v]. *)
Definition set_username (v : option string) (p : Proxy) : Proxy :=
  mkProxy (url p) (provider p) (proxy_type p) (location p) v (password p)
    (sticky_session_id p) (requests p) (failures p) (success p)
    (total_bandwidth_mb p) (last_used p) (last_error p) (response_times p).

Definition set_sticky_session_id (v : option string) (p : Proxy) : Proxy :=
  mkProxy (url p) (provider p) (proxy_type p) (location p) (username p)
    (password p) v (requests p) (failures p) (success p)
    (total_bandwidth_mb p) (last_used p) (last_error p) (response_times p).

Definition set_requests (v : Z) (p : Proxy) : Proxy :=
  mkProxy (url p) (provider p) (proxy_type p) (location p) (username p)
    (password p) (sticky_session_id p) v (failures p) (success p)
    (total_bandwidth_mb p) (last_used p) (last_error p) (response_times p).

Definition set_failures (v : Z) (p : Proxy) : Proxy :=
  mkProxy (url p) (provider p) (proxy_type p) (location p) (username p)
    (password p) (sticky_session_id p) (requests p) v (success p)
    (total_bandwidth_mb p) (last_used p) (last_error p) (response_times p).

Definition set_success (v : Z) (p : Proxy) : Proxy :=
  mkProxy (url p) (provider p) (proxy_type p) (location p) (username p)
    (password p) (sticky_session_id p) (requests p) (failures p) v
    (total_bandwidth_mb p) (last_used p) (last_error p) (response_times p).

Definition set_total_bandwidth_mb (v : Q) (p : Proxy) : Proxy :=
  mkProxy (url p) (provider p) (proxy_type p) (location p) (username p)
    (password p) (sticky_session_id p) (requests p) (failures p) (success p)
    v (last_used p) (last_error p) (response_times p).

Definition set_last_used (v : option datetime) (p : Proxy) : Proxy :=
  mkProxy (url p) (provider p) (proxy_type p) (location p) (username p)
    (password p) (sticky_session_id p) (requests p) (failures p) (success p)
    (total_bandwidth_mb p) v (last_error p) (response_times p).

Definition set_last_error (v : option string) (p : Proxy) : Proxy :=
  mkProxy (url p) (provider p) (proxy_type p) (location p) (username p)
    (password p) (sticky_session_id p) (requests p) (failures p) (success p)
    (total_bandwidth_mb p) (last_used p) v (response_times p).

Definition set_response_times (v : list Q) (p : Proxy) : Proxy :=
  mkProxy (url p) (provider p) (proxy_type p) (location p) (username p)
    (password p) (sticky_session_id p) (requests p) (failures p) (success p)
    (total_bandwidth_mb p) (last_used p) (last_error p) v.

(** [Proxy.failure_rate] *)
Definition failure_rate (p : Proxy) : Q :=
  let total := requests p in
  if (0 <? total)%Z
  then (inject_Z (failures p) / inject_Z total * 100)%Q
  else 0%Q.

(** [Proxy.avg_response_time] *)
Definition avg_response_time (p : Proxy) : Q :=
  match response_times p with
  | [] => 0%Q
  | _ => (Py.sum (Py.last_n 100 (response_times p))
          / Py.len (Py.last_n 100 (response_times p)))%Q
  end.

(** [Proxy.health_score], read at the instant [now]. *)
Definition health_score (now : datetime) (p : Proxy) : Q :=
  if (requests p =? 0)%Z then 100%Q
  else
    let success_rate :=
      if (0 <? requests p)%Z
      then (inject_Z (success p) / inject_Z (requests p) * 60)%Q
      else 60%Q in
    let avg_time := avg_response_time p in
    let time_score :=
      if Py.Qlt_bool 0 avg_time
      then Py.max 0 (30 - avg_time / 50)%Q
      else 30%Q in
    let recency_score :=
      match last_used p with
      | Some t =>
          let minutes_ago := ((now - t) / 60)%Q in
          Py.max 0 (10 - minutes_ago / 6)%Q
      | None => 10%Q
      end in
    Py.min 100 (success_rate + time_score + recency_score)%Q.

(** [Proxy.to_dict]: the dict it returns, as a record of the same fields.
    [response_times] is cut to its last 100 entries; an attribute that is
    [None] stays [None] in the dict. *)
Definition to_dict (p : Proxy) : Proxy :=
  set_response_times (Py.last_n 100 (response_times p)) p.


(** ** Exceptions *)

(** [DataError] is [redis.exceptions.DataError]. *)
Inductive PyError :=
  | ZeroDivisionError | AttributeError | IndexError | TypeError | DataError.

(** The result of a call that touches no store. *)
Inductive Result (A : Type) :=
  | Ok (a : A)
  | Raise (e : PyError).
Arguments Ok {A} a.
Arguments Raise {A} e.

#[export] Instance Result_ret : MRet Result := fun A a => Ok a.
#[export] Instance Result_bind : MBind Result := fun A B f r =>
  match r with
  | Ok a => f a
  | Raise e => Raise e
  end.

(** ** String methods used by the providers *)

Module Str.

(** [s.split(sep)] for a one-character separator: never the empty list. *)
Fixpoint split (sep : Ascii.ascii) (s : string) : list string :=
  match s with
  | EmptyString => [EmptyString]
  | String a s' =>
      if Ascii.eqb a sep then EmptyString :: split sep s'
      else match split sep s' with
           | [] => [String a EmptyString]
           | w :: ws => String a w :: ws
           end
  end.

(** [sep.join(parts)] *)
Definition join (sep : string) (parts : list string) : string :=
  String.concat sep parts.

(** [parts[-1] = v]; an empty list has no last slot. *)
Fixpoint set_last {A} (v : A) (parts : list A) : Result (list A) :=
  match parts with
  | [] => Raise IndexError
  | [_] => Ok [v]
  | x :: rest =>
      match set_last v rest with
      | Ok rest' => Ok (x :: rest')
      | Raise e => Raise e
      end
  end.

(** [str(n)] and [f"{n}"] of an [int]. *)
Definition of_int (n : Z) : string := pretty n.

End Str.

(** ** Providers *)

(** The abstract base class [ProxyProvider]: its two methods.  [epoch] is
    [int(time.time())] and [rnd] the draw of [random.randint], both read
    once per call. *)
Class ProxyProvider (T : Type) := {
  get_proxies : T -> Z -> Z -> list Proxy;
  rotate_ip : T -> Z -> Z -> Proxy -> Result Proxy
}.

Record BrightDataProvider := mkBrightData {
  bd_customer_id : string;
  bd_password : string;
  bd_zone : string
}.

Definition bd_base_url : string := "http://zproxy.lum-superproxy.io:22225".

Definition bd_session_id (epoch n : Z) : string :=
  "session_" +:+ Str.of_int epoch +:+ "_" +:+ Str.of_int n.

Definition bd_username (self : BrightDataProvider) (session_id : string) : string :=
  bd_customer_id self +:+ "-zone-" +:+ bd_zone self +:+ "-session-" +:+ session_id.

Definition bd_get_proxies (self : BrightDataProvider) (epoch count : Z) : list Proxy :=
  (fun i =>
     let session_id := bd_session_id epoch i in
     mkProxy bd_base_url "bright_data" "isp" (Some "us")
       (Some (bd_username self session_id)) (Some (bd_password self))
       (Some session_id) 0 0 0 0%Q None None [])
  <$> seqZ 0 count.

Definition bd_rotate_ip (self : BrightDataProvider) (epoch rnd : Z) (proxy : Proxy)
  : Result Proxy :=
  let new_session_id := bd_session_id epoch rnd in
  let proxy := set_sticky_session_id (Some new_session_id) proxy in
  let proxy := set_username (Some (bd_username self new_session_id)) proxy in
  Ok proxy.

#[export] Instance BrightData_provider : ProxyProvider BrightDataProvider :=
  {| get_proxies := bd_get_proxies; rotate_ip := bd_rotate_ip |}.

Record OxylabsProvider := mkOxylabs {
  ox_username : string;
  ox_password : string
}.

Definition ox_base_url : string := "http://pr.oxylabs.io:7777".

Definition ox_get_proxies (self : OxylabsProvider) (epoch count : Z) : list Proxy :=
  (fun i =>
     mkProxy ox_base_url "oxylabs" "residential" (Some "us")
       (Some ("customer-" +:+ ox_username self +:+ "-cc-us-sessid-"
              +:+ Str.of_int epoch +:+ Str.of_int i))
       (Some (ox_password self)) None 0 0 0 0%Q None None [])
  <$> seqZ 0 count.

Definition ox_session_token (epoch rnd : Z) : string :=
  Str.of_int epoch +:+ Str.of_int rnd.

Definition ox_rotate_ip (self : OxylabsProvider) (epoch rnd : Z) (proxy : Proxy)
  : Result Proxy :=
  match username proxy with
  | None => Raise AttributeError
  | Some u =>
      let parts := Str.split "-"%char u in
      match Str.set_last (ox_session_token epoch rnd) parts with
      | Raise e => Raise e
      | Ok parts => Ok (set_username (Some (Str.join "-" parts)) proxy)
      end
  end.

#[export] Instance Oxylabs_provider : ProxyProvider OxylabsProvider :=
  {| get_proxies := ox_get_proxies; rotate_ip := ox_rotate_ip |}.

(** A value of the [providers] dictionary: either concrete provider. *)
Inductive AnyProvider :=
  | BrightData (self : BrightDataProvider)
  | Oxylabs (self : OxylabsProvider).

#[export] Instance Any_provider : ProxyProvider AnyProvider := {|
  get_proxies prov :=
    match prov with
    | BrightData self => get_proxies self
    | Oxylabs self => get_proxies self
    end;
  rotate_ip prov :=
    match prov with
    | BrightData self => rotate_ip self
    | Oxylabs self => rotate_ip self
    end
|}.

(** ** Objects read back from the store *)

(** The operators the properties of [Proxy] apply to a counter.  A counter
    is an [int] in an object the constructor made and a [str] in one that
    [from_dict] built. *)
Class Counter (N : Type) := {
  eq_int : N -> Z -> bool;           (* [a == n] *)
  gt_int : N -> Z -> Result bool;    (* [a > n] *)
  truediv : N -> N -> Result Q       (* [a / b] *)
}.

#[export] Instance int_counter : Counter Z := {|
  eq_int a n := (a =? n)%Z;
  gt_int a n := Ok (n <? a)%Z;
  truediv a b :=
    if (b =? 0)%Z then Raise ZeroDivisionError
    else Ok (inject_Z a / inject_Z b)%Q
|}.

(** A [str] is never equal to an [int]; ordering it against an [int] and
    dividing it raise [TypeError]. *)
#[export] Instance str_counter : Counter string := {|
  eq_int _ _ := false;
  gt_int _ _ := Raise TypeError;
  truediv _ _ := Raise TypeError
|}.

(** [s += n] on a [str] attribute raises [TypeError]. *)
Definition str_iadd_int (s : string) (n : Z) : PyError := TypeError.

(** [Proxy.failure_rate] on counters of either type. *)
Definition failure_rate_of {N} `{Counter N} (failures total : N) : Result Q :=
  positive ← gt_int total 0 ;
  if positive : bool
  then r ← truediv failures total ; Ok (r * 100)%Q
  else Ok 0%Q.

(** [Proxy.health_score] on counters of either type.  [avg_time] is
    [self.avg_response_time] and [now] the instant [datetime.now()] gives if
    it is reached. *)
Definition health_score_of {N} `{Counter N} (now : datetime)
    (requests success : N) (avg_time : Q) (last_used : option datetime)
  : Result Q :=
  if eq_int requests 0 then Ok 100%Q
  else
    positive ← gt_int requests 0 ;
    success_rate ←
      (if positive : bool
       then r ← truediv success requests ; Ok (r * 60)%Q
       else Ok 60%Q) ;
    let time_score :=
      if Py.Qlt_bool 0 avg_time
      then Py.max 0 (30 - avg_time / 50)%Q
      else 30%Q in
    let recency_score :=
      match last_used with
      | Some t =>
          let minutes_ago := ((now - t) / 60)%Q in
          Py.max 0 (10 - minutes_ago / 6)%Q
      | None => 10%Q
      end in
    Ok (Py.min 100 (success_rate + time_score + recency_score)%Q).

(** A hash [proxy:<url>] as the store holds it and [hgetall] returns it: the
    fourteen fields of the mapping [_save_proxy] wrote, each a string.  A
    numeric field is kept as the number its string spells, [last_used] as
    the instant of its ISO text and [response_times] as the list of its JSON
    text. *)
Record Hash := mkHash {
  h_url : string;
  h_provider : string;
  h_proxy_type : string;
  h_location : string;
  h_username : string;
  h_password : string;
  h_sticky_session_id : string;
  h_requests : Z;
  h_failures : Z;
  h_success : Z;
  h_total_bandwidth_mb : Q;
  h_last_used : datetime;
  h_last_error : string;
  h_response_times : list Q
}.

(** The encoder of the Redis client on a mapping: it takes strings, ints
    and floats and refuses [None]. *)
Definition encode (mapping : Proxy) : option Hash :=
  match location mapping, username mapping, password mapping,
        sticky_session_id mapping, last_used mapping, last_error mapping with
  | Some loc, Some user, Some pw, Some sid, Some used, Some err =>
      Some (mkHash (url mapping) (provider mapping) (proxy_type mapping)
              loc user pw sid (requests mapping) (failures mapping)
              (success mapping) (total_bandwidth_mb mapping) used err
              (response_times mapping))
  | _, _, _, _, _, _ => None
  end.

(** A [Proxy] object as [from_dict] builds it.  [attrs] gives the contents
    of its attributes; the four numeric ones are [str], spelling the numbers
    of [attrs]. *)
Record Loaded := mkLoaded { attrs : Proxy }.

(** [Proxy.from_dict] on a hash read from the store: it converts [last_used]
    and [response_times] and passes every other string on as it is. *)
Definition from_dict (data : Hash) : Loaded :=
  mkLoaded
    (mkProxy (h_url data) (h_provider data) (h_proxy_type data)
       (Some (h_location data)) (Some (h_username data))
       (Some (h_password data)) (Some (h_sticky_session_id data))
       (h_requests data) (h_failures data) (h_success data)
       (h_total_bandwidth_mb data) (Some (h_last_used data))
       (Some (h_last_error data)) (h_response_times data)).

(** The [str] in a counter attribute of a [Loaded] object. *)
Definition counter_str (n : Z) : string := Str.of_int n.

(** [Proxy.failure_rate] and [Proxy.health_score] of a [Loaded] object. *)
Definition loaded_failure_rate (proxy : Loaded) : Result Q :=
  failure_rate_of (counter_str (failures (attrs proxy)))
    (counter_str (requests (attrs proxy))).

Definition loaded_health_score (now : datetime) (proxy : Loaded) : Result Q :=
  health_score_of now (counter_str (requests (attrs proxy)))
    (counter_str (success (attrs proxy)))
    (avg_response_time (attrs proxy)) (last_used (attrs proxy)).

(** ** The manager and its store *)

(** The body of a burn alert.  The message
    [f"Proxy burned: {provider} proxy with {failure_rate:.1f}% failure rate"]
    is kept as the two values it interpolates. *)
Record Alert := mkAlert {
  alert_type : string;
  alert_provider : string;
  alert_failure_rate : Q;
  alert_severity : string;
  alert_proxy_url : string
}.

Record Manager := mkManager {
  providers : list (string * AnyProvider);  (* self.providers, in insertion order *)
  cost_tracker : gmap string Q;             (* self.cost_tracker, a defaultdict(float) *)
  active : gset string;                     (* the set proxies:active *)
  burned : gset string;                     (* the set proxies:burned *)
  records : gmap string Hash;               (* the hashes proxy:<url> *)
  expiry : gmap string Z;                   (* seconds to live of proxy:<url> *)
  alerts : list Alert                       (* published on system_alerts, oldest first *)
}.

Definition set_cost_tracker (v : gmap string Q) (m : Manager) : Manager :=
  mkManager (providers m) v (active m) (burned m) (records m) (expiry m) (alerts m).
Definition set_active (v : gset string) (m : Manager) : Manager :=
  mkManager (providers m) (cost_tracker m) v (burned m) (records m) (expiry m) (alerts m).
Definition set_burned (v : gset string) (m : Manager) : Manager :=
  mkManager (providers m) (cost_tracker m) (active m) v (records m) (expiry m) (alerts m).
Definition set_records (v : gmap string Hash) (m : Manager) : Manager :=
  mkManager (providers m) (cost_tracker m) (active m) (burned m) v (expiry m) (alerts m).
Definition set_expiry (v : gmap string Z) (m : Manager) : Manager :=
  mkManager (providers m) (cost_tracker m) (active m) (burned m) (records m) v (alerts m).
Definition set_alerts (v : list Alert) (m : Manager) : Manager :=
  mkManager (providers m) (cost_tracker m) (active m) (burned m) (records m) (expiry m) v.

(** A coroutine of the manager: it returns or raises, and leaves a manager
    behind either way (nothing is rolled back when an exception passes). *)
Inductive Outcome (A : Type) :=
  | Returned (a : A) (m : Manager)
  | Raised (e : PyError) (m : Manager).
Arguments Returned {A} a m.
Arguments Raised {A} e m.

Definition M (A : Type) : Type := Manager -> Outcome A.

#[export] Instance M_ret : MRet M := fun A a m => Returned a m.
#[export] Instance M_bind : MBind M := fun A B f c m =>
  match c m with
  | Returned a m' => f a m'
  | Raised e m' => Raised e m'
  end.

Definition raise {A} (e : PyError) : M A := fun m => Raised e m.
Definition gets {A} (f : Manager -> A) : M A := fun m => Returned (f m) m.
Definition modify (f : Manager -> Manager) : M unit := fun m => Returned tt (f m).

(** The value of an expression that touches no store, or its exception. *)
Definition of_result {A} (r : Result A) : M A :=
  match r with
  | Ok a => mret a
  | Raise e => raise e
  end.

(** [try: body / except Exception: log]. *)
Definition try_except (body : M unit) : M unit := fun m =>
  match body m with
  | Returned _ m' => Returned tt m'
  | Raised _ m' => Returned tt m'
  end.

(** [for x in l: body x]. *)
Fixpoint for_each {A} (l : list A) (body : A -> M unit) : M unit :=
  match l with
  | [] => mret tt
  | x :: rest => body x ;; for_each rest body
  end.

(** [a // b] on [int]. *)
Definition floordiv (a b : Z) : M Z :=
  if (b =? 0)%Z then raise ZeroDivisionError else mret (a / b)%Z.

(** *** Redis commands *)

Definition smembers_active : M (list string) := gets (fun m => elements (active m)).
Definition sadd_active (u : string) : M unit :=
  modify (fun m => set_active ({[u]} ∪ active m) m).
Definition srem_active (u : string) : M unit :=
  modify (fun m => set_active (active m ∖ {[u]}) m).
Definition sadd_burned (u : string) : M unit :=
  modify (fun m => set_burned ({[u]} ∪ burned m) m).
(** [hgetall] answers the empty dict, here [None], for a missing key. *)
Definition hgetall (u : string) : M (option Hash) := gets (fun m => records m !! u).
(** [hset(key, mapping=...)]: the mapping is encoded first, so that a
    refused mapping leaves the store as it is. *)
Definition hset (u : string) (mapping : Proxy) : M unit :=
  match encode mapping with
  | Some data => modify (fun m => set_records (<[u := data]> (records m)) m)
  | None => raise DataError
  end.
(** [expire] does nothing on a missing key. *)
Definition expire (u : string) (seconds : Z) : M unit :=
  modify (fun m =>
    match records m !! u with
    | Some _ => set_expiry (<[u := seconds]> (expiry m)) m
    | None => m
    end).
Definition publish (a : Alert) : M unit :=
  modify (fun m => set_alerts (alerts m ++ [a]) m).

(** *** [ProxyManager] *)

(** [_save_proxy].  On a [Loaded] object it is [_save_proxy (attrs proxy)]:
    a counter that is a [str] is stored as that string. *)
Definition _save_proxy (proxy : Proxy) : M unit :=
  hset (url proxy) (to_dict proxy).

(** [_burn_proxy] *)
Definition _burn_proxy (proxy : Proxy) : M unit :=
  srem_active (url proxy) ;;
  sadd_burned (url proxy) ;;
  expire (url proxy) 86400 ;;
  publish (mkAlert "alert" (provider proxy) (failure_rate proxy) "warning" (url proxy)).

(** [_burn_proxy] on a [Loaded] object: the message it logs first
    interpolates [proxy.failure_rate]. *)
Definition _burn_loaded (proxy : Loaded) : M unit :=
  rate ← of_result (loaded_failure_rate proxy) ;
  srem_active (url (attrs proxy)) ;;
  sadd_burned (url (attrs proxy)) ;;
  expire (url (attrs proxy)) 86400 ;;
  publish (mkAlert "alert" (provider (attrs proxy)) rate "warning" (url (attrs proxy))).

(** [_calculate_cost] *)
Definition cost_per_gb (proxy_type : string) : option Q :=
  if String.eqb proxy_type "residential" then Some 15.0%Q
  else if String.eqb proxy_type "isp" then Some 3.0%Q
  else if String.eqb proxy_type "datacenter" then Some 0.5%Q
  else None.

Definition _calculate_cost (proxy : Proxy) (bandwidth_mb : Q) : Q :=
  let base_rate := default 1.0%Q (cost_per_gb (proxy_type proxy)) in
  let bandwidth_cost := (bandwidth_mb / 1024 * base_rate)%Q in
  if String.eqb (proxy_type proxy) "residential"
  then (bandwidth_cost + 0.001)%Q
  else bandwidth_cost.

(** [self.cost_tracker[key] += amount] on a [defaultdict(float)]. *)
Definition cost_tracker_add (key : string) (amount : Q) : M unit :=
  modify (fun m =>
    set_cost_tracker
      (<[key := (default 0%Q (cost_tracker m !! key) + amount)%Q]> (cost_tracker m)) m).

(** [report_usage] on an object whose counters are numbers.  The caller's
    [Proxy] object is updated in place before anything can raise: the first
    component is the object after the call, the second how the call ended. *)
Definition report_usage (proxy : Proxy) (ok : bool) (response_time : Q)
    (bandwidth_mb : Q) (error : option string) (m : Manager)
  : Proxy * Outcome unit :=
  let proxy := set_requests (requests proxy + 1) proxy in
  let proxy :=
    if ok then set_success (success proxy + 1) proxy
    else set_last_error error (set_failures (failures proxy + 1) proxy) in
  let proxy := set_response_times (response_times proxy ++ [response_time]) proxy in
  let proxy := set_total_bandwidth_mb (total_bandwidth_mb proxy + bandwidth_mb)%Q proxy in
  (proxy,
   (cost_tracker_add (provider proxy) (_calculate_cost proxy bandwidth_mb) ;;
    _save_proxy proxy ;;
    if Py.Qlt_bool 30 (failure_rate proxy) && (10 <? requests proxy)%Z
    then _burn_proxy proxy
    else mret tt) m).

(** [report_usage] on a [Loaded] object: its first statement,
    [proxy.requests += 1], adds an [int] to a [str]. *)
Definition report_usage_loaded (proxy : Loaded) (ok : bool) (response_time : Q)
    (bandwidth_mb : Q) (error : option string) : M unit :=
  raise (str_iadd_int (counter_str (requests (attrs proxy))) 1).

(** [_provision_proxies] *)
Definition _provision_proxies (count : Z) (epoch : Z) : M unit :=
  provs ← gets providers ;
  proxies_per_provider ←
    (match provs with
     | [] => mret count
     | _ => floordiv count (Z.of_nat (length provs))
     end) ;
  for_each provs (fun '(provider_name, prov) =>
    try_except (
      let new_proxies := get_proxies prov epoch proxies_per_provider in
      for_each new_proxies (fun proxy =>
        _save_proxy proxy ;;
        sadd_active (url proxy)))).

(** The [requirements] dictionary of [get_proxy]: each key may be absent. *)
Record Requirements := mkRequirements {
  req_type : option string;
  req_location : option string;
  req_min_health_score : option Q
}.

Definition no_requirements : Requirements := mkRequirements None None None.

(** [scored_proxies.sort(key=lambda x: x[0], reverse=True)]: a stable sort,
    so entries of equal score keep their order. *)
Fixpoint insert_desc {A} (x : Q * A) (l : list (Q * A)) : list (Q * A) :=
  match l with
  | [] => [x]
  | y :: rest =>
      if Qle_bool (fst y) (fst x) then x :: y :: rest
      else y :: insert_desc x rest
  end.

Definition sort_desc {A} (l : list (Q * A)) : list (Q * A) :=
  foldr insert_desc [] l.

(** The two tests on type and location in the loop of [get_proxy]: [true]
    when the proxy is not skipped by them. *)
Definition matches (ptype loc : string) (proxy : Loaded) : bool :=
  if negb (String.eqb ptype "any")
     && negb (String.eqb (proxy_type (attrs proxy)) ptype) then false
  else if negb (String.eqb loc "any")
     && negb (bool_decide (location (attrs proxy) = Some loc)) then false
  else true.

(** The loop of [get_proxy] over the URLs of the active set.  [clock u 0]
    and [clock u 1] are the instants at which the two evaluations of
    [health_score] of the proxy at [u] read the clock. *)
Fixpoint score_proxies (ptype loc : string) (min_health_score : Q)
    (clock : string -> nat -> datetime) (proxy_urls : list string)
    (scored_proxies : list (Q * Loaded)) : M (list (Q * Loaded)) :=
  match proxy_urls with
  | [] => mret scored_proxies
  | proxy_url :: rest =>
      proxy_data ← hgetall proxy_url ;
      match proxy_data with
      | None => score_proxies ptype loc min_health_score clock rest scored_proxies
      | Some proxy_data =>
          let proxy := from_dict proxy_data in
          if matches ptype loc proxy then
            score ← of_result (loaded_health_score (clock proxy_url 0) proxy) ;
            if Py.Qlt_bool score min_health_score
            then score_proxies ptype loc min_health_score clock rest scored_proxies
            else
              score ← of_result (loaded_health_score (clock proxy_url 1) proxy) ;
              score_proxies ptype loc min_health_score clock rest
                (scored_proxies ++ [(score, proxy)])
          else score_proxies ptype loc min_health_score clock rest scored_proxies
      end
  end.

(** [get_proxy].  [clock] gives the readings of [datetime.now()] in the
    loop, [now] the one of the stamp, and [epoch] is [int(time.time())] in
    the providers. *)
Definition get_proxy (requirements : option Requirements)
    (clock : string -> nat -> datetime) (now : datetime) (epoch : Z)
  : M (option Loaded) :=
  let requirements := default no_requirements requirements in
  let ptype := default "any" (req_type requirements) in
  let loc := default "any" (req_location requirements) in
  let min_health_score := default 70%Q (req_min_health_score requirements) in
  proxy_urls ← smembers_active ;
  proxy_urls ←
    (match proxy_urls with
     | [] => _provision_proxies 10 epoch ;; smembers_active
     | _ => mret proxy_urls
     end) ;
  scored_proxies ← score_proxies ptype loc min_health_score clock proxy_urls [] ;
  match scored_proxies with
  | [] => mret None
  | _ =>
      match sort_desc scored_proxies with
      | [] => raise IndexError
      | (_, best_proxy) :: _ =>
          let best_proxy := mkLoaded (set_last_used (Some now) (attrs best_proxy)) in
          _save_proxy (attrs best_proxy) ;;
          mret (Some best_proxy)
      end
  end.

(** ** Drivers and specification-side definitions *)

(** The manager a coroutine leaves behind, whether it returned or raised. *)
Definition final {A} (o : Outcome A) : Manager :=
  match o with
  | Returned _ m => m
  | Raised _ m => m
  end.

(** One usage report: the arguments of a [report_usage] call. *)
Record Usage := mkUsage {
  u_success : bool;
  u_response_time : Q;
  u_bandwidth_mb : Q;
  u_error : option string
}.

(** A caller that reports a sequence of outcomes on one [Proxy] object and
    goes on when a report raises: the object and the manager after the last
    call. *)
Fixpoint report_many (proxy : Proxy) (calls : list Usage) (m : Manager)
  : Proxy * Manager :=
  match calls with
  | [] => (proxy, m)
  | c :: rest =>
      let '(proxy, o) :=
        report_usage proxy (u_success c) (u_response_time c)
          (u_bandwidth_mb c) (u_error c) m in
      report_many proxy rest (final o)
  end.

(** The field updates of [report_usage] (its lines before the cost
    tracking), as one function of the proxy. *)
Definition usage_update (proxy : Proxy) (ok : bool) (response_time : Q)
    (bandwidth_mb : Q) (error : option string) : Proxy :=
  let proxy := set_requests (requests proxy + 1) proxy in
  let proxy :=
    if ok then set_success (success proxy + 1) proxy
    else set_last_error error (set_failures (failures proxy + 1) proxy) in
  let proxy := set_response_times (response_times proxy ++ [response_time]) proxy in
  set_total_bandwidth_mb (total_bandwidth_mb proxy + bandwidth_mb)%Q proxy.

(** The burn test at the end of [report_usage]. *)
Definition should_burn (proxy : Proxy) : bool :=
  Py.Qlt_bool 30 (failure_rate proxy) && (10 <? requests proxy)%Z.

(** A [Proxy] object the store accepts: none of its six optional attributes
    is [None]. *)
Definition storable (p : Proxy) : Prop :=
  is_Some (location p) /\ is_Some (username p) /\ is_Some (password p) /\
  is_Some (sticky_session_id p) /\ is_Some (last_used p) /\
  is_Some (last_error p).

(** Reading [self.cost_tracker[key]] on the [defaultdict(float)]. *)
Definition ledger (m : Manager) (key : string) : Q :=
  default 0%Q (cost_tracker m !! key).

(** The alert [_burn_proxy] publishes for a proxy. *)
Definition burn_alert (proxy : Proxy) : Alert :=
  mkAlert "alert" (provider proxy) (failure_rate proxy) "warning" (url proxy).

(** The three components of [health_score], named. *)
Definition success_rate (p : Proxy) : Q :=
  if (0 <? requests p)%Z
  then (inject_Z (success p) / inject_Z (requests p) * 60)%Q
  else 60%Q.

Definition time_score (avg_time : Q) : Q :=
  if Py.Qlt_bool 0 avg_time
  then Py.max 0 (30 - avg_time / 50)%Q
  else 30%Q.

Definition recency_score (now : datetime) (last : option datetime) : Q :=
  match last with
  | Some t => let minutes_ago := ((now - t) / 60)%Q in
              Py.max 0 (10 - minutes_ago / 6)%Q
  | None => 10%Q
  end.

(** The specification's ring buffer of response times: the last 100 samples,
    and their mean. *)
Definition retained_samples (p : Proxy) : list Q :=
  reverse (take 100 (reverse (response_times p))).

Definition mean (l : list Q) : Q :=
  (fold_right Qplus 0 l / inject_Z (Z.of_nat (length l)))%Q.

Definition clamp (lo hi x : Q) : Q := Qmax lo (Qmin hi x).

(** The latency component in the words of the claim: 30 flat when there is
    no sample, else [max(0, 30 - mean / 50)]. *)
Definition latency_component (samples : list Q) : Q :=
  match samples with
  | [] => 30%Q
  | _ :: _ => Qmax 0 (30 - mean samples / 50)%Q
  end.

(** The latency component as the code guards it: 30 flat whenever the mean
    of the samples is not positive. *)
Definition guarded_latency_component (samples : list Q) : Q :=
  match samples with
  | [] => 30%Q
  | _ :: _ =>
      if Qle_bool (mean samples) 0 then 30%Q
      else Qmax 0 (30 - mean samples / 50)%Q
  end.

(** The recency component: 10 when the proxy was never used. *)
Definition recency_component (now : datetime) (last_used : option datetime) : Q :=
  match last_used with
  | None => 10%Q
  | Some t => Qmax 0 (10 - (now - t) / 60 / 6)%Q
  end.

(** The health score in the words of the claim: 100 without requests,
    otherwise the sum of the success, latency and recency components clamped
    to [0, 100]. *)
Definition spec_health_score (now : datetime) (p : Proxy) : Q :=
  if (requests p =? 0)%Z then 100%Q
  else
    clamp 0 100
      (inject_Z (success p) / inject_Z (requests p) * 60
       + latency_component (retained_samples p)
       + recency_component now (last_used p))%Q.

(** The same with the latency component as the code guards it. *)
Definition amended_health_score (now : datetime) (p : Proxy) : Q :=
  if (requests p =? 0)%Z then 100%Q
  else
    clamp 0 100
      (inject_Z (success p) / inject_Z (requests p) * 60
       + guarded_latency_component (retained_samples p)
       + recency_component now (last_used p))%Q.

(** What holds of the statistics of every proxy the manager handles (see
    [get_proxies_stats_ok] and [usage_update_stats_ok]). *)
Definition stats_ok (p : Proxy) : Prop :=
  (0 <= success p)%Z /\ (0 <= failures p)%Z /\
  requests p = (success p + failures p)%Z /\
  Forall (Qle 0) (response_times p).

(** The hashes of the active proxies in the order the loops meet them; a
    URL of the active set without a hash is skipped. *)
Definition active_records (m : Manager) : list Hash :=
  omap (fun u => records m !! u) (elements (active m)).

(** The active proxies that the type and location tests of [get_proxy] do
    not skip. *)
Definition candidates (ptype loc : string) (m : Manager) : list Loaded :=
  List.filter (matches ptype loc) (from_dict <$> active_records m).

(** [c in s] for a character [c]. *)
Fixpoint has_char (c : Ascii.ascii) (s : string) : bool :=
  match s with
  | EmptyString => false
  | String a s' => Ascii.eqb a c || has_char c s'
  end.

(** The burn condition in the specification's words: the failure ratio
    exceeds 0.30 and there are more than 10 requests. *)
Definition burn_condition (p : Proxy) : Prop :=
  (0.30 < inject_Z (failures p) / inject_Z (requests p))%Q /\
  (10 < requests p)%Z.

(** Every hash whose counters meet the burn condition is that of a burned
    proxy: its key is in the burned set and not in the active set. *)
Definition failing_are_burned (m : Manager) : Prop :=
  forall u r, records m !! u = Some r -> burn_condition (attrs (from_dict r)) ->
    u ∈ burned m /\ u ∉ active m.

(** The manager after the cost tracking of a report on [proxy]: the ledger
    entry of its provider has grown by the cost of the call. *)
Definition charged (proxy : Proxy) (bandwidth_mb : Q) (m : Manager) : Manager :=
  set_cost_tracker
    (<[provider proxy := (ledger m (provider proxy)
                          + _calculate_cost proxy bandwidth_mb)%Q]>
       (cost_tracker m)) m.

(** [Proxy.failure_rate] and [_calculate_cost] on binary64 floats.  The
    counters are passed as floats: an [int] below 2^53 converts exactly. *)
Module Binary64.
#[local] Set Warnings "-inexact-float".

Definition failure_rate (failures total : float) : float :=
  if PrimFloat.ltb 0%float total then (failures / total * 100)%float else 0%float.

Definition _calculate_cost (proxy_type : string) (bandwidth_mb : float) : float :=
  let base_rate :=
    if String.eqb proxy_type "residential" then 15.0%float
    else if String.eqb proxy_type "isp" then 3.0%float
    else if String.eqb proxy_type "datacenter" then 0.5%float
    else 1.0%float in
  let bandwidth_cost := (bandwidth_mb / 1024 * base_rate)%float in
  if String.eqb proxy_type "residential"
  then (bandwidth_cost + 0.001)%float
  else bandwidth_cost.

(** The literal [30.001] of the cost example. *)
Definition cost_example : float := 30.001%float.

End Binary64.

(** *** Concrete data for the examples *)

(** The proxy of the specification's burn example, as Oxylabs hands its
    proxies out (no sticky session id, never used, no error yet), with 20
    requests of which 7 failed. *)
Definition ex_proxy : Proxy :=
  mkProxy ox_base_url "oxylabs" "residential" (Some "us")
    (Some "customer-user-cc-us-sessid-17000000000") (Some "secret") None
    20 7 13 0%Q None None [].

(** A manager with no provider whose active set holds the URL of
    [ex_proxy]; the store has no hash for it. *)
Definition ex_manager : Manager :=
  mkManager [] ∅ {[ox_base_url]} ∅ ∅ ∅ [].

(** The same proxy with two response-time samples, last used at instant 0. *)
Definition ex_used : Proxy :=
  set_last_used (Some 0%Q) (set_response_times [250%Q; 350%Q] ex_proxy).

(** The same proxy holding 100 response-time samples. *)
Definition ex_full : Proxy :=
  set_response_times (replicate 100 120%Q) ex_proxy.

(** A proxy as Bright Data hands it out: all counters at zero. *)
Definition ex_fresh : Proxy :=
  mkProxy bd_base_url "bright_data" "isp" (Some "us")
    (Some "cust-zone-z-session-session_1700000000_0") (Some "secret")
    (Some "session_1700000000_0") 0 0 0 0%Q None None [].

(** The same proxy after a caller stamped it and noted an error: none of
    its attributes is [None]. *)
Definition ex_stamped : Proxy :=
  set_last_error (Some "timeout") (set_last_used (Some 0%Q) ex_fresh).

(** A Bright Data proxy with 20 requests of which 7 failed, none of whose
    attributes is [None]. *)
Definition ex_failing : Proxy :=
  set_success 13 (set_failures 7 (set_requests 20 ex_stamped)).

(** The hash of [ex_stamped]. *)
Definition ex_hash : Hash :=
  mkHash bd_base_url "bright_data" "isp" "us"
    "cust-zone-z-session-session_1700000000_0" "secret"
    "session_1700000000_0" 0 0 0 0%Q 0%Q "timeout" [].

(** A manager whose active set holds both provider URLs, with a hash for
    the one of Bright Data. *)
Definition ex_pool : Manager :=
  mkManager [] ∅ {[ox_base_url; bd_base_url]} ∅ {[bd_base_url := ex_hash]} ∅ [].

(** A manager with nothing in its store. *)
Definition ex_empty : Manager := mkManager [] ∅ ∅ ∅ ∅ ∅ [].

(** The proxy of the burn example with one response-time sample of -100 ms:
    the wall clock was set back during the request. *)
Definition ex_negative_sample : Proxy := set_response_times [(-100)%Q] ex_proxy.

(** A proxy with 20 requests, none failed, whose last use is one hour ahead
    of instant 0, and the same proxy with one failure. *)
Definition ex_ahead : Proxy :=
  set_last_used (Some 3600%Q) (set_success 20 (set_failures 0 ex_proxy)).

Definition ex_ahead_failed : Proxy := set_success 19 (set_failures 1 ex_ahead).


(** [ex_used] with a [success] counter below zero, and a proxy whose
    [requests] counter is below zero. *)
Definition ex_negative_success : Proxy := set_success (-40) ex_used.

Definition ex_negative_requests : Proxy :=
  set_requests (-1) (set_success 0 (set_failures 0 ex_proxy)).

(** [ex_used] with one more failure and as many successes: its counters do
    not balance. *)
Definition ex_unbalanced : Proxy := set_failures 8 ex_used.

(** Two proxies with 20 requests whose [failures] counter is below zero. *)
Definition ex_overcounted : Proxy := set_success 30 (set_failures (-10) ex_proxy).

Definition ex_overcounted_less : Proxy := set_success 25 (set_failures (-5) ex_proxy).
(** ** The rest of [proxy-manager.py]

    The remaining methods of [Proxy], [ProxyManager] and [ProxiedClient].
    One pass of a background loop is the body of its [while True], after the
    sleep, with the [try]/[except] that encloses it. *)

(** *** [Proxy.auth_url] *)

(** The truth value of an [Optional[str]]: [None] and [""] are false. *)
Definition truthy (o : option string) : bool :=
  match o with
  | Some s => negb (String.eqb s "")
  | None => false
  end.

(** [s] without its prefix [pre], when it starts with it. *)
Fixpoint strip_prefix (pre s : string) : option string :=
  match pre with
  | EmptyString => Some s
  | String a pre' =>
      match s with
      | EmptyString => None
      | String b s' => if Ascii.eqb a b then strip_prefix pre' s' else None
      end
  end.

(** [before, after = s.split(sep, 1)]: the parts around the first occurrence
    of [sep]; [None] is the [ValueError] of the unpacking when [sep] does not
    occur in [s]. *)
Fixpoint split_once (sep s : string) : option (string * string) :=
  match strip_prefix sep s with
  | Some rest => Some (EmptyString, rest)
  | None =>
      match s with
      | EmptyString => None
      | String a s' =>
          match split_once sep s' with
          | Some (before, rest) => Some (String a before, rest)
          | None => None
          end
      end
  end.

(** [Proxy.auth_url]; [None] is the [ValueError] above. *)
Definition auth_url (p : Proxy) : option string :=
  if truthy (username p) && truthy (password p) then
    match split_once "://" (url p) with
    | Some (protocol, rest) =>
        Some (protocol +:+ "://" +:+ default "" (username p) +:+ ":"
              +:+ default "" (password p) +:+ "@" +:+ rest)
    | None => None
    end
  else Some (url p).

(** *** Start-up: [_init_providers], [_load_proxies] *)

Definition set_providers (v : list (string * AnyProvider)) (m : Manager) : Manager :=
  mkManager v (cost_tracker m) (active m) (burned m) (records m) (expiry m) (alerts m).

(** [d[key] = v] on a dict kept in insertion order: an existing key keeps its
    place. *)
Fixpoint dict_set {V} (key : string) (v : V) (d : list (string * V)) : list (string * V) :=
  match d with
  | [] => [(key, v)]
  | (k, w) :: rest =>
      if String.eqb k key then (k, v) :: rest else (k, w) :: dict_set key v rest
  end.

(** [d.get(key)] *)
Fixpoint dict_get {V} (key : string) (d : list (string * V)) : option V :=
  match d with
  | [] => None
  | (k, w) :: rest => if String.eqb k key then Some w else dict_get key rest
  end.

(** [_init_providers]; [env] is [os.environ]. *)
Definition _init_providers (env : gmap string string) : M unit :=
  (match env !! "BRIGHT_DATA_CUSTOMER", env !! "BRIGHT_DATA_PASSWORD",
         env !! "BRIGHT_DATA_ZONE" with
   | Some customer, Some pw, Some zone =>
       modify (fun m =>
         set_providers
           (dict_set "bright_data" (BrightData (mkBrightData customer pw zone))
              (providers m)) m)
   | _, _, _ => mret tt
   end) ;;
  (match env !! "OXYLABS_USERNAME", env !! "OXYLABS_PASSWORD" with
   | Some user, Some pw =>
       modify (fun m =>
         set_providers
           (dict_set "oxylabs" (Oxylabs (mkOxylabs user pw)) (providers m)) m)
   | _, _ => mret tt
   end).

Definition scard_active : M Z := gets (fun m => Z.of_nat (size (active m))).
Definition scard_burned : M Z := gets (fun m => Z.of_nat (size (burned m))).

(** [_load_proxies] *)
Definition _load_proxies (epoch : Z) : M unit :=
  active_count ← scard_active ;
  burned_count ← scard_burned ;
  if (active_count <? 10)%Z then _provision_proxies 20 epoch else mret tt.

(** [start], without the connection to Redis and the three tasks it
    creates. *)
Definition start (env : gmap string string) (epoch : Z) : M unit :=
  _init_providers env ;;
  _load_proxies epoch.

(** *** The rotation scheduler *)

(** The body of the loop of [_rotation_scheduler] for a proxy that was
    read: rotate if the sticky session is older than 15 minutes.  [now] is
    the reading of the clock for this proxy and [rnd] the random draw of the
    rotation. *)
Definition rotate_if_due (now : datetime) (epoch : Z) (rnd : Z) (proxy : Loaded)
  : M unit :=
  if truthy (sticky_session_id (attrs proxy)) then
    match last_used (attrs proxy) with
    | Some t =>
        let age_minutes := ((now - t) / 60)%Q in
        if Py.Qlt_bool 15 age_minutes then
          provs ← gets providers ;
          match dict_get (provider (attrs proxy)) provs with
          | Some prov =>
              match rotate_ip prov epoch rnd (attrs proxy) with
              | Ok rotated_proxy => _save_proxy rotated_proxy
              | Raise e => raise e
              end
          | None => mret tt
          end
        else mret tt
    | None => mret tt
    end
  else mret tt.

(** The loop of [_rotation_scheduler] over the URLs of the active set.
    [clock u] is the instant read for the proxy at [u] and [rnd u] the random
    draw made when it is rotated. *)
Fixpoint rotation_scan (clock : string -> datetime) (epoch : Z)
    (rnd : string -> Z) (active_proxies : list string) : M unit :=
  match active_proxies with
  | [] => mret tt
  | proxy_url :: rest =>
      proxy_data ← hgetall proxy_url ;
      match proxy_data with
      | None => rotation_scan clock epoch rnd rest
      | Some proxy_data =>
          rotate_if_due (clock proxy_url) epoch (rnd proxy_url)
            (from_dict proxy_data) ;;
          rotation_scan clock epoch rnd rest
      end
  end.

(** One pass of [_rotation_scheduler]. *)
Definition _rotation_scheduler_pass (clock : string -> datetime) (epoch : Z)
    (rnd : string -> Z) : M unit :=
  try_except (
    active_proxies ← smembers_active ;
    rotation_scan clock epoch rnd active_proxies).

(** *** The metrics keys of the store *)

(** The hash [metrics:proxy_health]. *)
Record HealthMetrics := mkHealthMetrics {
  hm_healthy : Z;
  hm_unhealthy : Z;
  hm_total : Z;
  hm_last_check : datetime
}.

(** The cost alert of [_cost_monitor]: its message interpolates the total,
    its payload carries the breakdown; the severity is ["warning"]. *)
Record CostAlert := mkCostAlert {
  ca_total_cost : Q;
  ca_breakdown : gmap string Q
}.

(** The manager together with the keys only the monitors and [get_stats]
    touch.  The cost alerts go to [system_alerts] like the burn alerts; they
    are kept in a list of their own, so the order between the two kinds of
    message is not recorded. *)
Record Service := mkService {
  manager : Manager;
  proxy_health : option HealthMetrics;       (* metrics:proxy_health *)
  proxy_cost_today : option Q;               (* metrics:proxy_cost_today *)
  proxy_cost_breakdown : gmap string Q;      (* metrics:proxy_cost_breakdown *)
  cost_alerts : list CostAlert
}.

Definition set_manager (v : Manager) (s : Service) : Service :=
  mkService v (proxy_health s) (proxy_cost_today s) (proxy_cost_breakdown s) (cost_alerts s).
Definition set_proxy_health (v : option HealthMetrics) (s : Service) : Service :=
  mkService (manager s) v (proxy_cost_today s) (proxy_cost_breakdown s) (cost_alerts s).
Definition set_proxy_cost_today (v : option Q) (s : Service) : Service :=
  mkService (manager s) (proxy_health s) v (proxy_cost_breakdown s) (cost_alerts s).
Definition set_proxy_cost_breakdown (v : gmap string Q) (s : Service) : Service :=
  mkService (manager s) (proxy_health s) (proxy_cost_today s) v (cost_alerts s).
Definition set_cost_alerts (v : list CostAlert) (s : Service) : Service :=
  mkService (manager s) (proxy_health s) (proxy_cost_today s) (proxy_cost_breakdown s) v.

(** A coroutine over the whole service. *)
Inductive OutcomeS (A : Type) :=
  | ReturnedS (a : A) (s : Service)
  | RaisedS (e : PyError) (s : Service).
Arguments ReturnedS {A} a s.
Arguments RaisedS {A} e s.

Definition MS (A : Type) : Type := Service -> OutcomeS A.

#[export] Instance MS_ret : MRet MS := fun A a s => ReturnedS a s.
#[export] Instance MS_bind : MBind MS := fun A B f c s =>
  match c s with
  | ReturnedS a s' => f a s'
  | RaisedS e s' => RaisedS e s'
  end.

(** A coroutine of the manager run inside the service. *)
Definition lift {A} (c : M A) : MS A := fun s =>
  match c (manager s) with
  | Returned a m => ReturnedS a (set_manager m s)
  | Raised e m => RaisedS e (set_manager m s)
  end.

Definition getsS {A} (f : Service -> A) : MS A := fun s => ReturnedS (f s) s.
Definition modifyS (f : Service -> Service) : MS unit := fun s => ReturnedS tt (f s).
Definition raiseS {A} (e : PyError) : MS A := fun s => RaisedS e s.

(** [try: body / except Exception: log] at the boundary of a loop. *)
Definition try_exceptS (body : MS unit) : MS unit := fun s =>
  match body s with
  | ReturnedS _ s' => ReturnedS tt s'
  | RaisedS _ s' => ReturnedS tt s'
  end.

Definition finalS {A} (o : OutcomeS A) : Service :=
  match o with
  | ReturnedS _ s => s
  | RaisedS _ s => s
  end.

(** *** The health monitor *)

(** The loop of [_health_monitor] over the URLs of the active set; it
    returns [(healthy_count, unhealthy_count)].  [clock u 0] and [clock u 1]
    are the instants at which the two evaluations of [health_score] of the
    proxy at [u] read the clock. *)
Fixpoint health_scan (clock : string -> nat -> datetime)
    (active_proxies : list string) (healthy_count unhealthy_count : Z)
  : M (Z * Z) :=
  match active_proxies with
  | [] => mret (healthy_count, unhealthy_count)
  | proxy_url :: rest =>
      proxy_data ← hgetall proxy_url ;
      match proxy_data with
      | None => health_scan clock rest healthy_count unhealthy_count
      | Some proxy_data =>
          let proxy := from_dict proxy_data in
          score ← of_result (loaded_health_score (clock proxy_url 0) proxy) ;
          if Py.Qlt_bool score 50 then
            score ← of_result (loaded_health_score (clock proxy_url 1) proxy) ;
            (if Py.Qlt_bool score 20
             then _burn_loaded proxy
             else mret tt) ;;
            health_scan clock rest healthy_count (unhealthy_count + 1)
          else health_scan clock rest (healthy_count + 1) unhealthy_count
      end
  end.

(** One pass of [_health_monitor]; [now] is the instant written as
    [last_check]. *)
Definition _health_monitor_pass (clock : string -> nat -> datetime)
    (now : datetime) (epoch : Z) : MS unit :=
  try_exceptS (
    active_proxies ← lift smembers_active ;
    counts ← lift (health_scan clock active_proxies 0 0) ;
    let healthy_count := fst counts in
    let unhealthy_count := snd counts in
    (if (healthy_count <? 10)%Z
     then lift (_provision_proxies (20 - healthy_count) epoch)
     else mret tt) ;;
    modifyS (set_proxy_health
      (Some (mkHealthMetrics healthy_count unhealthy_count
               (Z.of_nat (length active_proxies)) now)))).

(** *** The cost monitor *)

(** [round(x)] to the nearest integer, ties to the even one. *)
Definition round_half_even (q : Q) : Z :=
  let f := Qfloor q in
  match (q - inject_Z f ?= 1 # 2)%Q with
  | Lt => f
  | Gt => (f + 1)%Z
  | Eq => if Z.even f then f else (f + 1)%Z
  end.

(** [round(x, 2)] *)
Definition round2 (q : Q) : Q :=
  (inject_Z (round_half_even (q * 100)) / 100)%Q.

(** [total_cost] of the loop over [cost_tracker.items()]. *)
Definition total_cost (tracker : gmap string Q) : Q :=
  map_fold (fun _ cost acc => (acc + cost)%Q) 0%Q tracker.

(** One pass of [_cost_monitor].  With an empty ledger the mapping written
    to the breakdown is empty and the client refuses it: the pass ends
    there, after the total is stored. *)
Definition _cost_monitor_pass : MS unit :=
  try_exceptS (
    tracker ← getsS (fun s => cost_tracker (manager s)) ;
    let hourly_costs := round2 <$> tracker in
    let total := total_cost tracker in
    lift (modify (set_cost_tracker ∅)) ;;
    stored ← getsS proxy_cost_today ;
    let daily_total := (default 0 stored + total)%Q in
    modifyS (set_proxy_cost_today (Some daily_total)) ;;
    (if bool_decide (hourly_costs = ∅)
     then raiseS DataError
     else modifyS (fun s =>
            set_proxy_cost_breakdown (hourly_costs ∪ proxy_cost_breakdown s) s)) ;;
    if Py.Qlt_bool 5.0 total
    then modifyS (fun s =>
           set_cost_alerts (cost_alerts s ++ [mkCostAlert total hourly_costs]) s)
    else mret tt).

(** *** [get_stats] *)

Record Stats := mkStats {
  st_active : Z;
  st_burned : Z;
  st_providers : list string;
  st_cost_today : Q;
  st_excellent : Z;
  st_good : Z;
  st_fair : Z;
  st_poor : Z
}.

(** The loop of [get_stats] over the URLs of the active set, on the four
    counters of [health_breakdown].  [clock u] is the instant the evaluation
    of [health_score] of the proxy at [u] reads. *)
Fixpoint stats_scan (clock : string -> datetime) (active_proxies : list string)
    (excellent good fair poor : Z) : M (Z * Z * Z * Z) :=
  match active_proxies with
  | [] => mret (excellent, good, fair, poor)
  | proxy_url :: rest =>
      proxy_data ← hgetall proxy_url ;
      match proxy_data with
      | Some proxy_data =>
          let proxy := from_dict proxy_data in
          score ← of_result (loaded_health_score (clock proxy_url) proxy) ;
          if Qle_bool 90 score then
            stats_scan clock rest (excellent + 1) good fair poor
          else if Qle_bool 70 score then
            stats_scan clock rest excellent (good + 1) fair poor
          else if Qle_bool 50 score then
            stats_scan clock rest excellent good (fair + 1) poor
          else stats_scan clock rest excellent good fair (poor + 1)
      | None => stats_scan clock rest excellent good fair poor
      end
  end.

(** [get_stats] *)
Definition get_stats (clock : string -> datetime) : MS Stats :=
  active_proxies ← lift smembers_active ;
  burned_proxies ← lift (gets (fun m => elements (burned m))) ;
  provs ← lift (gets providers) ;
  stored ← getsS proxy_cost_today ;
  counts ← lift (stats_scan clock active_proxies 0 0 0 0) ;
  let '(excellent, good, fair, poor) := counts in
  mret (mkStats (Z.of_nat (length active_proxies))
          (Z.of_nat (length burned_proxies)) (fst <$> provs)
          (default 0%Q stored) excellent good fair poor).

(** *** [ProxiedClient.request] *)

(** What the HTTP exchange through the proxy gives: a response with the
    length of its content in bytes, or an exception (also the one of
    [raise_for_status]) with its text. *)
Inductive HttpResult :=
  | HttpOk (content_length : Z)
  | HttpError (message : string).

(** How [request] ends when no call into the manager raises: it returns the
    response, or raises [Exception("No proxy available")], the [ValueError]
    of [auth_url], or the exception of the exchange. *)
Inductive RequestOutcome :=
  | Responded (content_length : Z)
  | NoProxyAvailable
  | BadProxyUrl
  | RequestFailed (message : string).

(** [ProxiedClient.request].  [net] is the exchange, given the proxy URL
    with its credentials; [elapsed_ms] is the time it took.  The proxy is the
    object [get_proxy] built with [from_dict]; an exception of [get_proxy]
    or of [report_usage] (in the [finally] block, where it replaces the one
    of the exchange) passes to the caller. *)
Definition request (requirements : option Requirements)
    (clock : string -> nat -> datetime) (now : datetime)
    (epoch : Z) (net : string -> HttpResult) (elapsed_ms : Q) : M RequestOutcome :=
  proxy ← get_proxy requirements clock now epoch ;
  match proxy with
  | None => mret NoProxyAvailable
  | Some proxy =>
      match auth_url (attrs proxy) with
      | None => mret BadProxyUrl
      | Some proxies =>
          match net proxies with
          | HttpOk content_length =>
              let bandwidth_mb := (inject_Z content_length / (1024 * 1024))%Q in
              report_usage_loaded proxy true elapsed_ms bandwidth_mb None ;;
              mret (Responded content_length)
          | HttpError message =>
              report_usage_loaded proxy false elapsed_ms 0%Q (Some message) ;;
              mret (RequestFailed message)
          end
      end
  end.

(** *** Notions used to state properties of the above *)

(** The URL every proxy of a provider carries. *)
Definition provider_url (prov : AnyProvider) : string :=
  match prov with
  | BrightData _ => bd_base_url
  | Oxylabs _ => ox_base_url
  end.

(** Every hash is stored under its own URL, as [_save_proxy] stores it. *)
Definition keyed_by_url (m : Manager) : Prop :=
  forall u r, records m !! u = Some r -> h_url r = u.

(** The active set holds provider URLs only. *)
Definition only_provider_urls (m : Manager) : Prop :=
  active m ⊆ {[bd_base_url; ox_base_url]}.

(** A service around [ex_pool], before any pass of a monitor. *)
Definition ex_service : Service :=
  mkService ex_pool None None ∅ [].

(** The provider that rotates the proxy of a hash in a pass of the rotation
    scheduler that reads the clock at [now] for it, if the proxy is due. *)
Definition rotation_due (now : datetime) (provs : list (string * AnyProvider))
    (r : Hash) : option AnyProvider :=
  if negb (String.eqb (h_sticky_session_id r) "")
     && Py.Qlt_bool 15 ((now - h_last_used r) / 60)
  then dict_get (h_provider r) provs
  else None.

(** A manager with Bright Data registered and one active proxy of it, last
    used at instant 0. *)
Definition ex_sticky : Manager :=
  mkManager [("bright_data", BrightData (mkBrightData "cust" "secret" "z"))]
    ∅ {[bd_base_url]} ∅ {[bd_base_url := ex_hash]} ∅ [].

(** [all(key in os.environ for key in keys)] *)
Definition has_all (env : gmap string string) (keys : list string) : bool :=
  forallb (fun key => bool_decide (is_Some (env !! key))) keys.

(** An environment with the five variables of the two providers. *)
Definition ex_env : gmap string string :=
  {[ "BRIGHT_DATA_CUSTOMER" := "cust"; "BRIGHT_DATA_PASSWORD" := "secret";
     "BRIGHT_DATA_ZONE" := "z"; "OXYLABS_USERNAME" := "user";
     "OXYLABS_PASSWORD" := "secret" ]}.

(** What a pass of the rotation scheduler leaves alone: the registered
    providers, the ledger, the burned set, the alerts and the expiries. *)
Definition same_books (m m' : Manager) : Prop :=
  providers m' = providers m /\ cost_tracker m' = cost_tracker m /\
  burned m' = burned m /\ alerts m' = alerts m /\ expiry m' = expiry m.

(** The hashes met by a loop over [urls] whose proxies pass the type and
    location tests. *)
Definition matching (ptype loc : string) (m : Manager) (urls : list string)
  : list Loaded :=
  List.filter (matches ptype loc) (from_dict <$> omap (fun u => records m !! u) urls).


#[local] Set Warnings "-clear-no-such-hyp".

(** ** Basic facts *)

Section Rationals.
Local Open Scope Q_scope.

Lemma Qlt_bool_iff x y : Py.Qlt_bool x y = true <-> x < y.
Proof.
  unfold Py.Qlt_bool. rewrite negb_true_iff. split.
  - intros H. apply Qnot_le_lt. intros Hle.
    apply Qle_bool_iff in Hle. congruence.
  - intros H. destruct (Qle_bool y x) eqn:E; [|done].
    apply Qle_bool_iff in E. exfalso. by apply (Qlt_not_le x y).
Qed.

Lemma Qlt_bool_false x y : Py.Qlt_bool x y = false <-> y <= x.
Proof.
  unfold Py.Qlt_bool. rewrite negb_false_iff. apply Qle_bool_iff.
Qed.

Lemma py_max_spec a b : Py.max a b == Qmax a b.
Proof.
  unfold Py.max. destruct (Py.Qlt_bool a b) eqn:E.
  - apply Qlt_bool_iff in E. symmetry. apply Q.max_r. lra.
  - apply Qlt_bool_false in E. symmetry. by apply Q.max_l.
Qed.

Lemma py_min_spec a b : Py.min a b == Qmin a b.
Proof.
  unfold Py.min. destruct (Py.Qlt_bool b a) eqn:E.
  - apply Qlt_bool_iff in E. symmetry. apply Q.min_r. lra.
  - apply Qlt_bool_false in E. symmetry. by apply Q.min_l.
Qed.

Lemma inject_Z_pos z : (0 < z)%Z -> 0 < inject_Z z.
Proof. intros H. change 0 with (inject_Z 0). by rewrite <- Zlt_Qlt. Qed.

Lemma inject_Z_nonneg z : (0 <= z)%Z -> 0 <= inject_Z z.
Proof. intros H. change 0 with (inject_Z 0). by rewrite <- Zle_Qle. Qed.

(** With requests to divide by, [failure_rate] is the failure ratio in
    percent, so the burn threshold [failure_rate > 30] is
    [failures / requests > 0.30]. *)
Lemma failure_rate_percent p :
  (0 < requests p)%Z ->
  failure_rate p == inject_Z (failures p) / inject_Z (requests p) * 100.
Proof.
  intros H. unfold failure_rate. apply Z.ltb_lt in H. by rewrite H.
Qed.

Lemma should_burn_iff p :
  should_burn p = true <->
  0.30 < inject_Z (failures p) / inject_Z (requests p) /\ (10 < requests p)%Z.
Proof.
  unfold should_burn. rewrite andb_true_iff, Z.ltb_lt, Qlt_bool_iff.
  split; intros [H1 H2]; split; try done.
  - rewrite failure_rate_percent in H1 by lia.
    set (x := inject_Z (failures p) / inject_Z (requests p)) in *. lra.
  - rewrite failure_rate_percent by lia.
    set (x := inject_Z (failures p) / inject_Z (requests p)) in *. lra.
Qed.
End Rationals.

(** ** Running the store operations *)

Lemma sadd_member (u : string) (s : gset string) : u ∈ {[u]} ∪ s.
Proof. apply elem_of_union_l. by apply elem_of_singleton. Qed.

Lemma srem_not_member (u : string) (s : gset string) : u ∉ s ∖ {[u]}.
Proof. rewrite elem_of_difference, elem_of_singleton. tauto. Qed.

Lemma srem_absent (u : string) (s : gset string) : u ∉ s -> s ∖ {[u]} = s.
Proof.
  intros H. apply set_eq. intros x.
  rewrite elem_of_difference, elem_of_singleton. split; [tauto|].
  intros Hx. split; [done|]. congruence.
Qed.

Lemma sadd_present (u : string) (s : gset string) : u ∈ s -> {[u]} ∪ s = s.
Proof.
  intros H. apply set_eq. intros x.
  rewrite elem_of_union, elem_of_singleton. split; [|tauto].
  intros [->|Hx]; done.
Qed.

(** The store accepts exactly the objects without a [None] attribute. *)
Lemma encode_storable p : storable p <-> is_Some (encode p).
Proof.
  unfold storable, encode. split.
  - intros ([? ->] & [? ->] & [? ->] & [? ->] & [? ->] & [? ->]). by eexists.
  - intros [h Hh].
    destruct (location p), (username p), (password p), (sticky_session_id p),
      (last_used p), (last_error p); try discriminate.
    by repeat split.
Qed.

Lemma encode_not_storable p : ~ storable p -> encode p = None.
Proof.
  intros Hn. destruct (encode p) as [h|] eqn:E; [|done].
  exfalso. apply Hn. apply encode_storable. by eexists.
Qed.

Lemma storable_to_dict p : storable (to_dict p) <-> storable p.
Proof. reflexivity. Qed.

Lemma storable_dec p : storable p \/ ~ storable p.
Proof.
  destruct (encode p) as [h|] eqn:E.
  - left. apply encode_storable. by eexists.
  - right. intros [h Hh]%encode_storable. congruence.
Qed.

(** The fields of the hash of a stored object. *)
Lemma encode_fields p h :
  encode p = Some h ->
  h_url h = url p /\ h_provider h = provider p /\ h_proxy_type h = proxy_type p /\
  location p = Some (h_location h) /\ username p = Some (h_username h) /\
  password p = Some (h_password h) /\
  sticky_session_id p = Some (h_sticky_session_id h) /\
  h_requests h = requests p /\ h_failures h = failures p /\
  h_success h = success p /\ h_total_bandwidth_mb h = total_bandwidth_mb p /\
  last_used p = Some (h_last_used h) /\ last_error p = Some (h_last_error h) /\
  h_response_times h = response_times p.
Proof.
  unfold encode.
  destruct (location p), (username p), (password p), (sticky_session_id p),
    (last_used p), (last_error p); try discriminate.
  intros [= <-]. by repeat split.
Qed.

(** An object built by [from_dict] is stored again as the hash it came
    from, once its samples are cut to the last 100. *)
Lemma encode_from_dict h : encode (attrs (from_dict h)) = Some h.
Proof. by destruct h. Qed.

(** What [_save_proxy] does. *)
Lemma save_proxy_run p m :
  _save_proxy p m =
  match encode (to_dict p) with
  | Some h => Returned tt (set_records (<[url p := h]> (records m)) m)
  | None => Raised DataError m
  end.
Proof.
  unfold _save_proxy, hset. by destruct (encode (to_dict p)).
Qed.

Lemma usage_update_unfold p ok rt bw err m :
  report_usage p ok rt bw err m =
  let p' := usage_update p ok rt bw err in
  (p',
   (cost_tracker_add (provider p') (_calculate_cost p' bw) ;;
    _save_proxy p' ;;
    if should_burn p' then _burn_proxy p' else mret tt) m).
Proof. reflexivity. Qed.

(** What one burn does to the manager. *)
Lemma burn_proxy_run p m :
  exists m', _burn_proxy p m = Returned tt m' /\
    providers m' = providers m /\
    cost_tracker m' = cost_tracker m /\
    records m' = records m /\
    active m' = active m ∖ {[url p]} /\
    burned m' = {[url p]} ∪ burned m /\
    alerts m' = alerts m ++ [burn_alert p] /\
    expiry m' = match records m !! url p with
                | Some _ => <[url p := 86400%Z]> (expiry m)
                | None => expiry m
                end.
Proof.
  unfold _burn_proxy, srem_active, sadd_burned, expire, publish, modify,
    mbind, M_bind. simpl.
  destruct (records m !! url p); eexists; (split; [reflexivity|]); simpl; done.
Qed.

Lemma usage_update_fields p ok rt bw err :
  let p' := usage_update p ok rt bw err in
  url p' = url p /\ provider p' = provider p /\ proxy_type p' = proxy_type p /\
  last_used p' = last_used p /\
  requests p' = (requests p + 1)%Z /\
  total_bandwidth_mb p' = (total_bandwidth_mb p + bw)%Q /\
  response_times p' = response_times p ++ [rt] /\
  (if ok
   then success p' = (success p + 1)%Z /\ failures p' = failures p /\
        last_error p' = last_error p
   else success p' = success p /\ failures p' = (failures p + 1)%Z /\
        last_error p' = err).
Proof. unfold usage_update. destruct ok; simpl; by repeat split. Qed.

(** What one usage report does to the proxy object and to the manager: the
    object is updated and the ledger charged in any case; the record is
    saved, and the burn test reached, only when the store accepts the
    object. *)
Lemma report_usage_run p ok rt bw err m :
  let p' := usage_update p ok rt bw err in
  let m0 := charged p' bw m in
  fst (report_usage p ok rt bw err m) = p' /\
  match encode (to_dict p') with
  | None => snd (report_usage p ok rt bw err m) = Raised DataError m0
  | Some h =>
      exists m', snd (report_usage p ok rt bw err m) = Returned tt m' /\
        providers m' = providers m /\
        cost_tracker m' = cost_tracker m0 /\
        records m' = <[url p' := h]> (records m) /\
        if should_burn p'
        then active m' = active m ∖ {[url p']} /\
             burned m' = {[url p']} ∪ burned m /\
             alerts m' = alerts m ++ [burn_alert p'] /\
             expiry m' = <[url p' := 86400%Z]> (expiry m)
        else active m' = active m /\ burned m' = burned m /\
             alerts m' = alerts m /\ expiry m' = expiry m
  end.
Proof.
  intros p' m0. rewrite usage_update_unfold. fold p'. cbn [fst snd].
  split; [done|].
  unfold mbind, M_bind, cost_tracker_add, modify. fold (ledger m (provider p')).
  fold (charged p' bw m). fold m0. rewrite save_proxy_run.
  destruct (encode (to_dict p')) as [h|]; [|done].
  destruct (should_burn p') eqn:Hb.
  - match goal with |- context [_burn_proxy p' ?s] =>
      destruct (burn_proxy_run p' s) as (m' & -> & Hp & Hc & Hr & Ha & Hbn & Hal & He)
    end.
    cbn [records set_records providers cost_tracker active burned alerts expiry] in *.
    rewrite lookup_insert_eq in He.
    exists m'. by split_and!.
  - eexists. split; [reflexivity|]. by split_and!.
Qed.

(** The manager a report leaves keeps the providers, and its ledger is the
    charged one, whether the report returned or raised. *)
Lemma report_usage_final p ok rt bw err m :
  let p' := usage_update p ok rt bw err in
  let m' := final (snd (report_usage p ok rt bw err m)) in
  providers m' = providers m /\ cost_tracker m' = cost_tracker (charged p' bw m) /\
  active m' ⊆ active m /\ burned m ⊆ burned m'.
Proof.
  intros p' m'. destruct (report_usage_run p ok rt bw err m) as [_ Hrun].
  fold p' in Hrun. unfold m'.
  destruct (encode (to_dict p')) as [h|].
  - destruct Hrun as (m1 & -> & Hp & Hc & _ & Hb). cbn [final].
    destruct (should_burn p').
    + destruct Hb as (-> & -> & _). split_and!; try done; set_solver.
    + destruct Hb as (-> & -> & _). by split_and!.
  - rewrite Hrun. cbn [final]. by split_and!.
Qed.

Lemma report_many_cons p c calls m :
  report_many p (c :: calls) m =
  report_many (usage_update p (u_success c) (u_response_time c)
                 (u_bandwidth_mb c) (u_error c)) calls
    (final (snd (report_usage p (u_success c) (u_response_time c)
                   (u_bandwidth_mb c) (u_error c) m))).
Proof.
  cbn [report_many]. rewrite usage_update_unfold. reflexivity.
Qed.

(** After a sequence of reports the counters and the in-memory sample list
    of the object have grown by what was reported. *)
Lemma report_many_run calls : forall p m,
  let p' := fst (report_many p calls m) in
  url p' = url p /\
  requests p' = (requests p + Z.of_nat (length calls))%Z /\
  (success p' + failures p' = success p + failures p + Z.of_nat (length calls))%Z /\
  response_times p' = response_times p ++ (u_response_time <$> calls).
Proof.
  induction calls as [|c rest IH]; intros p m.
  - cbn. rewrite app_nil_r. repeat split; lia.
  - cbv zeta. rewrite report_many_cons.
    pose proof (usage_update_fields p (u_success c) (u_response_time c)
                  (u_bandwidth_mb c) (u_error c)) as Hf.
    set (p1 := usage_update _ _ _ _ _) in *. cbv zeta in Hf.
    destruct Hf as (Hu & _ & _ & _ & Hreq & _ & Hrt & Hcase).
    match goal with |- context [report_many p1 rest ?s] =>
      destruct (IH p1 s) as (Hurl & Hr & Hs & Ht) end.
    rewrite Hurl, Hr, Hs, Ht, Hu, Hreq, Hrt. cbn [length fmap list_fmap].
    split_and!; try done; try lia.
    + destruct (u_success c); destruct Hcase as (-> & -> & _); lia.
    + by rewrite <- app_assoc.
Qed.

Lemma pair_of_fst_snd {A B} (x : A * B) a b : fst x = a -> snd x = b -> x = (a, b).
Proof. destruct x. cbn. by intros -> ->. Qed.

Lemma storable_encode_to_dict p : storable p -> exists h, encode (to_dict p) = Some h.
Proof. intros Hs. by apply (encode_storable (to_dict p)) in Hs as [h Hh]; exists h. Qed.

(** A report keeps an object storable when it succeeded or carries an error
    text. *)
Lemma usage_update_storable p ok rt bw err :
  storable p -> ok = true \/ is_Some err ->
  storable (usage_update p ok rt bw err).
Proof.
  intros (? & ? & ? & ? & ? & ?) Hcase. unfold storable, usage_update.
  destruct ok; cbn; [done|]. destruct Hcase as [[=]|?]. done.
Qed.

Lemma report_many_storable calls : forall p m,
  storable p ->
  Forall (fun c => u_success c = true \/ is_Some (u_error c)) calls ->
  storable (fst (report_many p calls m)).
Proof.
  induction calls as [|c calls IH]; intros p m Hp Hcalls; [done|].
  apply Forall_cons in Hcalls as [Hc Hcalls].
  rewrite report_many_cons. apply IH; [|done]. by apply usage_update_storable.
Qed.

(** When the object is storable after the last report of a sequence, the
    hash under its URL is the one of that object. *)
Lemma report_many_saved calls : forall p c m,
  let p' := fst (report_many p (c :: calls) m) in
  let m' := snd (report_many p (c :: calls) m) in
  forall h, encode (to_dict p') = Some h -> records m' !! url p = Some h.
Proof.
  induction calls as [|c' calls IH]; intros p c m p' m' h Hh.
  - unfold p', m' in *. rewrite report_many_cons in *. cbn [report_many fst snd] in *.
    destruct (report_usage_run p (u_success c) (u_response_time c)
                (u_bandwidth_mb c) (u_error c) m) as [_ Hrun].
    cbv zeta in Hrun. rewrite Hh in Hrun.
    destruct Hrun as (m1 & -> & _ & _ & Hrec & _). cbn [final].
    rewrite Hrec.
    pose proof (usage_update_fields p (u_success c) (u_response_time c)
                  (u_bandwidth_mb c) (u_error c)) as (-> & _).
    apply lookup_insert_eq.
  - unfold p', m' in *. rewrite report_many_cons in *.
    pose proof (usage_update_fields p (u_success c) (u_response_time c)
                  (u_bandwidth_mb c) (u_error c)) as (<- & _).
    by apply IH.
Qed.

(** ** C3: [requests == successes + failures] *)

(** C3.  Every [report_usage] call adds one to [requests] and one to exactly
    one of [success] and [failures] of the object it is given, whether it
    then returns or the save raises; it returns when the updated object has
    no [None] attribute.  Hence a proxy whose counters balance
    ([requests = success + failures], as for every proxy a provider creates)
    still balances after any sequence of calls. *)
Theorem report_usage_request_balance (p : Proxy) :
  (forall ok rt bw err m,
     exists p1 o, report_usage p ok rt bw err m = (p1, o) /\
       requests p1 = (requests p + 1)%Z /\
       (if ok
        then success p1 = (success p + 1)%Z /\ failures p1 = failures p
        else success p1 = success p /\ failures p1 = (failures p + 1)%Z) /\
       (storable p1 -> exists m1, o = Returned tt m1)) /\
  (requests p = (success p + failures p)%Z ->
   forall calls m,
     exists p' m', report_many p calls m = (p', m') /\
       requests p' = (success p' + failures p')%Z).
Proof.
  split.
  - intros ok rt bw err m.
    destruct (report_usage_run p ok rt bw err m) as [Hobj Hrun].
    cbv zeta in Hrun.
    exists (usage_update p ok rt bw err), (snd (report_usage p ok rt bw err m)).
    split; [by apply pair_of_fst_snd|].
    split_and!.
    + unfold usage_update. by destruct ok.
    + unfold usage_update. by destruct ok.
    + intros [h Hh]%storable_encode_to_dict. rewrite Hh in Hrun.
      destruct Hrun as (m1 & -> & _). by exists m1.
  - intros Hbal calls m.
    destruct (report_many_run calls p m) as (_ & Hreq & Hsum & _).
    exists (fst (report_many p calls m)), (snd (report_many p calls m)).
    split; [by apply pair_of_fst_snd|]. lia.
Qed.

Lemma report_usage_request_balance_witness :
  exists p' m',
    report_many ex_fresh [mkUsage true 120 1 None; mkUsage false 900 0 (Some "timeout")]
      ex_empty = (p', m') /\
    requests p' = (success p' + failures p')%Z.
Proof.
  apply (proj2 (report_usage_request_balance ex_fresh)). reflexivity.
Defined.

(** ** C1: the burn policy of [report_usage] *)


(** What a report does when the store refuses the updated object: the save
    raises after the ledger was charged, and nothing else has changed; the
    burn test is not reached. *)
Lemma report_usage_refused p ok rt bw err m :
  let p' := usage_update p ok rt bw err in
  ~ storable p' ->
  report_usage p ok rt bw err m = (p', Raised DataError (charged p' bw m)).
Proof.
  intros p' Hn. destruct (report_usage_run p ok rt bw err m) as [Hobj Hrun].
  cbv zeta in Hrun. fold p' in Hobj, Hrun.
  rewrite (encode_not_storable (to_dict p')) in Hrun by done.
  by apply pair_of_fst_snd.
Qed.

(** C1, on the specification's example.  The proxy is one as Oxylabs hands
    them out, with 20 requests of which 7 failed and its URL in the active
    set.  Its next report, whatever it reports, updates the object (which
    then meets the burn condition) and raises [DataError] in [_save_proxy],
    because [to_dict] leaves [None] values in the mapping; the burn test is
    not reached: the URL stays in the active set, the burned set stays
    empty, nothing is stored and no alert is published. *)
Theorem report_usage_raises_before_burn ok rt bw err :
  exists p' m',
    report_usage ex_proxy ok rt bw err ex_manager = (p', Raised DataError m') /\
    requests p' = 21%Z /\ burn_condition p' /\
    url ex_proxy ∈ active m' /\ burned m' = ∅ /\
    records m' = ∅ /\ alerts m' = [].
Proof.
  pose proof (report_usage_refused ex_proxy ok rt bw err ex_manager) as Hrun.
  cbv zeta in Hrun. eexists _, _. split.
  { apply Hrun. intros (_ & _ & _ & [? Hs] & _). destruct ok; discriminate. }
  cbn [charged active burned records alerts set_cost_tracker ex_manager].
  split; [by destruct ok|]. split; [apply should_burn_iff; by destruct ok|].
  split; [by apply elem_of_singleton|]. done.
Qed.

Lemma failing_are_burned_empty : failing_are_burned ex_empty.
Proof. intros u r Hr. cbn [records ex_empty] in Hr. by rewrite lookup_empty in Hr. Qed.

(** ** C6: burning twice *)

(** C6, as the code has it.  [_burn_proxy] never raises and a second burn of
    the same proxy leaves the active and the burned set as the first burn
    left them; but every invocation publishes its alert, so the second burn
    publishes a second alert.  The same holds when the second burn comes from
    a further [report_usage] call that is saved and still meets the burn
    condition. *)
Theorem burn_again_keeps_sets_and_alerts_again p m :
  exists m1 m2,
    _burn_proxy p m = Returned tt m1 /\
    _burn_proxy p m1 = Returned tt m2 /\
    active m2 = active m1 /\ burned m2 = burned m1 /\
    alerts m1 = alerts m ++ [burn_alert p] /\
    alerts m2 = alerts m1 ++ [burn_alert p] /\
    forall ok rt bw err,
      let p' := usage_update p ok rt bw err in
      should_burn p' = true -> storable p' ->
      exists m3, report_usage p ok rt bw err m1 = (p', Returned tt m3) /\
        active m3 = active m1 /\ burned m3 = burned m1 /\
        alerts m3 = alerts m1 ++ [burn_alert p'].
Proof.
  destruct (burn_proxy_run p m) as (m1 & Hrun1 & _ & _ & _ & Ha1 & Hb1 & Hal1 & _).
  destruct (burn_proxy_run p m1) as (m2 & Hrun2 & _ & _ & _ & Ha2 & Hb2 & Hal2 & _).
  assert (Hout : url p ∉ active m1) by (rewrite Ha1; apply srem_not_member).
  assert (Hin : url p ∈ burned m1) by (rewrite Hb1; apply sadd_member).
  exists m1, m2. split_and!; try done.
  - rewrite Ha2. by apply srem_absent.
  - rewrite Hb2. by apply sadd_present.
  - intros ok rt bw err p' Hburn [h Hh]%storable_encode_to_dict.
    destruct (report_usage_run p ok rt bw err m1) as [Hobj Hrun].
    cbv zeta in Hrun. fold p' in Hobj, Hrun. rewrite Hh, Hburn in Hrun.
    destruct Hrun as (m3 & Hrun3 & _ & _ & _ & Ha3 & Hb3 & Hal3 & _).
    assert (Hurl : url p' = url p) by (unfold p', usage_update; by destruct ok).
    exists m3. split_and!; try done.
    + by apply pair_of_fst_snd.
    + rewrite Ha3, Hurl. by apply srem_absent.
    + rewrite Hb3, Hurl. by apply sadd_present.
Qed.

Lemma burn_again_keeps_sets_and_alerts_again_witness :
  exists m1 m3,
    _burn_proxy ex_failing ex_manager = Returned tt m1 /\
    report_usage ex_failing false 900 0 (Some "timeout") m1
      = (usage_update ex_failing false 900 0 (Some "timeout"), Returned tt m3) /\
    active m3 = active m1 /\ burned m3 = burned m1 /\
    length (alerts m1) = 1 /\ length (alerts m3) = 2.
Proof.
  destruct (burn_again_keeps_sets_and_alerts_again ex_failing ex_manager)
    as (m1 & m2 & Hrun1 & _ & _ & _ & Hal1 & _ & Hreport).
  destruct (Hreport false 900%Q 0%Q (Some "timeout") eq_refl)
    as (m3 & Hrun3 & Ha & Hb & Hal3).
  { repeat split; by eexists. }
  exists m1, m3. split_and!; try done.
  - by rewrite Hal1.
  - by rewrite Hal3, Hal1.
Defined.

(** C6, as stated, fails: burning [ex_failing] twice publishes two alerts,
    and so do two failed reports on it. *)
Lemma second_burn_publishes_second_alert :
  exists m1 m2,
    _burn_proxy ex_failing ex_manager = Returned tt m1 /\
    _burn_proxy ex_failing m1 = Returned tt m2 /\
    alerts m1 = [burn_alert ex_failing] /\
    alerts m2 = [burn_alert ex_failing; burn_alert ex_failing] /\
    exists p1 m3 p2 m4,
      report_usage ex_failing false 900 0 (Some "timeout") ex_manager
        = (p1, Returned tt m3) /\
      report_usage p1 false 900 0 (Some "timeout") m3 = (p2, Returned tt m4) /\
      alerts m3 = [burn_alert p1] /\
      alerts m4 = [burn_alert p1; burn_alert p2].
Proof.
  destruct (burn_proxy_run ex_failing ex_manager)
    as (m1 & Hrun1 & _ & _ & _ & _ & _ & Hal1 & _).
  destruct (burn_proxy_run ex_failing m1)
    as (m2 & Hrun2 & _ & _ & _ & _ & _ & Hal2 & _).
  exists m1, m2. split_and!; try done.
  { by rewrite Hal2, Hal1. }
  destruct (report_usage_run ex_failing false 900 0 (Some "timeout") ex_manager)
    as [Hobj3 Hrun3].
  cbv zeta in Hrun3.
  set (p1 := usage_update ex_failing false 900 0 (Some "timeout")) in *.
  destruct (report_usage_run p1 false 900 0 (Some "timeout")
              (final (snd (report_usage ex_failing false 900 0 (Some "timeout") ex_manager))))
    as [Hobj4 Hrun4].
  cbv zeta in Hrun4.
  set (p2 := usage_update p1 false 900 0 (Some "timeout")) in *.
  assert (H1 : exists h, encode (to_dict p1) = Some h) by (by eexists).
  assert (H2 : exists h, encode (to_dict p2) = Some h) by (by eexists).
  destruct H1 as (h1 & Hh1). destruct H2 as (h2 & Hh2).
  rewrite Hh1 in Hrun3. rewrite Hh2 in Hrun4.
  change (should_burn p1) with true in Hrun3.
  change (should_burn p2) with true in Hrun4.
  destruct Hrun3 as (m3 & Hr3 & _ & _ & _ & _ & _ & Hal3 & _).
  rewrite Hr3 in Hrun4, Hobj4. cbn [final] in Hrun4, Hobj4.
  destruct Hrun4 as (m4 & Hr4 & _ & _ & _ & _ & _ & Hal4 & _).
  exists p1, m3, p2, m4. split_and!.
  - by apply pair_of_fst_snd.
  - by apply pair_of_fst_snd.
  - done.
  - by rewrite Hal4, Hal3.
Qed.

(** ** C7: cost accounting *)

(** C7.  Every [report_usage] call adds to the ledger entry of the proxy's
    provider the cost [(bandwidth_mb / 1024) * rate], with rate 15.0 for
    residential, 3.0 for isp and 0.5 for datacenter proxies, plus 0.001 for
    residential proxies only (any other type pays its rate, 1.0 when the type
    is unknown, and no surcharge); no other entry changes.  The ledger is
    charged before the save, so this holds of the manager the call leaves
    whether it returned or raised.  So 2048 MB on a residential proxy in one
    request add 30.001. *)
Theorem report_usage_adds_cost p ok rt bw err m :
  exists p' o cost, report_usage p ok rt bw err m = (p', o) /\
    (ledger (final o) (provider p) == ledger m (provider p) + cost)%Q /\
    (forall key, key <> provider p -> ledger (final o) key = ledger m key) /\
    (proxy_type p = "residential" -> (cost == bw / 1024 * 15.0 + 0.001)%Q) /\
    (proxy_type p = "isp" -> (cost == bw / 1024 * 3.0)%Q) /\
    (proxy_type p = "datacenter" -> (cost == bw / 1024 * 0.5)%Q) /\
    (proxy_type p <> "residential" ->
     (cost == bw / 1024 * default 1.0 (cost_per_gb (proxy_type p)))%Q) /\
    (proxy_type p = "residential" -> (bw == 2048)%Q -> (cost == 30.001)%Q).
Proof.
  destruct (report_usage_final p ok rt bw err m) as (_ & Hcost & _).
  cbv zeta in Hcost.
  set (p' := usage_update p ok rt bw err) in *.
  assert (Hprov : provider p' = provider p) by (unfold p', usage_update; by destruct ok).
  assert (Htype : proxy_type p' = proxy_type p) by (unfold p', usage_update; by destruct ok).
  exists (fst (report_usage p ok rt bw err m)), (snd (report_usage p ok rt bw err m)),
    (_calculate_cost p' bw).
  split; [by apply pair_of_fst_snd|].
  unfold ledger at 1 3. rewrite Hcost. unfold charged. cbn [cost_tracker set_cost_tracker].
  rewrite Hprov. split_and!.
  - by rewrite lookup_insert_eq.
  - intros key Hne. by rewrite lookup_insert_ne.
  - intros Hty. unfold _calculate_cost. rewrite Htype, Hty. reflexivity.
  - intros Hty. unfold _calculate_cost. rewrite Htype, Hty. reflexivity.
  - intros Hty. unfold _calculate_cost. rewrite Htype, Hty. reflexivity.
  - intros Hty. unfold _calculate_cost. rewrite Htype.
    apply String.eqb_neq in Hty. rewrite Hty. reflexivity.
  - intros Hty Hbw. unfold _calculate_cost. rewrite Htype, Hty. simpl.
    rewrite Hbw. reflexivity.
Qed.

Lemma report_usage_adds_cost_witness :
  exists p' o cost,
    report_usage ex_proxy true 250 2048 None ex_manager = (p', o) /\
    (ledger (final o) "oxylabs" == 0 + cost)%Q /\ (cost == 30.001)%Q.
Proof.
  destruct (report_usage_adds_cost ex_proxy true 250 2048 None ex_manager)
    as (p' & o & cost & Hrun & Hledger & _ & _ & _ & _ & _ & Hex).
  exists p', o, cost. split; [exact Hrun|]. split; [exact Hledger|].
  apply Hex; reflexivity.
Defined.

(** The numeric examples on binary64 floats: the cost example gives the
    double that the literal 30.001 denotes, and a proxy with 20 requests and
    7 failures passes the burn threshold after its next report, whether it
    succeeds (7 of 21) or fails (8 of 21). *)
Lemma binary64_examples :
  Binary64._calculate_cost "residential" 2048%float = Binary64.cost_example /\
  PrimFloat.ltb 30%float (Binary64.failure_rate 7%float 21%float) = true /\
  PrimFloat.ltb 30%float (Binary64.failure_rate 8%float 21%float) = true.
Proof. split_and!; vm_compute; reflexivity. Qed.

(** ** C9: session rotation *)

Lemma split_nonempty sep s : Str.split sep s <> [].
Proof.
  destruct s as [|a s]; simpl; [done|].
  destruct (Ascii.eqb a sep); [done|].
  by destruct (Str.split sep s).
Qed.

Lemma split_snoc sep s : exists front old, Str.split sep s = front ++ [old].
Proof.
  pose proof (split_nonempty sep s) as Hne.
  destruct (Str.split sep s) as [|x l] using rev_ind; [done|].
  by exists l, x.
Qed.

Lemma set_last_snoc {A} (v old : A) front :
  Str.set_last v (front ++ [old]) = Ok (front ++ [v]).
Proof.
  induction front as [|x front IH]; [done|].
  change ((x :: front) ++ [old]) with (x :: (front ++ [old])).
  simpl. rewrite IH. by destruct (front ++ [old]) eqn:E; [destruct front|].
Qed.

(** The decimal rendering of an [int] has digits and a sign only, so the
    parts of a Bright Data session id can be read back from it. *)
Lemma pretty_N_char_digit x : has_char (pretty_N_char x) "0123456789" = true.
Proof. unfold pretty_N_char. by repeat case_match. Qed.

Lemma pretty_N_go_has_char c x : forall s,
  has_char c (pretty_N_go x s) = true -> has_char c "0123456789" = true \/ has_char c s = true.
Proof.
  induction (N.lt_wf_0 x) as [x _ IH]; intros s Hc.
  destruct (decide (x = 0)%N) as [->|Hx].
  - right. by rewrite pretty_N_go_0 in Hc.
  - rewrite pretty_N_go_step in Hc by lia.
    apply IH in Hc; [|apply N.div_lt; lia].
    destruct Hc as [Hc|Hc]; [by left|].
    cbn [has_char] in Hc. apply orb_true_iff in Hc as [Hc|Hc]; [|by right].
    left. apply Ascii.eqb_eq in Hc. subst c. apply pretty_N_char_digit.
Qed.

Lemma of_int_has_char c z :
  has_char c (Str.of_int z) = true -> has_char c "-0123456789" = true.
Proof.
  assert (Hdigit : has_char c "0123456789" = true -> has_char c "-0123456789" = true).
  { intros H. change (has_char c "-0123456789")
      with (Ascii.eqb "-" c || has_char c "0123456789"). rewrite H. apply orb_true_r. }
  assert (Hpos : forall p, has_char c (pretty (Npos p)) = true -> has_char c "0123456789" = true).
  { intros p. unfold pretty, pretty_N. destruct (decide (N.pos p = 0%N)); [done|].
    intros [H|H]%pretty_N_go_has_char; done. }
  unfold Str.of_int, pretty. destruct z as [|p|p]; cbn [pretty_Z].
  - intros H. apply Hdigit. cbn [has_char] in *.
    apply orb_true_iff in H as [H|H]; [|done]. by rewrite H.
  - intros H. apply Hdigit, (Hpos p), H.
  - change (has_char c ("-" +:+ pretty p))
      with (Ascii.eqb "-" c || has_char c (pretty (Npos p))).
    intros [H|H]%orb_true_iff.
    + cbn [has_char]. by rewrite H.
    + apply Hdigit, (Hpos p), H.
Qed.

Lemma app_sep_inj c s1 : forall s2 t1 t2,
  has_char c s1 = false -> has_char c s2 = false ->
  s1 +:+ String c t1 = s2 +:+ String c t2 -> s1 = s2 /\ t1 = t2.
Proof.
  induction s1 as [|a s1 IH]; intros [|b s2] t1 t2 H1 H2 Heq;
    cbn [has_char String.append] in *.
  - by injection Heq.
  - injection Heq as <- _. by rewrite Ascii.eqb_refl in H2.
  - injection Heq as -> _. by rewrite Ascii.eqb_refl in H1.
  - injection Heq as <- Heq.
    apply orb_false_iff in H1 as [_ H1]. apply orb_false_iff in H2 as [_ H2].
    destruct (IH _ _ _ H1 H2 Heq) as [-> ->]. done.
Qed.

Lemma bd_session_id_inj e r e' r' :
  bd_session_id e r = bd_session_id e' r' -> e = e' /\ r = r'.
Proof.
  unfold bd_session_id. intros Heq. apply String.app_inj in Heq.
  assert (Hno : forall z, has_char "_" (Str.of_int z) = false).
  { intros z. destruct (has_char "_" (Str.of_int z)) eqn:E; [|done].
    apply of_int_has_char in E. discriminate E. }
  apply (app_sep_inj "_"%char) in Heq as [He Hr]; [|apply Hno..].
  split; by apply (inj pretty).
Qed.

Lemma join_split c s : Str.join (String c "") (Str.split c s) = s.
Proof.
  unfold Str.join. induction s as [|a s IH]; [done|]. simpl.
  pose proof (split_nonempty c s) as Hne.
  destruct (Ascii.eqb_spec a c) as [->|Hac].
  - destruct (Str.split c s) as [|w ws]; [done|]. simpl in *. by rewrite IH.
  - destruct (Str.split c s) as [|w ws]; [done|].
    destruct ws as [|w' ws]; simpl in *; by rewrite <- IH.
Qed.

Lemma join_snoc_inj sep front a b :
  Str.join sep (front ++ [a]) = Str.join sep (front ++ [b]) -> a = b.
Proof.
  unfold Str.join. induction front as [|x front IH]; simpl; [done|].
  destruct front as [|y front]; simpl in *.
  - intros H. by do 2 apply String.app_inj in H.
  - intros H. do 2 apply String.app_inj in H. by apply IH.
Qed.

(** C9.  For both providers [rotate_ip] returns the proxy with a freshly
    generated session id (drawn from the clock and the random number, not
    from the old id) in its credentials and leaves everything else as it
    was: url, provider, proxy type, location, password and all rolling
    stats.  Bright Data stores the new id in [sticky_session_id] and in
    [username], and it differs from an old id made at another instant or
    from another draw.  Oxylabs replaces the last dash-separated part of
    [username], which must be present; the user name changes whenever the
    new part differs from the one it replaces. *)
Theorem rotate_ip_changes_identity_only (prov : AnyProvider) epoch rnd p :
  match prov with
  | BrightData _ => True
  | Oxylabs _ => is_Some (username p)
  end ->
  exists p', rotate_ip prov epoch rnd p = Ok p' /\
    url p' = url p /\ provider p' = provider p /\
    proxy_type p' = proxy_type p /\ location p' = location p /\
    password p' = password p /\
    requests p' = requests p /\ success p' = success p /\
    failures p' = failures p /\
    total_bandwidth_mb p' = total_bandwidth_mb p /\
    response_times p' = response_times p /\
    last_used p' = last_used p /\ last_error p' = last_error p /\
    match prov with
    | BrightData self =>
        sticky_session_id p' = Some (bd_session_id epoch rnd) /\
        username p' = Some (bd_username self (bd_session_id epoch rnd)) /\
        forall e0 r0,
          sticky_session_id p = Some (bd_session_id e0 r0) ->
          (e0, r0) <> (epoch, rnd) ->
          sticky_session_id p' <> sticky_session_id p
    | Oxylabs self =>
        sticky_session_id p' = sticky_session_id p /\
        exists u front old,
          username p = Some u /\ Str.split "-" u = front ++ [old] /\
          username p' = Some (Str.join "-" (front ++ [ox_session_token epoch rnd])) /\
          (old <> ox_session_token epoch rnd -> username p' <> username p)
    end.
Proof.
  destruct prov as [self|self]; simpl.
  - intros _. eexists. split; [reflexivity|]. split_and!; try reflexivity.
    intros e0 r0 Hold Hne Heq.
    cbn [sticky_session_id set_username set_sticky_session_id] in Heq.
    rewrite Hold in Heq. apply (inj Some) in Heq.
    apply bd_session_id_inj in Heq as [-> ->]. done.
  - intros [u Hu]. unfold ox_rotate_ip. rewrite Hu.
    destruct (split_snoc "-" u) as (front & old & Hsplit).
    rewrite Hsplit, set_last_snoc.
    eexists. split; [reflexivity|]. simpl. split_and!; try reflexivity.
    exists u, front, old. split_and!; try done.
    intros Hne [= Heq]. apply Hne.
    rewrite <- (join_split "-" u), Hsplit in Heq.
    symmetry. by apply join_snoc_inj in Heq.
Qed.

Lemma rotate_ip_changes_identity_only_witness :
  exists p',
    rotate_ip (Oxylabs (mkOxylabs "user" "secret")) 1700000900 123 ex_proxy = Ok p' /\
    requests p' = 20%Z /\ failures p' = 7%Z /\ success p' = 13%Z /\
    username p' = Some "customer-user-cc-us-sessid-1700000900123".
Proof.
  destruct (rotate_ip_changes_identity_only (Oxylabs (mkOxylabs "user" "secret"))
              1700000900 123 ex_proxy (ex_intro _ _ eq_refl))
    as (p' & Hrot & _ & _ & _ & _ & _ & Hreq & Hsucc & Hfail & _ & _ & _ & _ & _ & Huser).
  exists p'. split; [exact Hrot|]. split_and!; try done.
  destruct Huser as (u & front & old & Hu & Hsplit & -> & _).
  injection Hu as <-.
  change (Str.split "-" "customer-user-cc-us-sessid-17000000000")
    with (["customer"; "user"; "cc"; "us"; "sessid"] ++ ["17000000000"]) in Hsplit.
  apply app_inj_tail in Hsplit as [<- _]. reflexivity.
Defined.


(** ** The health score *)

Section HealthScore.
Local Open Scope Q_scope.

Lemma health_score_unfold now p :
  health_score now p =
  if (requests p =? 0)%Z then 100
  else Py.min 100 (success_rate p + time_score (avg_response_time p)
                   + recency_score now (last_used p)).
Proof. reflexivity. Qed.

Lemma py_max_cases a b :
  (a < b /\ Py.max a b = b) \/ (b <= a /\ Py.max a b = a).
Proof.
  unfold Py.max. destruct (Py.Qlt_bool a b) eqn:E.
  - left. by apply Qlt_bool_iff in E.
  - right. by apply Qlt_bool_false in E.
Qed.

Lemma py_min_cases a b :
  (b < a /\ Py.min a b = b) \/ (a <= b /\ Py.min a b = a).
Proof.
  unfold Py.min. destruct (Py.Qlt_bool b a) eqn:E.
  - left. by apply Qlt_bool_iff in E.
  - right. by apply Qlt_bool_false in E.
Qed.

Lemma foldl_plus_nonneg l :
  Forall (Qle 0) l -> forall acc, 0 <= acc -> 0 <= foldl Qplus acc l.
Proof.
  induction 1 as [|x l Hx Hl IH]; intros acc Hacc; simpl; [done|].
  apply IH. lra.
Qed.

Lemma sum_nonneg l : Forall (Qle 0) l -> 0 <= Py.sum l.
Proof. intros Hl. apply foldl_plus_nonneg; [done|lra]. Qed.

Lemma last_n_nonempty {A} (l : list A) : l <> [] -> Py.last_n 100 l <> [].
Proof.
  intros Hne Hnil. apply (f_equal length) in Hnil.
  unfold Py.last_n in Hnil. rewrite length_drop in Hnil. simpl in Hnil.
  destruct l; [done|]. simpl in Hnil. lia.
Qed.

(** The divisor in [avg_response_time] is never zero. *)
Lemma avg_divisor_positive {A} (l : list A) : l <> [] -> 0 < Py.len (Py.last_n 100 l).
Proof.
  intros Hne. apply last_n_nonempty in Hne. unfold Py.len.
  apply inject_Z_pos. destruct (Py.last_n 100 l); [done|]. simpl. lia.
Qed.

Lemma div_nonneg a b : 0 <= a -> 0 < b -> 0 <= a / b.
Proof. intros Ha Hb. apply Qle_shift_div_l; [done|]. lra. Qed.

Lemma avg_response_time_nonneg p :
  Forall (Qle 0) (response_times p) -> 0 <= avg_response_time p.
Proof.
  intros Hl. unfold avg_response_time.
  destruct (response_times p) as [|x l] eqn:E; [lra|].
  apply div_nonneg.
  - apply sum_nonneg. unfold Py.last_n. by apply Forall_drop.
  - by apply avg_divisor_positive.
Qed.

Lemma time_score_bounds a : 0 <= time_score a <= 30.
Proof.
  unfold time_score. destruct (Py.Qlt_bool 0 a) eqn:E; [|lra].
  apply Qlt_bool_iff in E.
  assert (0 < a / 50) by (apply Qlt_shift_div_l; lra).
  destruct (py_max_cases 0 (30 - a / 50)) as [[? ->]|[? ->]]; lra.
Qed.

Lemma time_score_proper a b : a == b -> time_score a == time_score b.
Proof.
  intros Hab. unfold time_score.
  destruct (Py.Qlt_bool 0 a) eqn:Ea, (Py.Qlt_bool 0 b) eqn:Eb.
  - assert (a / 50 == b / 50) by (by rewrite Hab).
    destruct (py_max_cases 0 (30 - a / 50)) as [[? ->]|[? ->]],
             (py_max_cases 0 (30 - b / 50)) as [[? ->]|[? ->]]; lra.
  - apply Qlt_bool_iff in Ea. apply Qlt_bool_false in Eb. lra.
  - apply Qlt_bool_false in Ea. apply Qlt_bool_iff in Eb. lra.
  - lra.
Qed.

Lemma recency_score_nonneg now last : 0 <= recency_score now last.
Proof.
  unfold recency_score. destruct last as [t|]; [|lra]. simpl.
  destruct (py_max_cases 0 (10 - (now - t) / 60 / 6)) as [[? ->]|[? ->]]; lra.
Qed.

Lemma recency_score_le_10 now last :
  (forall t, last = Some t -> t <= now) -> recency_score now last <= 10.
Proof.
  intros Hpast. unfold recency_score. destruct last as [t|]; [|lra]. simpl.
  specialize (Hpast t eq_refl).
  assert (0 <= (now - t) / 60 / 6).
  { apply div_nonneg; [|lra]. apply div_nonneg; lra. }
  destruct (py_max_cases 0 (10 - (now - t) / 60 / 6)) as [[? ->]|[? ->]]; lra.
Qed.

Lemma success_rate_nonneg p :
  (0 <= success p)%Z -> 0 <= success_rate p.
Proof.
  intros Hs. unfold success_rate. destruct (0 <? requests p)%Z eqn:E; [|lra].
  apply Z.ltb_lt in E.
  assert (0 <= inject_Z (success p) / inject_Z (requests p)).
  { apply div_nonneg; [by apply inject_Z_nonneg | by apply inject_Z_pos]. }
  lra.
Qed.
End HealthScore.

(** The hypotheses used below hold of every proxy the manager handles:
    providers create proxies with [stats_ok], and a report with a
    non-negative elapsed time keeps it. *)
Lemma get_proxies_stats_ok (prov : AnyProvider) epoch count p :
  p ∈ get_proxies prov epoch count -> stats_ok p.
Proof.
  destruct prov as [self|self]; simpl;
    unfold bd_get_proxies, ox_get_proxies;
    intros (i & -> & _)%list_elem_of_fmap; by repeat split.
Qed.

Lemma usage_update_stats_ok p ok rt bw err :
  stats_ok p -> (0 <= rt)%Q -> stats_ok (usage_update p ok rt bw err).
Proof.
  intros (Hs & Hf & Hbal & Hrt) Hpos. unfold stats_ok, usage_update.
  destruct ok; simpl; (split_and!; [lia|lia|lia|]);
    (apply Forall_app; split; [done | by constructor]).
Qed.

(** The sum and the retained samples of the specification are those of the
    code, written differently. *)
Lemma foldl_Qplus_shift (l : list Q) : forall a,
  (foldl Qplus a l == a + foldl Qplus 0 l)%Q.
Proof.
  induction l as [|x l IH]; intros a; simpl.
  - lra.
  - rewrite (IH (a + x)%Q), (IH (0 + x)%Q). lra.
Qed.

Lemma sum_fold_right (l : list Q) : (Py.sum l == fold_right Qplus 0 l)%Q.
Proof.
  unfold Py.sum. induction l as [|x l IH]; [reflexivity|].
  cbn [foldl fold_right]. rewrite (foldl_Qplus_shift l (0 + x)%Q), IH. lra.
Qed.

Lemma retained_samples_last_n p :
  retained_samples p = Py.last_n 100 (response_times p).
Proof.
  unfold retained_samples, Py.last_n. by rewrite take_reverse, reverse_involutive.
Qed.

Lemma avg_response_time_mean p :
  response_times p <> [] ->
  (avg_response_time p == mean (retained_samples p))%Q.
Proof.
  intros Hne. unfold avg_response_time, mean. rewrite retained_samples_last_n.
  destruct (response_times p) as [|x l] eqn:E; [done|].
  unfold Py.len. by rewrite sum_fold_right.
Qed.

(** ** C4: the health score formula *)

(** C4, as the code has it.  For every proxy whose [requests] and [success]
    counters are not negative, [health_score] is 100 when it has no request,
    and otherwise the sum of [(success / requests) * 60], of
    [max(0, 30 - mean / 50)] for the mean of the last 100 samples (30 flat
    when that mean is not positive, in particular without samples) and of
    [max(0, 10 - minutes_since_last_use / 6)] (10 when never used), clamped
    to [0, 100].  When no sample is negative this is the formula of the
    claim. *)
Theorem health_score_formula now p :
  (0 <= requests p)%Z -> (0 <= success p)%Z ->
  (health_score now p == amended_health_score now p)%Q /\
  (Forall (Qle 0) (response_times p) ->
   (health_score now p == spec_health_score now p)%Q).
Proof.
  intros Hreq Hsucc.
  rewrite health_score_unfold. unfold amended_health_score, spec_health_score.
  destruct (requests p =? 0)%Z eqn:E0; [by split|].
  apply Z.eqb_neq in E0.
  pose proof (success_rate_nonneg p Hsucc) as Hs0.
  assert (Hs : success_rate p = (inject_Z (success p) / inject_Z (requests p) * 60)%Q).
  { unfold success_rate. destruct (Z.ltb_spec 0 (requests p)); [done|lia]. }
  rewrite Hs in *. clear Hs.
  set (s := (inject_Z (success p) / inject_Z (requests p) * 60)%Q) in *.
  pose proof (time_score_bounds (avg_response_time p)) as Ht0.
  pose proof (recency_score_nonneg now (last_used p)) as Hr0.
  assert (Hempty : retained_samples p = [] -> response_times p = []).
  { rewrite retained_samples_last_n. intros Hnil.
    destruct (response_times p) as [|x l] eqn:El; [done|].
    exfalso. by apply (last_n_nonempty (x :: l)). }
  assert (Ht : (time_score (avg_response_time p) ==
                guarded_latency_component (retained_samples p))%Q).
  { destruct (retained_samples p) as [|x l] eqn:El.
    - unfold time_score, avg_response_time. by rewrite (Hempty eq_refl).
    - assert (Hne : response_times p <> []).
      { intros Hnil. unfold retained_samples in El. rewrite Hnil in El. done. }
      pose proof (avg_response_time_mean p Hne) as Havg. rewrite El in Havg.
      unfold time_score, guarded_latency_component.
      destruct (Py.Qlt_bool 0 (avg_response_time p)) eqn:Ea.
      + apply Qlt_bool_iff in Ea.
        destruct (Qle_bool (mean (x :: l)) 0) eqn:Em.
        * apply Qle_bool_iff in Em. lra.
        * rewrite py_max_spec.
          assert (Hd : (avg_response_time p / 50 == mean (x :: l) / 50)%Q)
            by (by rewrite Havg).
          destruct (Q.max_spec 0 (30 - avg_response_time p / 50)%Q) as [[? ->]|[? ->]];
            destruct (Q.max_spec 0 (30 - mean (x :: l) / 50)%Q) as [[? ->]|[? ->]];
            lra.
      + apply Qlt_bool_false in Ea.
        destruct (Qle_bool (mean (x :: l)) 0) eqn:Em; [reflexivity|].
        exfalso. assert (Hle : (mean (x :: l) <= 0)%Q) by lra.
        apply Qle_bool_iff in Hle. congruence. }
  assert (Hr : (recency_score now (last_used p) ==
                recency_component now (last_used p))%Q).
  { unfold recency_score, recency_component.
    destruct (last_used p); [apply py_max_spec|reflexivity]. }
  assert (Hclaim : Forall (Qle 0) (response_times p) ->
    (guarded_latency_component (retained_samples p) ==
     latency_component (retained_samples p))%Q).
  { intros Hrt. unfold guarded_latency_component, latency_component.
    destruct (retained_samples p) as [|x l] eqn:El; [reflexivity|].
    destruct (Qle_bool (mean (x :: l)) 0) eqn:Em; [|reflexivity].
    apply Qle_bool_iff in Em.
    assert (Hne : response_times p <> []).
    { intros Hnil. unfold retained_samples in El. rewrite Hnil in El. done. }
    pose proof (avg_response_time_mean p Hne) as Havg. rewrite El in Havg.
    pose proof (avg_response_time_nonneg p Hrt) as Hpos.
    assert (Hzero : (mean (x :: l) / 50 == 0)%Q).
    { assert (Ha : (mean (x :: l) == 0)%Q) by lra. by rewrite Ha. }
    destruct (Q.max_spec 0 (30 - mean (x :: l) / 50)%Q) as [[? ->]|[? ->]]; lra. }
  set (t := time_score (avg_response_time p)) in *.
  set (r := recency_score now (last_used p)) in *.
  set (t' := guarded_latency_component (retained_samples p)) in *.
  set (t'' := latency_component (retained_samples p)) in *.
  set (r' := recency_component now (last_used p)) in *.
  clearbody s t r t' t'' r'. unfold clamp. split.
  - destruct (py_min_cases 100 (s + t + r)%Q) as [[? ->]|[? ->]];
      destruct (Q.min_spec 100 (s + t' + r')%Q) as [[? Hmin]|[? Hmin]];
      destruct (Q.max_spec 0 (Qmin 100 (s + t' + r'))%Q) as [[? ->]|[? ->]];
      lra.
  - intros Hrt. specialize (Hclaim Hrt).
    destruct (py_min_cases 100 (s + t + r)%Q) as [[? ->]|[? ->]];
      destruct (Q.min_spec 100 (s + t'' + r')%Q) as [[? Hmin]|[? Hmin]];
      destruct (Q.max_spec 0 (Qmin 100 (s + t'' + r'))%Q) as [[? ->]|[? ->]];
      lra.
Qed.

Lemma health_score_formula_witness :
  (health_score 600 ex_negative_sample
   == amended_health_score 600 ex_negative_sample)%Q.
Proof.
  apply (proj1 (health_score_formula 600%Q ex_negative_sample
                  ltac:(simpl; lia) ltac:(simpl; lia))).
Defined.

(** C4, as stated, fails.  With one sample of -100 ms the mean is negative,
    the code takes the latency component as 30 flat and gives 79, where the
    formula of the claim has [max(0, 30 + 100 / 50) = 32] and gives 81.  With
    a [success] counter of -40 the code, which has no lower clamp, gives a
    negative score where the claim clamps to 0; and with a [requests] counter
    of -1 the code takes the success component as 60 flat and gives 100,
    where the formula gives 40. *)
Lemma health_score_with_negative_sample :
  ((health_score 0 ex_negative_sample == 79)%Q /\
   (spec_health_score 0 ex_negative_sample == 81)%Q /\
   ~ (health_score 0 ex_negative_sample
      == spec_health_score 0 ex_negative_sample)%Q) /\
  ((health_score 600 ex_negative_success < 0)%Q /\
   (spec_health_score 600 ex_negative_success == 0)%Q /\
   ~ (health_score 600 ex_negative_success
      == spec_health_score 600 ex_negative_success)%Q) /\
  ((health_score 0 ex_negative_requests == 100)%Q /\
   (spec_health_score 0 ex_negative_requests == 40)%Q /\
   ~ (health_score 0 ex_negative_requests
      == spec_health_score 0 ex_negative_requests)%Q).
Proof.
  split_and!; by vm_compute.
Qed.


(** ** C8: the health score falls as the failure rate rises *)

Section Monotone.
Local Open Scope Q_scope.

(** With balanced counters the success and failure ratios add up to 1. *)
Lemma ratios_sum_to_one p :
  (0 < requests p)%Z -> requests p = (success p + failures p)%Z ->
  inject_Z (success p) / inject_Z (requests p)
  + inject_Z (failures p) / inject_Z (requests p) == 1.
Proof.
  intros Hpos Hbal. pose proof (inject_Z_pos _ Hpos) as Hr.
  rewrite Hbal in *. rewrite inject_Z_plus in *.
  field. lra.
Qed.

Lemma failure_ratio_nonneg p :
  (0 < requests p)%Z -> (0 <= failures p)%Z ->
  0 <= inject_Z (failures p) / inject_Z (requests p).
Proof.
  intros Hpos Hf. apply div_nonneg; [by apply inject_Z_nonneg | by apply inject_Z_pos].
Qed.

(** The comparison behind C8, on the three components. *)
Lemma health_score_strict now p1 p2 :
  (0 < requests p1)%Z -> (0 < requests p2)%Z ->
  requests p1 = (success p1 + failures p1)%Z ->
  requests p2 = (success p2 + failures p2)%Z ->
  (0 <= failures p1)%Z ->
  avg_response_time p1 == avg_response_time p2 ->
  last_used p1 = last_used p2 ->
  (forall t, last_used p1 = Some t -> t <= now) ->
  inject_Z (failures p1) / inject_Z (requests p1)
    < inject_Z (failures p2) / inject_Z (requests p2) ->
  health_score now p2 < health_score now p1.
Proof.
  intros Hr1 Hr2 Hb1 Hb2 Hf1 Havg Hlast Hpast Hlt.
  rewrite !health_score_unfold.
  destruct (Z.eqb_spec (requests p1) 0) as [|_]; [lia|].
  destruct (Z.eqb_spec (requests p2) 0) as [|_]; [lia|].
  unfold success_rate.
  destruct (Z.ltb_spec 0 (requests p1)) as [_|]; [|lia].
  destruct (Z.ltb_spec 0 (requests p2)) as [_|]; [|lia].
  pose proof (ratios_sum_to_one p1 Hr1 Hb1) as Hone1.
  pose proof (ratios_sum_to_one p2 Hr2 Hb2) as Hone2.
  pose proof (failure_ratio_nonneg p1 Hr1 Hf1) as Hy1.
  pose proof (time_score_proper _ _ Havg) as Ht.
  pose proof (time_score_bounds (avg_response_time p1)) as Ht1.
  pose proof (recency_score_le_10 now (last_used p1) Hpast) as Hrec.
  rewrite <- Hlast.
  set (x1 := inject_Z (success p1) / inject_Z (requests p1)) in *.
  set (x2 := inject_Z (success p2) / inject_Z (requests p2)) in *.
  set (y1 := inject_Z (failures p1) / inject_Z (requests p1)) in *.
  set (y2 := inject_Z (failures p2) / inject_Z (requests p2)) in *.
  set (t1 := time_score (avg_response_time p1)) in *.
  set (t2 := time_score (avg_response_time p2)) in *.
  set (r := recency_score now (last_used p1)) in *.
  clearbody x1 x2 y1 y2 t1 t2 r.
  destruct (py_min_cases 100 (x1 * 60 + t1 + r)) as [[? ->]|[? ->]];
    destruct (py_min_cases 100 (x2 * 60 + t2 + r)) as [[? ->]|[? ->]]; lra.
Qed.
End Monotone.

(** C8.  For two proxies with requests, balanced counters, the same average
    response time and the same last use (not later than the instant of
    reading), the one with the higher failure rate has the strictly lower
    health score. *)
Theorem health_score_decreases_with_failure_rate now p1 p2 :
  (0 < requests p1)%Z -> (0 < requests p2)%Z ->
  requests p1 = (success p1 + failures p1)%Z ->
  requests p2 = (success p2 + failures p2)%Z ->
  (0 <= failures p1)%Z ->
  (avg_response_time p1 == avg_response_time p2)%Q ->
  last_used p1 = last_used p2 ->
  (forall t, last_used p1 = Some t -> (t <= now)%Q) ->
  (failure_rate p1 < failure_rate p2)%Q ->
  (health_score now p2 < health_score now p1)%Q.
Proof.
  intros Hr1 Hr2 Hb1 Hb2 Hf1 Havg Hlast Hpast Hlt.
  apply health_score_strict; try done.
  rewrite !failure_rate_percent in Hlt by done.
  set (y1 := (inject_Z (failures p1) / inject_Z (requests p1))%Q) in *.
  set (y2 := (inject_Z (failures p2) / inject_Z (requests p2))%Q) in *.
  clearbody y1 y2. lra.
Qed.

(** The same with [requests] held constant: more failures (and as many
    fewer successes) lower the score. *)
Corollary health_score_decreases_with_failures now p1 p2 :
  (0 < requests p1)%Z -> requests p2 = requests p1 ->
  requests p1 = (success p1 + failures p1)%Z ->
  requests p2 = (success p2 + failures p2)%Z ->
  (0 <= failures p1)%Z ->
  (avg_response_time p1 == avg_response_time p2)%Q ->
  last_used p1 = last_used p2 ->
  (forall t, last_used p1 = Some t -> (t <= now)%Q) ->
  (failures p1 < failures p2)%Z ->
  (health_score now p2 < health_score now p1)%Q.
Proof.
  intros Hr1 Hreq Hb1 Hb2 Hf1 Havg Hlast Hpast Hlt.
  apply health_score_strict; try done; try lia.
  rewrite Hreq. pose proof (inject_Z_pos _ Hr1) as Hpos.
  apply Qmult_lt_r; [by apply Qinv_lt_0_compat|].
  by rewrite <- Zlt_Qlt.
Qed.

Lemma health_score_decreases_with_failure_rate_witness :
  (health_score 600 (set_success 12 (set_failures 8 ex_used))
   < health_score 600 ex_used)%Q.
Proof.
  apply health_score_decreases_with_failure_rate.
  - reflexivity.
  - reflexivity.
  - reflexivity.
  - reflexivity.
  - discriminate.
  - reflexivity.
  - reflexivity.
  - intros t Ht. injection Ht as <-. discriminate.
  - reflexivity.
Defined.


(** C8, as stated, fails.  When the last use lies ahead of the clock the
    recency component exceeds 10 and [min(100, ...)] caps the score: of two
    proxies with 20 requests, last used one hour after the instant of
    reading, the one with no failure and the one with one failure both score
    100.  When the counters do not balance, a higher [failures] counter
    alone changes nothing, since the score reads [success]; and with
    [failures] counters below zero both scores are capped at 100. *)
Lemma health_score_capped_when_last_use_ahead :
  ((0 < requests ex_ahead)%Z /\ requests ex_ahead_failed = requests ex_ahead /\
   (avg_response_time ex_ahead == avg_response_time ex_ahead_failed)%Q /\
   last_used ex_ahead = last_used ex_ahead_failed /\
   (failure_rate ex_ahead < failure_rate ex_ahead_failed)%Q /\
   (health_score 0 ex_ahead == 100)%Q /\
   (health_score 0 ex_ahead_failed == 100)%Q /\
   ~ (health_score 0 ex_ahead_failed < health_score 0 ex_ahead)%Q) /\
  ((0 < requests ex_used)%Z /\ requests ex_unbalanced = requests ex_used /\
   (avg_response_time ex_used == avg_response_time ex_unbalanced)%Q /\
   last_used ex_used = last_used ex_unbalanced /\
   (failure_rate ex_used < failure_rate ex_unbalanced)%Q /\
   ~ (health_score 600 ex_unbalanced < health_score 600 ex_used)%Q) /\
  ((0 < requests ex_overcounted)%Z /\
   requests ex_overcounted_less = requests ex_overcounted /\
   (avg_response_time ex_overcounted == avg_response_time ex_overcounted_less)%Q /\
   last_used ex_overcounted = last_used ex_overcounted_less /\
   (failure_rate ex_overcounted < failure_rate ex_overcounted_less)%Q /\
   ~ (health_score 0 ex_overcounted_less < health_score 0 ex_overcounted)%Q).
Proof.
  split_and!; by vm_compute.
Qed.

(** ** [Proxy]: the score, the saved record, the authenticated URL *)

(** X1.  [health_score] never exceeds 100, and it is not negative when the
    success counter is not. *)
Theorem health_score_range now p :
  (health_score now p <= 100)%Q /\
  ((0 <= success p)%Z -> (0 <= health_score now p)%Q).
Proof.
  rewrite health_score_unfold. destruct (requests p =? 0)%Z.
  { split; [apply Qle_refl | intros _; discriminate]. }
  split.
  - destruct (py_min_cases 100 (success_rate p + time_score (avg_response_time p)
                                + recency_score now (last_used p))%Q)
      as [[H ->]|[H ->]]; [by apply Qlt_le_weak | apply Qle_refl].
  - intros Hs.
    pose proof (success_rate_nonneg p Hs) as H1.
    pose proof (time_score_bounds (avg_response_time p)) as [H2 _].
    pose proof (recency_score_nonneg now (last_used p)) as H3.
    set (a := success_rate p) in *. set (b := time_score _) in *.
    set (c := recency_score _ _) in *. clearbody a b c.
    destruct (py_min_cases 100 (a + b + c)%Q) as [[H ->]|[H ->]]; lra.
Qed.

Lemma health_score_range_witness :
  (0 <= health_score 600 ex_used)%Q.
Proof. apply (proj2 (health_score_range 600%Q ex_used)). discriminate. Defined.

Lemma strip_prefix_Some pre : forall s r,
  strip_prefix pre s = Some r <-> s = pre +:+ r.
Proof.
  induction pre as [|a pre IH]; intros s r; simpl.
  - split; [by intros [= ->] | by intros ->].
  - destruct s as [|b s]; [split; discriminate|].
    destruct (Ascii.eqb_spec a b) as [->|Hne].
    + rewrite IH. split; [by intros -> | by intros [= ->]].
    + split; [discriminate | intros [= ? _]; congruence].
Qed.

Lemma split_once_Some sep : forall s before rest,
  split_once sep s = Some (before, rest) -> s = before +:+ sep +:+ rest.
Proof.
  induction s as [|a s IH]; intros before rest; simpl.
  - destruct (strip_prefix sep "") as [r|] eqn:E; [|discriminate].
    intros [= <- <-]. by apply strip_prefix_Some in E.
  - destruct (strip_prefix sep (String a s)) as [r|] eqn:E.
    + intros [= <- <-]. by apply strip_prefix_Some in E.
    + destruct (split_once sep s) as [[b r]|] eqn:Es; [|discriminate].
      intros [= <- <-]. simpl. by rewrite (IH b r).
Qed.

Lemma split_once_first sep : forall s before rest,
  split_once sep s = Some (before, rest) ->
  forall b r, s = b +:+ sep +:+ r -> String.length before <= String.length b.
Proof.
  induction s as [|a s IH]; intros before rest; simpl.
  - destruct (strip_prefix sep ""); [|discriminate]. intros [= <- <-] b r _. simpl. lia.
  - destruct (strip_prefix sep (String a s)) as [r0|] eqn:E.
    + intros [= <- <-] b r _. simpl. lia.
    + destruct (split_once sep s) as [[b0 r0]|] eqn:Es; [|discriminate].
      intros [= <- <-] b r Hs. destruct b as [|c b].
      * change ("" +:+ sep +:+ r) with (sep +:+ r) in Hs.
        apply strip_prefix_Some in Hs. congruence.
      * injection Hs as -> Hs. simpl. apply le_n_S. by eapply IH.
Qed.

Lemma split_once_None sep : forall s,
  split_once sep s = None -> forall b r, s <> b +:+ sep +:+ r.
Proof.
  induction s as [|a s IH]; simpl.
  - destruct (strip_prefix sep "") as [r0|] eqn:E; [discriminate|].
    intros _ b r Hs. destruct b; [|discriminate Hs].
    change ("" +:+ sep +:+ r) with (sep +:+ r) in Hs.
        apply strip_prefix_Some in Hs. congruence.
  - destruct (strip_prefix sep (String a s)) as [r0|] eqn:E; [discriminate|].
    destruct (split_once sep s) as [[b0 r0]|] eqn:Es; [discriminate|].
    intros _ b r Hs. destruct b as [|c b].
    + change ("" +:+ sep +:+ r) with (sep +:+ r) in Hs.
        apply strip_prefix_Some in Hs. congruence.
    + injection Hs as -> Hs. by apply (IH eq_refl b r).
Qed.

Lemma truthy_Some o : truthy o = true <-> exists s, o = Some s /\ s <> "".
Proof.
  destruct o as [s|]; simpl.
  - rewrite negb_true_iff, String.eqb_neq. split; [by exists s | by intros (? & [= <-] & ?)].
  - split; [discriminate | by intros (? & ? & _)].
Qed.

(** X3.  [auth_url] is the plain URL when the user name or the password is
    missing or empty.  Otherwise it puts [user:password@] right after the
    first ["://"] of the URL, so that removing the credentials gives the URL
    back; it raises exactly when the URL has no ["://"]. *)
Theorem auth_url_splices_credentials p :
  match auth_url p with
  | Some a =>
      (truthy (username p) && truthy (password p) = false /\ a = url p) \/
      (exists user pw protocol rest,
         username p = Some user /\ password p = Some pw /\
         user <> "" /\ pw <> "" /\
         url p = protocol +:+ "://" +:+ rest /\
         a = protocol +:+ "://" +:+ user +:+ ":" +:+ pw +:+ "@" +:+ rest /\
         forall b r, url p = b +:+ "://" +:+ r ->
           String.length protocol <= String.length b)
  | None =>
      truthy (username p) && truthy (password p) = true /\
      forall b r, url p <> b +:+ "://" +:+ r
  end.
Proof.
  unfold auth_url. destruct (truthy (username p) && truthy (password p)) eqn:Ht.
  - apply andb_true_iff in Ht as [Hu Hp].
    apply truthy_Some in Hu as (user & Hu & Hune).
    apply truthy_Some in Hp as (pw & Hp & Hpne).
    destruct (split_once "://" (url p)) as [[protocol rest]|] eqn:Es.
    + right. exists user, pw, protocol, rest. rewrite Hu, Hp. split_and!; try done.
      * by apply split_once_Some.
      * by apply split_once_first with (rest := rest).
    + split; [done|]. by apply split_once_None.
  - by left.
Qed.

(** X4.  For every proxy a provider hands out with a non-empty password,
    [auth_url] does not raise: it is the provider's URL with the proxy's
    credentials after ["http://"]. *)
Theorem auth_url_of_provisioned (prov : AnyProvider) epoch count p :
  p ∈ get_proxies prov epoch count ->
  password p <> Some "" ->
  exists user pw host,
    username p = Some user /\ password p = Some pw /\
    url p = "http://" +:+ host /\
    auth_url p = Some ("http://" +:+ user +:+ ":" +:+ pw +:+ "@" +:+ host).
Proof.
  intros Hp Hpw.
  destruct prov as [self|self]; simpl in Hp;
    unfold bd_get_proxies, ox_get_proxies in Hp;
    apply list_elem_of_fmap in Hp as (i & -> & _); simpl in Hpw |- *.
  - exists (bd_username self (bd_session_id epoch i)), (bd_password self),
      "zproxy.lum-superproxy.io:22225".
    split_and!; try reflexivity.
    unfold auth_url. simpl.
    assert (Hu : String.eqb (bd_username self (bd_session_id epoch i)) "" = false).
    { apply String.eqb_neq. unfold bd_username. by destruct (bd_customer_id self). }
    assert (Hw : String.eqb (bd_password self) "" = false).
    { apply String.eqb_neq. congruence. }
    rewrite Hu, Hw. reflexivity.
  - eexists _, (ox_password self), "pr.oxylabs.io:7777".
    split_and!; try reflexivity.
    unfold auth_url. simpl.
    assert (Hw : String.eqb (ox_password self) "" = false).
    { apply String.eqb_neq. congruence. }
    rewrite Hw. reflexivity.
Qed.

Lemma auth_url_of_provisioned_witness :
  exists a, auth_url ex_fresh = Some a.
Proof.
  destruct (auth_url_of_provisioned
              (BrightData (mkBrightData "cust" "secret" "z")) 1700000000 1 ex_fresh)
    as (user & pw & host & _ & _ & _ & Ha).
  - simpl. unfold bd_get_proxies. apply list_elem_of_fmap. exists 0%Z.
    split; [reflexivity|]. by left.
  - discriminate.
  - eexists. exact Ha.
Defined.


(** ** Providers: batches and rotation *)

Lemma string_app_cons x (a b : string) : String x a +:+ b = String x (a +:+ b).
Proof. reflexivity. Qed.

Lemma string_app_nil (b : string) : "" +:+ b = b.
Proof. reflexivity. Qed.

Lemma string_app_assoc (a b c : string) : (a +:+ b) +:+ c = a +:+ b +:+ c.
Proof.
  induction a as [|x a IH]; [reflexivity|].
  rewrite !string_app_cons. by rewrite IH.
Qed.

Lemma has_char_app c a b : has_char c (a +:+ b) = has_char c a || has_char c b.
Proof.
  induction a as [|x a IH]; [reflexivity|].
  rewrite string_app_cons. cbn [has_char]. by rewrite IH, orb_assoc.
Qed.

Lemma of_int_nonneg_digits c z :
  (0 <= z)%Z -> has_char c (Str.of_int z) = true -> has_char c "0123456789" = true.
Proof.
  intros Hz. unfold Str.of_int, pretty. destruct z as [|p|p]; [| |lia]; cbn [pretty_Z].
  - cbn [has_char]. intros [H|H]%orb_true_iff; [|done]. by rewrite H.
  - unfold pretty, pretty_positive, pretty, pretty_N.
    destruct (decide (N.pos p = 0%N)); [done|].
    intros [H|H]%pretty_N_go_has_char; done.
Qed.

Lemma of_int_nonneg_no_dash z : (0 <= z)%Z -> has_char "-" (Str.of_int z) = false.
Proof.
  intros Hz. destruct (has_char "-" (Str.of_int z)) eqn:E; [|done].
  apply of_int_nonneg_digits in E; [discriminate E|done].
Qed.

Lemma bd_username_inj self : Inj (=) (=) (bd_username self).
Proof.
  intros a b H. unfold bd_username in H. by do 4 apply String.app_inj in H.
Qed.

(** The proxies a provider hands out: their number, URL and statistics. *)
Lemma get_proxies_fresh (prov : AnyProvider) epoch count :
  length (get_proxies prov epoch count) = Z.to_nat count /\
  (forall p, p ∈ get_proxies prov epoch count ->
     url p = provider_url prov /\ requests p = 0%Z /\ success p = 0%Z /\
     failures p = 0%Z /\ response_times p = [] /\ last_used p = None).
Proof.
  destruct prov as [self|self]; simpl; unfold bd_get_proxies, ox_get_proxies.
  - split.
    + by rewrite length_fmap, length_seqZ.
    + by intros p (i & -> & _)%list_elem_of_fmap.
  - split.
    + by rewrite length_fmap, length_seqZ.
    + by intros p (i & -> & _)%list_elem_of_fmap.
Qed.

(** X5.  A provider hands out [count] proxies (none when [count] is not
    positive), all under the provider's one URL, with empty statistics and
    pairwise different user names. *)
Theorem get_proxies_batch (prov : AnyProvider) epoch count :
  length (get_proxies prov epoch count) = Z.to_nat count /\
  (forall p, p ∈ get_proxies prov epoch count ->
     url p = provider_url prov /\ requests p = 0%Z /\ success p = 0%Z /\
     failures p = 0%Z /\ response_times p = [] /\ last_used p = None) /\
  NoDup (username <$> get_proxies prov epoch count).
Proof.
  split; [apply get_proxies_fresh|]. split; [apply get_proxies_fresh|].
  destruct prov as [self|self]; simpl; unfold bd_get_proxies, ox_get_proxies.
  - rewrite <- list_fmap_compose. apply NoDup_fmap_2; [|apply NoDup_seqZ].
    intros i j [= H]. apply bd_username_inj in H.
    by apply bd_session_id_inj in H as [_ ?].
  - rewrite <- list_fmap_compose. apply NoDup_fmap_2; [|apply NoDup_seqZ].
    intros i j [= H]. do 4 apply String.app_inj in H. by apply (inj pretty) in H.
Qed.

(** X6.  Bright Data session ids made in different seconds differ.  Made in
    the same second they are the same again: a second batch starts with the
    proxies of the first, session ids included. *)
Theorem bd_session_ids_across_batches self e1 c1 e2 c2 :
  (e1 <> e2 ->
   forall p1 p2, p1 ∈ bd_get_proxies self e1 c1 -> p2 ∈ bd_get_proxies self e2 c2 ->
     sticky_session_id p1 <> sticky_session_id p2) /\
  (e1 = e2 -> (c1 <= c2)%Z ->
   bd_get_proxies self e1 c1 `prefix_of` bd_get_proxies self e2 c2).
Proof.
  split.
  - intros Hne p1 p2 (i & -> & _)%list_elem_of_fmap (j & -> & _)%list_elem_of_fmap.
    cbn [sticky_session_id]. intros H. apply (inj Some) in H.
    by apply bd_session_id_inj in H as [? _].
  - intros -> Hle. unfold bd_get_proxies.
    destruct (Z.le_gt_cases c1 0) as [Hneg|Hpos].
    + rewrite (seqZ_nil 0 c1) by done. apply prefix_nil.
    + replace c2 with (c1 + (c2 - c1))%Z by lia.
      rewrite seqZ_app, fmap_app by lia. by apply prefix_app_r.
Qed.

Lemma bd_session_ids_across_batches_witness :
  bd_get_proxies (mkBrightData "c" "p" "z") 1700000000 2
    `prefix_of` bd_get_proxies (mkBrightData "c" "p" "z") 1700000000 5.
Proof.
  apply (proj2 (bd_session_ids_across_batches (mkBrightData "c" "p" "z")
                  1700000000 2 1700000000 5)); [reflexivity|lia].
Defined.

Lemma split_no_sep c : forall t, has_char c t = false -> Str.split c t = [t].
Proof.
  induction t as [|a t IH]; cbn [has_char Str.split]; [done|].
  intros [Ha Ht]%orb_false_iff. rewrite Ha, (IH Ht). done.
Qed.

Lemma split_app_sep_l c : forall x t,
  has_char c x = false -> Str.split c (x +:+ String c t) = x :: Str.split c t.
Proof.
  induction x as [|a x IH]; intros t.
  - intros _. rewrite string_app_nil. cbn [Str.split]. by rewrite Ascii.eqb_refl.
  - rewrite string_app_cons. cbn [has_char Str.split].
    intros [Ha Hx]%orb_false_iff. by rewrite Ha, (IH t Hx).
Qed.

Lemma split_app_sep_r c t : has_char c t = false ->
  forall s, Str.split c (s +:+ String c t) = Str.split c s ++ [t].
Proof.
  intros Ht. induction s as [|a s IH].
  - rewrite string_app_nil. cbn [Str.split]. by rewrite Ascii.eqb_refl, split_no_sep.
  - rewrite string_app_cons. cbn [Str.split].
    destruct (Ascii.eqb a c); rewrite IH; [done|].
    pose proof (split_nonempty c s). by destruct (Str.split c s).
Qed.

Lemma split_parts_no_sep c : forall s,
  Forall (fun w => has_char c w = false) (Str.split c s).
Proof.
  induction s as [|a s IH]; cbn [Str.split].
  - by repeat constructor.
  - destruct (Ascii.eqb a c) eqn:E; [by constructor|].
    destruct (Str.split c s) as [|w ws]; [by repeat constructor; cbn [has_char]; rewrite E|].
    inversion IH as [|?? Hw Hws]; subst. constructor; [|done].
    cbn [has_char]. by rewrite E, Hw.
Qed.

Lemma split_join c : forall parts,
  parts <> [] -> Forall (fun w => has_char c w = false) parts ->
  Str.split c (Str.join (String c "") parts) = parts.
Proof.
  unfold Str.join. induction parts as [|x parts IH]; [done|]. intros _ Hall.
  inversion Hall as [|?? Hx Hrest]; subst.
  destruct parts as [|y parts]; [by apply split_no_sep|].
  change (String.concat (String c "") (x :: y :: parts))
    with (x +:+ String c (String.concat (String c "") (y :: parts))).
  rewrite split_app_sep_l by done. by rewrite IH.
Qed.

Lemma join_snoc sep : forall parts x,
  parts <> [] -> Str.join sep (parts ++ [x]) = Str.join sep parts +:+ sep +:+ x.
Proof.
  unfold Str.join. induction parts as [|y parts IH]; [done|]. intros x _.
  destruct parts as [|z parts]; [done|].
  change (String.concat sep ((y :: z :: parts) ++ [x]))
    with (y +:+ sep +:+ String.concat sep ((z :: parts) ++ [x])).
  rewrite IH by done. simpl String.concat. by rewrite !string_app_assoc.
Qed.

(** X7.  Rotations do not pile up: rotating twice gives what the second
    rotation alone gives.  For Bright Data this holds of every proxy; for
    Oxylabs of every proxy with a user name, when the clock and the draw of
    the first rotation are not negative (their decimal form has no dash). *)
Theorem rotate_ip_twice (prov : AnyProvider) e1 r1 e2 r2 p :
  match prov with
  | BrightData _ => True
  | Oxylabs _ => is_Some (username p) /\ (0 <= e1)%Z /\ (0 <= r1)%Z
  end ->
  exists p1, rotate_ip prov e1 r1 p = Ok p1 /\
    rotate_ip prov e2 r2 p1 = rotate_ip prov e2 r2 p.
Proof.
  destruct prov as [self|self]; simpl.
  - intros _. eexists. split; reflexivity.
  - intros ([u Hu] & He & Hr). unfold ox_rotate_ip. rewrite Hu.
    destruct (split_snoc "-" u) as (front & old & Hsplit).
    rewrite Hsplit, !set_last_snoc. eexists. split; [reflexivity|]. simpl.
    rewrite split_join.
    + by rewrite set_last_snoc.
    + by destruct front.
    + pose proof (split_parts_no_sep "-" u) as Hall. rewrite Hsplit in Hall.
      apply Forall_app in Hall as [Hfront _]. apply Forall_app. split; [done|].
      constructor; [|done]. unfold ox_session_token.
      by rewrite has_char_app, !of_int_nonneg_no_dash.
Qed.

Lemma rotate_ip_twice_witness :
  exists p1,
    rotate_ip (Oxylabs (mkOxylabs "user" "secret")) 1700000900 123 ex_proxy = Ok p1 /\
    rotate_ip (Oxylabs (mkOxylabs "user" "secret")) 1700001800 456 p1
    = rotate_ip (Oxylabs (mkOxylabs "user" "secret")) 1700001800 456 ex_proxy.
Proof.
  apply (rotate_ip_twice (Oxylabs (mkOxylabs "user" "secret"))).
  split; [by eexists|]. split; lia.
Defined.

(** X8.  Rotating a proxy that Oxylabs handed out (at a clock that is not
    negative) keeps the user name up to the session suffix and puts the new
    token there, whatever the account name contains. *)
Theorem ox_rotate_provisioned self e0 count e rnd p :
  (0 <= e0)%Z -> p ∈ ox_get_proxies self e0 count ->
  exists p', ox_rotate_ip self e rnd p = Ok p' /\
    username p' = Some ("customer-" +:+ ox_username self +:+ "-cc-us-sessid-"
                        +:+ ox_session_token e rnd).
Proof.
  intros He0 (i & -> & Hi)%list_elem_of_fmap. apply elem_of_seqZ in Hi.
  unfold ox_rotate_ip. cbn [username].
  set (old := Str.of_int e0 +:+ Str.of_int i).
  set (pre := "customer-" +:+ ox_username self +:+ "-cc-us-sessid").
  assert (Hu : "customer-" +:+ ox_username self +:+ "-cc-us-sessid-" +:+ old
               = pre +:+ String "-" old).
  { unfold pre. by rewrite !string_app_assoc. }
  assert (Hold : has_char "-" old = false).
  { unfold old. rewrite has_char_app, !of_int_nonneg_no_dash by lia. done. }
  rewrite Hu, (split_app_sep_r "-" old Hold), set_last_snoc.
  eexists. split; [reflexivity|]. cbn [username set_username].
  rewrite join_snoc by apply split_nonempty.
  rewrite join_split. unfold pre. by rewrite !string_app_assoc.
Qed.

Lemma ox_rotate_provisioned_witness :
  exists p',
    ox_rotate_ip (mkOxylabs "my-account" "secret") 1700000900 123
      (mkProxy ox_base_url "oxylabs" "residential" (Some "us")
         (Some "customer-my-account-cc-us-sessid-17000000000") (Some "secret")
         None 0 0 0 0%Q None None []) = Ok p' /\
    username p' = Some "customer-my-account-cc-us-sessid-1700000900123".
Proof.
  apply (ox_rotate_provisioned (mkOxylabs "my-account" "secret") 1700000000 1).
  - lia.
  - unfold ox_get_proxies. apply list_elem_of_fmap. exists 0%Z.
    split; [reflexivity|]. by left.
Defined.


(** ** Provisioning *)

Lemma for_each_cons {A} (x : A) l (body : A -> M unit) k :
  for_each (x :: l) body k =
  match body x k with
  | Returned _ k1 => for_each l body k1
  | Raised e k1 => Raised e k1
  end.
Proof. reflexivity. Qed.

Lemma for_each_unchanged {A} (l : list A) (body : A -> M unit) k :
  (forall x, x ∈ l -> body x k = Returned tt k) ->
  for_each l body k = Returned tt k.
Proof.
  induction l as [|x l IH]; intros Hbody; [done|].
  rewrite for_each_cons, Hbody by left. apply IH. intros y Hy. apply Hbody. by right.
Qed.

(** An object that was never used is refused by the store. *)
Lemma never_used_refused p : last_used p = None -> encode (to_dict p) = None.
Proof.
  intros Hnone. unfold encode, to_dict. cbn. rewrite Hnone.
  by destruct (location p), (username p), (password p), (sticky_session_id p).
Qed.

(** One provider's share of a provisioning call: the first proxy of the
    batch is refused by the store, the [except] clause logs the error, and
    the manager is as before. *)
Lemma provision_batch_run (prov : AnyProvider) epoch per k :
  try_except
    (for_each (get_proxies prov epoch per)
       (fun proxy => _save_proxy proxy ;; sadd_active (url proxy))) k
  = Returned tt k.
Proof.
  unfold try_except.
  pose proof (proj2 (get_proxies_fresh prov epoch per)) as Hfresh.
  destruct (get_proxies prov epoch per) as [|p l]; [done|].
  rewrite for_each_cons. unfold mbind at 1, M_bind at 1.
  rewrite save_proxy_run, never_used_refused; [done|].
  apply Hfresh. by left.
Qed.

(** A provisioning call returns and leaves the manager as it was, whatever
    providers are registered. *)
Lemma provision_proxies_run count epoch m :
  _provision_proxies count epoch m = Returned tt m.
Proof.
  unfold _provision_proxies, gets. unfold mbind at 1, M_bind at 1.
  assert (exists per,
    (match providers m with
     | [] => mret count
     | _ => floordiv count (Z.of_nat (length (providers m)))
     end) m = Returned per m) as [per Hper].
  { destruct (providers m) as [|x l]; [by exists count|].
    eexists. unfold floordiv. cbn [length].
    destruct (Z.eqb_spec (Z.of_nat (S (length l))) 0); [lia|reflexivity]. }
  unfold mbind, M_bind. rewrite Hper.
  apply for_each_unchanged. intros [name prov] _. apply provision_batch_run.
Qed.

(** ** C10: provisioning with no provider *)

(** The division models Python's: with a zero divisor it raises. *)
Lemma floordiv_by_zero count m : floordiv count 0 m = Raised ZeroDivisionError m.
Proof. reflexivity. Qed.

(** C10.  With no provider registered [_provision_proxies] returns without
    raising and leaves the manager as it was: the division by the number of
    providers is not evaluated, nothing is acquired, stored or added.  Then
    [get_proxy] on an empty active set returns [None] and changes nothing. *)
Theorem provision_without_providers m count epoch :
  providers m = [] ->
  _provision_proxies count epoch m = Returned tt m /\
  (active m = ∅ ->
   forall requirements clock now,
     get_proxy requirements clock now epoch m = Returned None m).
Proof.
  intros Hnone.
  assert (Hprov : forall c, _provision_proxies c epoch m = Returned tt m).
  { intros c. unfold _provision_proxies, gets, mbind, M_bind. by rewrite Hnone. }
  split; [apply Hprov|].
  intros Hempty requirements clock now.
  unfold get_proxy, smembers_active, gets, mbind, M_bind.
  rewrite Hempty, elements_empty, Hprov. simpl.
  by rewrite Hempty, elements_empty.
Qed.

Lemma provision_without_providers_witness :
  _provision_proxies 10 1700000000 ex_empty = Returned tt ex_empty /\
  get_proxy None (fun _ _ => 0%Q) 0%Q 1700000000 ex_empty = Returned None ex_empty.
Proof.
  destruct (provision_without_providers ex_empty 10 1700000000 eq_refl)
    as [Hprov Hget].
  split; [exact Hprov|]. apply Hget. reflexivity.
Defined.

(** ** C5: the response-time buffer *)

Lemma last_n_length {A} (n : nat) (l : list A) : length (Py.last_n n l) <= n.
Proof. unfold Py.last_n. rewrite length_drop. lia. Qed.

Lemma last_n_suffix {A} (n : nat) (l : list A) :
  l = take (length l - n) l ++ Py.last_n n l.
Proof. unfold Py.last_n. by rewrite take_drop. Qed.

Lemma last_n_idemp {A} (n : nat) (l : list A) :
  Py.last_n n (Py.last_n n l) = Py.last_n n l.
Proof.
  unfold Py.last_n at 1.
  replace (length (Py.last_n n l) - n) with 0 by (pose proof (last_n_length n l); lia).
  reflexivity.
Qed.

(** C5, as the code has it.  [report_usage] appends to the list of the
    [Proxy] object and never trims it; the trimming is done by [to_dict] on
    the way to the store.  After any non-empty sequence of reports the dict
    handed to the store holds the last 100 samples of the object's list, in
    arrival order: at most 100 entries, the oldest ones dropped; and when the
    store accepts the object, that is the list of the hash saved under its
    URL. *)
Theorem saved_response_times_bounded p c calls m :
  exists p' m' old,
    report_many p (c :: calls) m = (p', m') /\
    response_times p' = response_times p ++ (u_response_time <$> c :: calls) /\
    response_times (to_dict p') = Py.last_n 100 (response_times p') /\
    length (response_times (to_dict p')) <= 100 /\
    response_times p' = old ++ response_times (to_dict p') /\
    length old = length (response_times p') - 100 /\
    (storable p' ->
     exists r, records m' !! url p = Some r /\
       h_response_times r = response_times (to_dict p')).
Proof.
  destruct (report_many_run (c :: calls) p m) as (_ & _ & _ & Hrt).
  exists (fst (report_many p (c :: calls) m)), (snd (report_many p (c :: calls) m)).
  set (p' := fst _) in *. set (m' := snd _).
  exists (take (length (response_times p') - 100) (response_times p')).
  split; [by apply pair_of_fst_snd|]. split; [done|]. split; [done|].
  split; [apply last_n_length|]. split; [apply last_n_suffix|].
  split; [rewrite length_take; lia|].
  intros [h Hh]%storable_encode_to_dict. exists h. split.
  - by apply report_many_saved.
  - by apply encode_fields in Hh as (_&_&_&_&_&_&_&_&_&_&_&_&_&?).
Qed.

Lemma saved_response_times_bounded_witness :
  exists p' m' r,
    report_many ex_stamped [mkUsage true 120 0 None; mkUsage true 130 0 None] ex_empty
      = (p', m') /\
    records m' !! url ex_stamped = Some r /\
    h_response_times r = [120%Q; 130%Q].
Proof.
  destruct (saved_response_times_bounded ex_stamped (mkUsage true 120 0 None)
              [mkUsage true 130 0 None] ex_empty)
    as (p' & m' & old & Hrun & Hrt & _ & _ & _ & _ & Hsaved).
  cbn in Hrun. injection Hrun as <- <-.
  destruct Hsaved as (r & Hr & Hlist).
  { unfold storable. cbn. by repeat split. }
  eexists _, _, r. split; [reflexivity|]. split; [exact Hr|exact Hlist].
Defined.

(** The object's list is trimmed only on the way to the store, and the
    average reads its last 100 entries: the dict and the object agree on
    [avg_response_time]. *)
Lemma avg_response_time_to_dict p :
  avg_response_time (to_dict p) = avg_response_time p.
Proof.
  unfold avg_response_time, to_dict. simpl. rewrite last_n_idemp.
  destruct (response_times p) as [|x l] eqn:E; [done|].
  destruct (Py.last_n 100 (x :: l)) as [|y k] eqn:El; [|done].
  apply (f_equal length) in El. unfold Py.last_n in El.
  rewrite length_drop in El. simpl in El. lia.
Qed.

(** C5, as stated, fails for the object that is reported on: after 101
    reports on one [Proxy] without samples its list has 101 entries (the
    hash saved for it has 100), and one report on a proxy that holds 100
    samples leaves 101 in the object. *)
Lemma in_memory_response_times_exceed_100 :
  (exists p' m' r,
     report_many ex_stamped (replicate 101 (mkUsage true 120 0 None)) ex_empty
       = (p', m') /\
     length (response_times ex_stamped) = 0 /\
     length (response_times p') = 101 /\
     records m' !! url ex_stamped = Some r /\
     length (h_response_times r) = 100) /\
  (exists p' o,
     report_usage ex_full true 250 0 None ex_manager = (p', o) /\
     length (response_times ex_full) = 100 /\
     length (response_times p') = 101).
Proof.
  split.
  - set (calls := replicate 101 (mkUsage true 120 0 None)).
    destruct (report_many_run calls ex_stamped ex_empty) as (_ & _ & _ & Hrt).
    assert (Hst : storable (fst (report_many ex_stamped calls ex_empty))).
    { apply report_many_storable.
      - unfold storable. cbn. by repeat split.
      - apply Forall_replicate. by left. }
    apply storable_encode_to_dict in Hst as [h Hh].
    pose proof (report_many_saved (replicate 100 (mkUsage true 120 0 None))
                  ex_stamped (mkUsage true 120 0 None) ex_empty h Hh) as Hsaved.
    apply encode_fields in Hh as (_&_&_&_&_&_&_&_&_&_&_&_&_&Hlist).
    exists (fst (report_many ex_stamped calls ex_empty)),
      (snd (report_many ex_stamped calls ex_empty)), h.
    set (p' := fst _) in *. set (m' := snd _) in *.
    assert (Hlen : length (response_times p') = 101).
    { rewrite Hrt. unfold calls.
      rewrite length_app, length_fmap, length_replicate. reflexivity. }
    split; [by apply pair_of_fst_snd|]. split; [reflexivity|].
    split; [exact Hlen|]. split; [exact Hsaved|].
    rewrite Hlist. unfold to_dict. cbn [response_times set_response_times].
    unfold Py.last_n. rewrite length_drop, Hlen. reflexivity.
  - eexists _, _. split; [reflexivity|]. split; reflexivity.
Qed.

(** ** C2: selection *)

(** The counters of an object built by [from_dict] are strings: its
    [health_score] and its [failure_rate] raise [TypeError] at their first
    comparison with an [int]. *)
Lemma loaded_health_score_raises now proxy :
  loaded_health_score now proxy = Raise TypeError.
Proof. reflexivity. Qed.

Lemma loaded_failure_rate_raises proxy : loaded_failure_rate proxy = Raise TypeError.
Proof. reflexivity. Qed.

(** On counters that are numbers [health_score_of] and [failure_rate_of]
    are the properties of [Proxy]. *)
Lemma health_score_of_int now p :
  health_score_of now (requests p) (success p) (avg_response_time p) (last_used p)
  = Ok (health_score now p).
Proof.
  unfold health_score_of, health_score. cbn [eq_int gt_int truediv int_counter].
  destruct (requests p =? 0)%Z eqn:E0; [done|].
  cbn [mbind Result_bind]. by destruct (0 <? requests p)%Z.
Qed.

Lemma failure_rate_of_int p :
  failure_rate_of (failures p) (requests p) = Ok (failure_rate p).
Proof.
  unfold failure_rate_of, failure_rate. cbn [eq_int gt_int truediv int_counter].
  cbn [mbind Result_bind]. destruct (Z.ltb_spec 0 (requests p)); [|done].
  destruct (Z.eqb_spec (requests p) 0); [lia|done].
Qed.

(** The loop of [get_proxy]: it raises at the first hash that passes the
    type and location tests, and else appends nothing. *)
Lemma score_proxies_run ptype loc min_health_score clock urls : forall acc m,
  score_proxies ptype loc min_health_score clock urls acc m =
  match matching ptype loc m urls with
  | [] => Returned acc m
  | _ :: _ => Raised TypeError m
  end.
Proof.
  induction urls as [|u urls IH]; intros acc m; [done|].
  cbn [score_proxies]. unfold mbind at 1, M_bind at 1, hgetall, gets.
  unfold matching. cbn [omap list_omap].
  destruct (records m !! u) as [r|] eqn:Hr; [|apply IH].
  cbn [fmap list_fmap List.filter].
  destruct (matches ptype loc (from_dict r)) eqn:Hm; [done|apply IH].
Qed.

Lemma candidates_matching ptype loc m :
  candidates ptype loc m = matching ptype loc m (elements (active m)).
Proof. reflexivity. Qed.

(** What [get_proxy] does: nothing is provisioned, since the store refuses
    the proxies the providers hand out; with no hash that passes the type
    and location tests it returns [None], and else the first evaluation of
    [health_score] raises. *)
Lemma get_proxy_run requirements clock now epoch m :
  let req := default no_requirements requirements in
  get_proxy requirements clock now epoch m =
  match candidates (default "any" (req_type req)) (default "any" (req_location req)) m with
  | [] => Returned None m
  | _ :: _ => Raised TypeError m
  end.
Proof.
  intros req. unfold get_proxy. fold req.
  unfold smembers_active, gets. unfold mbind at 1, M_bind at 1.
  rewrite candidates_matching.
  destruct (elements (active m)) as [|u urls] eqn:Hurls.
  - unfold mbind, M_bind. rewrite provision_proxies_run, Hurls. reflexivity.
  - unfold mbind, M_bind, mret, M_ret. rewrite score_proxies_run.
    by destruct (matching _ _ m (u :: urls)).
Qed.

(** C2, the code at a store that holds one hash.  The active set of
    [ex_pool] holds a URL whose hash passes the tests on type and location
    for a caller without requirements, and the counters it spells give the
    health score 100, above the default minimum of 70: the proxy survives
    the filter of the claim and is the one to return.  [get_proxy] raises
    [TypeError] instead, at [proxy.health_score], and leaves the store as it
    was. *)
Theorem get_proxy_raises_on_stored_record clock now epoch :
  candidates "any" "any" ex_pool = [from_dict ex_hash] /\
  (health_score (clock bd_base_url 0%nat) (attrs (from_dict ex_hash)) == 100)%Q /\
  loaded_health_score (clock bd_base_url 0%nat) (from_dict ex_hash) = Raise TypeError /\
  get_proxy None clock now epoch ex_pool = Raised TypeError ex_pool.
Proof.
  assert (Hc : candidates "any" "any" ex_pool = [from_dict ex_hash])
    by (by vm_compute).
  split; [exact Hc|]. split; [reflexivity|]. split; [reflexivity|].
  rewrite get_proxy_run. cbn [default from_option id no_requirements req_type req_location].
  by rewrite Hc.
Qed.

(** ** Selection and the proxied client *)

(** X11.  [get_proxy] never returns a proxy.  It returns [None], with the
    manager unchanged, when no active URL has a hash that passes the tests on
    type and location (in particular on an empty active set, where the
    provisioning it starts adds nothing); otherwise it raises [TypeError]
    from [health_score], whose counters are strings, again with the manager
    unchanged. *)
Theorem get_proxy_outcome requirements clock now epoch m :
  let req := default no_requirements requirements in
  let found :=
    candidates (default "any" (req_type req)) (default "any" (req_location req)) m in
  (found = [] -> get_proxy requirements clock now epoch m = Returned None m) /\
  (found <> [] -> get_proxy requirements clock now epoch m = Raised TypeError m) /\
  (forall proxy m', get_proxy requirements clock now epoch m <> Returned (Some proxy) m').
Proof.
  intros req found. pose proof (get_proxy_run requirements clock now epoch m) as Hrun.
  cbv zeta in Hrun. fold req in Hrun. fold found in Hrun.
  destruct found as [|x l]; rewrite Hrun; split_and!; try done.
Qed.

(** X14.  [ProxiedClient.request] never reaches the HTTP exchange: it ends
    as [get_proxy] does, with "No proxy available" when no hash passes the
    tests on type and location and with [TypeError] otherwise, whatever the
    exchange would give, and it leaves the manager as it was. *)
Theorem request_never_reaches_exchange requirements clock now epoch net elapsed_ms m :
  let req := default no_requirements requirements in
  request requirements clock now epoch net elapsed_ms m =
  match candidates (default "any" (req_type req)) (default "any" (req_location req)) m with
  | [] => Returned NoProxyAvailable m
  | _ :: _ => Raised TypeError m
  end.
Proof.
  intros req. unfold request, mbind, M_bind. rewrite get_proxy_run. fold req.
  by destruct (candidates _ _ m).
Qed.

(** ** The health monitor and [get_stats] *)

Lemma set_manager_id s : set_manager (manager s) s = s.
Proof. by destruct s. Qed.

(** The loop of the health monitor raises at the first hash it reads. *)
Lemma health_scan_run clock urls : forall h u m,
  health_scan clock urls h u m =
  match omap (fun x => records m !! x) urls with
  | [] => Returned (h, u) m
  | _ :: _ => Raised TypeError m
  end.
Proof.
  induction urls as [|x urls IH]; intros h u m; [done|].
  cbn [health_scan]. unfold mbind at 1, M_bind at 1, hgetall, gets.
  cbn [omap list_omap]. destruct (records m !! x) as [r|]; [done|apply IH].
Qed.

(** One pass of the health monitor, as an equation. *)
Lemma health_pass_run clock now epoch s :
  _health_monitor_pass clock now epoch s =
  ReturnedS tt
    (match active_records (manager s) with
     | [] => set_proxy_health
               (Some (mkHealthMetrics 0 0 (Z.of_nat (size (active (manager s)))) now)) s
     | _ :: _ => s
     end).
Proof.
  unfold _health_monitor_pass, try_exceptS, mbind, MS_bind, lift, smembers_active, gets.
  rewrite !set_manager_id, health_scan_run. fold (active_records (manager s)).
  destruct (active_records (manager s)) as [|r l]; [|by rewrite set_manager_id].
  rewrite set_manager_id. cbn [fst snd]. cbn [Z.ltb Z.compare].
  rewrite provision_proxies_run, set_manager_id. unfold modifyS. reflexivity.
Qed.

(** X15.  One pass of the health monitor never raises to its caller and
    leaves the manager, the cost metrics and the cost alerts as they were:
    it burns nothing and provisions nothing.  When an active URL has a hash,
    [health_score] raises [TypeError] on the object read back, the [except]
    clause logs it and the pass ends with the service as it was, no metrics
    written.  Otherwise it writes healthy 0, unhealthy 0, the size of the
    active set as total and [now] as [last_check]: the provisioning of 20
    proxies it starts adds none. *)
Theorem health_pass_outcome clock now epoch s :
  exists s',
    _health_monitor_pass clock now epoch s = ReturnedS tt s' /\
    manager s' = manager s /\
    proxy_cost_today s' = proxy_cost_today s /\
    proxy_cost_breakdown s' = proxy_cost_breakdown s /\
    cost_alerts s' = cost_alerts s /\
    (active_records (manager s) <> [] -> s' = s) /\
    (active_records (manager s) = [] ->
     proxy_health s' =
       Some (mkHealthMetrics 0 0 (Z.of_nat (size (active (manager s)))) now)).
Proof.
  eexists. split; [apply health_pass_run|].
  destruct (active_records (manager s)) as [|r l]; by split_and!.
Qed.

Lemma stats_scan_run clock urls : forall e g f p m,
  stats_scan clock urls e g f p m =
  match omap (fun x => records m !! x) urls with
  | [] => Returned (e, g, f, p) m
  | _ :: _ => Raised TypeError m
  end.
Proof.
  induction urls as [|x urls IH]; intros e g f p m; [done|].
  cbn [stats_scan]. unfold mbind at 1, M_bind at 1, hgetall, gets.
  cbn [omap list_omap]. destruct (records m !! x) as [r|]; [done|apply IH].
Qed.

(** X17.  [get_stats] changes nothing.  When an active URL has a hash it
    raises [TypeError] (it has no [except] clause); otherwise it reports the
    sizes of the active and burned sets, the provider names in registration
    order, the stored cost of the day (0 if none) and a health breakdown of
    four zeros. *)
Theorem get_stats_outcome clock s :
  get_stats clock s =
  match active_records (manager s) with
  | [] =>
      ReturnedS
        (mkStats (Z.of_nat (size (active (manager s))))
           (Z.of_nat (size (burned (manager s))))
           (fst <$> providers (manager s))
           (default 0%Q (proxy_cost_today s)) 0 0 0 0) s
  | _ :: _ => RaisedS TypeError s
  end.
Proof.
  unfold get_stats, mbind, MS_bind, lift, smembers_active, gets, getsS.
  rewrite !set_manager_id, stats_scan_run. fold (active_records (manager s)).
  destruct (active_records (manager s)) as [|r l]; by rewrite ?set_manager_id.
Qed.

(** ** Saving, provisioning and reporting *)

(** X2.  [_save_proxy] stores a proxy exactly when none of its six optional
    attributes is [None], and else raises [DataError] and leaves the store
    as it was.  The hash it stores spells the attributes of the object, with
    [response_times] cut to the last 100 entries; the object [from_dict]
    builds from that hash has the same URL, provider, type and samples, is
    again accepted by the store and saved as the same hash, but its counters
    are strings, so its [health_score] and its [failure_rate] raise
    [TypeError]. *)
Theorem save_proxy_outcome p m :
  (~ storable p -> _save_proxy p m = Raised DataError m) /\
  (storable p ->
   exists h,
     _save_proxy p m = Returned tt (set_records (<[url p := h]> (records m)) m) /\
     h_url h = url p /\ h_provider h = provider p /\ h_proxy_type h = proxy_type p /\
     h_requests h = requests p /\ h_failures h = failures p /\
     h_success h = success p /\
     h_response_times h = Py.last_n 100 (response_times p) /\
     last_used p = Some (h_last_used h) /\
     attrs (from_dict h) = to_dict p /\
     _save_proxy (attrs (from_dict h)) m
       = Returned tt (set_records (<[url p := h]> (records m)) m) /\
     (forall now, loaded_health_score now (from_dict h) = Raise TypeError) /\
     loaded_failure_rate (from_dict h) = Raise TypeError).
Proof.
  rewrite save_proxy_run. split.
  - intros Hn. by rewrite encode_not_storable.
  - intros [h Hh]%storable_encode_to_dict. rewrite Hh. exists h.
    pose proof (encode_fields _ _ Hh)
      as (Hu & Hp & Ht & Hl & Hun & Hpw & Hs & Hr & Hf & Hsu & Hbw & Hlu & Hle & Hrt).
    cbn in Hu, Hp, Ht, Hl, Hun, Hpw, Hs, Hr, Hf, Hsu, Hbw, Hlu, Hle, Hrt.
    assert (Hback : attrs (from_dict h) = to_dict p).
    { destruct p, h. cbn in *. by simplify_eq. }
    split_and!; try done.
    rewrite save_proxy_run, Hback.
    assert (Hidem : to_dict (to_dict p) = to_dict p).
    { unfold to_dict. simpl. by rewrite last_n_idemp. }
    by rewrite Hidem, Hh.
Qed.

Lemma save_proxy_outcome_witness :
  exists h,
    _save_proxy ex_stamped ex_empty
    = Returned tt (set_records (<[url ex_stamped := h]> (records ex_empty)) ex_empty) /\
    h_url h = bd_base_url /\ h_requests h = 0%Z.
Proof.
  destruct (proj2 (save_proxy_outcome ex_stamped ex_empty))
    as (h & Hrun & Hu & _ & _ & Hr & _).
  { unfold storable. cbn. by repeat split. }
  exists h. split; [exact Hrun|]. split; [exact Hu|exact Hr].
Defined.

(** X9.  [_provision_proxies] never raises and changes nothing, whatever
    count is asked for and whatever providers are registered: every proxy a
    provider hands out has [last_used = None], the store refuses the first of
    each batch, and the [except] clause around the batch logs the error, so
    no record is stored and no URL is added to the active set. *)
Theorem provision_adds_nothing count epoch m :
  _provision_proxies count epoch m = Returned tt m /\
  (forall (prov : AnyProvider) per p,
     p ∈ get_proxies prov epoch per -> ~ storable p /\ _save_proxy p m = Raised DataError m).
Proof.
  split; [apply provision_proxies_run|].
  intros prov per p Hp.
  apply (get_proxies_fresh prov epoch per) in Hp as (_ & _ & _ & _ & _ & Hnone).
  split.
  - intros (_ & _ & _ & _ & [t Ht] & _). congruence.
  - by rewrite save_proxy_run, never_used_refused.
Qed.



(** X13.  Over a sequence of reports on one proxy object, whether the
    reports return or raise, the ledger entry of its provider grows by the
    sum of the costs of the calls and no other entry changes; the bandwidth
    counter grows by the sum of the bandwidths; and [last_error] is the
    error of the last failed report (a later success does not clear it). *)
Theorem report_many_accumulates calls : forall p m,
  exists p' m',
    report_many p calls m = (p', m') /\
    (ledger m' (provider p) ==
       ledger m (provider p)
       + Py.sum ((fun c => _calculate_cost p (u_bandwidth_mb c)) <$> calls))%Q /\
    (forall key, key <> provider p -> ledger m' key = ledger m key) /\
    (total_bandwidth_mb p' ==
       total_bandwidth_mb p + Py.sum (u_bandwidth_mb <$> calls))%Q /\
    last_error p' =
      foldl (fun e c => if u_success c then e else u_error c) (last_error p) calls.
Proof.
  induction calls as [|c calls IH]; intros p m.
  - exists p, m. split; [done|]. unfold Py.sum. simpl. split_and!; try done; lra.
  - destruct (report_usage_final p (u_success c) (u_response_time c)
                (u_bandwidth_mb c) (u_error c) m) as (_ & Hcost & _).
    cbv zeta in Hcost.
    pose proof (usage_update_fields p (u_success c) (u_response_time c)
                  (u_bandwidth_mb c) (u_error c)) as Hf.
    set (p1 := usage_update p (u_success c) (u_response_time c)
                 (u_bandwidth_mb c) (u_error c)) in *.
    set (m1 := final _) in *.
    cbv zeta in Hf. destruct Hf as (_ & Hprov & Htype & _ & _ & Hbw & _ & Hcase).
    destruct (IH p1 m1) as (p' & m' & Hrun & Hledger & Hother & Htotal & Herr).
    exists p', m'. split.
    { rewrite report_many_cons. exact Hrun. }
    assert (Hc : forall bw, _calculate_cost p1 bw = _calculate_cost p bw).
    { intros bw. unfold _calculate_cost. by rewrite Htype. }
    unfold charged in Hcost. cbn [cost_tracker set_cost_tracker] in Hcost.
    assert (Hl1 : ledger m1 (provider p) =
                  (ledger m (provider p) + _calculate_cost p (u_bandwidth_mb c))%Q).
    { unfold ledger at 1. rewrite Hcost, Hprov, lookup_insert_eq. simpl. by rewrite Hc. }
    split_and!.
    + rewrite Hprov in Hledger. rewrite Hledger, Hl1. clear Hledger.
      assert (Hmap : ((fun c => _calculate_cost p1 (u_bandwidth_mb c)) <$> calls)
                     = ((fun c => _calculate_cost p (u_bandwidth_mb c)) <$> calls)).
      { apply list_fmap_ext. intros. apply Hc. }
      rewrite Hmap.
      unfold Py.sum. rewrite fmap_cons. cbn [foldl].
      rewrite (foldl_Qplus_shift _ (0 + _calculate_cost p (u_bandwidth_mb c))%Q). lra.
    + intros key Hne. rewrite Hother by congruence.
      unfold ledger. by rewrite Hcost, Hprov, lookup_insert_ne.
    + rewrite Htotal, Hbw. unfold Py.sum. rewrite fmap_cons. cbn [foldl].
      rewrite (foldl_Qplus_shift _ (0 + u_bandwidth_mb c)%Q). lra.
    + rewrite Herr. cbn [foldl]. clearbody p1.
      destruct (u_success c); by destruct Hcase as (_ & _ & ->).
Qed.

(** ** The cost monitor *)

Lemma total_cost_empty : total_cost ∅ = 0%Q.
Proof. unfold total_cost. apply map_fold_empty. Qed.

Lemma total_cost_insert (t : gmap string Q) k v :
  t !! k = None -> (total_cost (<[k := v]> t) == total_cost t + v)%Q.
Proof.
  intros Hk. unfold total_cost.
  apply (map_fold_insert (PreOrder0 := Build_PreOrder Qeq Qeq_refl Qeq_trans)
           Qeq (fun _ cost acc => (acc + cost)%Q)); [| |done].
  - intros j z a b Hab. cbv beta. lra.
  - intros. cbv beta. lra.
Qed.

(** The total over the ledger grows by what is added to an entry. *)
Lemma total_cost_add (t : gmap string Q) k c :
  (total_cost (<[k := (default 0%Q (t !! k) + c)%Q]> t) == total_cost t + c)%Q.
Proof.
  destruct (t !! k) as [v|] eqn:Hk; cbn [default from_option id].
  - pose proof (total_cost_insert (delete k t) k v (lookup_delete_eq t k)) as H1.
    rewrite (insert_delete_id t k v Hk) in H1.
    pose proof (total_cost_insert (delete k t) k (v + c)%Q (lookup_delete_eq t k)) as H2.
    rewrite insert_delete_eq in H2. lra.
  - rewrite total_cost_insert by done. lra.
Qed.

Lemma round_half_even_near q :
  (- (1 # 2) <= inject_Z (round_half_even q) - q <= 1 # 2)%Q.
Proof.
  unfold round_half_even. cbv zeta.
  pose proof (Qfloor_le q) as Hlo. pose proof (Qlt_floor q) as Hhi.
  rewrite inject_Z_plus in Hhi. change (inject_Z 1) with 1%Q in Hhi.
  destruct (q - inject_Z (Qfloor q) ?= 1 # 2)%Q eqn:Hcmp.
  - apply Qeq_alt in Hcmp. destruct (Z.even (Qfloor q)).
    + lra.
    + rewrite inject_Z_plus. change (inject_Z 1) with 1%Q. lra.
  - apply Qlt_alt in Hcmp. lra.
  - apply Qgt_alt in Hcmp. rewrite inject_Z_plus. change (inject_Z 1) with 1%Q. lra.
Qed.

(** [round(cost, 2)] is within half a cent of the cost. *)
Lemma round2_near q : (- (1 # 200) <= round2 q - q <= 1 # 200)%Q.
Proof.
  unfold round2. pose proof (round_half_even_near (q * 100)) as H.
  set (z := inject_Z (round_half_even (q * 100))) in *. clearbody z.
  assert (Hz : (z / 100 == z * (1 # 100))%Q) by (field; discriminate).
  rewrite Hz. lra.
Qed.


(** The service one pass of the cost monitor leaves.  With an empty ledger
    the pass ends at the refused breakdown, which would have changed nothing,
    and before the test for the alert, which a total of 0 does not pass. *)
Lemma cost_monitor_run s :
  let tracker := cost_tracker (manager s) in
  _cost_monitor_pass s = ReturnedS tt
    (mkService (set_cost_tracker ∅ (manager s)) (proxy_health s)
       (Some (default 0 (proxy_cost_today s) + total_cost tracker)%Q)
       ((round2 <$> tracker) ∪ proxy_cost_breakdown s)
       (cost_alerts s ++
          if Py.Qlt_bool 5.0 (total_cost tracker)
          then [mkCostAlert (total_cost tracker) (round2 <$> tracker)] else [])).
Proof.
  cbv zeta.
  unfold _cost_monitor_pass, try_exceptS, mbind, MS_bind, lift, getsS, modifyS, modify,
    raiseS.
  cbn [manager set_manager proxy_cost_today set_proxy_cost_today
       set_proxy_cost_breakdown cost_alerts proxy_cost_breakdown proxy_health].
  destruct (decide (round2 <$> cost_tracker (manager s) = ∅)) as [Hempty|Hne].
  - rewrite bool_decide_eq_true_2 by done.
    rewrite Hempty. apply fmap_empty_inv in Hempty. rewrite Hempty.
    rewrite total_cost_empty, (left_id_L ∅ (∪)).
    assert (Hb : Py.Qlt_bool 5.0 0 = false) by reflexivity.
    rewrite Hb, app_nil_r. reflexivity.
  - rewrite bool_decide_eq_false_2 by done.
    destruct (Py.Qlt_bool 5.0 (total_cost (cost_tracker (manager s)))).
    + reflexivity.
    + unfold mret, MS_ret. by rewrite app_nil_r.
Qed.

(** X18.  A pass of the cost monitor never raises to its caller.  It empties
    the ledger and touches nothing else of the manager; it adds the sum of
    the ledger to the stored total of the day (0 when none is stored); it
    overwrites the breakdown entry of every provider in the ledger with its
    cost rounded to cents, which is within half a cent of the cost, and keeps
    the entries of the other providers from earlier passes; and it publishes
    a cost alert exactly when the sum exceeds 5, not at 5 itself. *)
Theorem cost_pass_flushes_ledger s :
  let tracker := cost_tracker (manager s) in
  let total := total_cost tracker in
  exists s',
    _cost_monitor_pass s = ReturnedS tt s' /\
    manager s' = set_cost_tracker ∅ (manager s) /\
    proxy_health s' = proxy_health s /\
    proxy_cost_today s' = Some (default 0 (proxy_cost_today s) + total)%Q /\
    (forall key,
       proxy_cost_breakdown s' !! key =
       match tracker !! key with
       | Some cost => Some (round2 cost)
       | None => proxy_cost_breakdown s !! key
       end) /\
    (forall key cost, tracker !! key = Some cost ->
       exists shown, proxy_cost_breakdown s' !! key = Some shown /\
                     (- (1 # 200) <= shown - cost <= 1 # 200)%Q) /\
    ((5 < total)%Q ->
       cost_alerts s' = cost_alerts s ++ [mkCostAlert total (round2 <$> tracker)]) /\
    ((total <= 5)%Q -> cost_alerts s' = cost_alerts s).
Proof.
  intros tracker total. eexists. split; [apply cost_monitor_run|].
  fold tracker. fold total.
  cbn [manager proxy_health proxy_cost_today proxy_cost_breakdown cost_alerts].
  assert (Hlook : forall key,
    ((round2 <$> tracker) ∪ proxy_cost_breakdown s) !! key =
    match tracker !! key with
    | Some cost => Some (round2 cost)
    | None => proxy_cost_breakdown s !! key
    end).
  { intros key. rewrite lookup_union, lookup_fmap.
    destruct (tracker !! key); cbn [fmap option_fmap option_map].
    - by destruct (proxy_cost_breakdown s !! key).
    - by destruct (proxy_cost_breakdown s !! key). }
  split_and!; try done.
  - intros key cost Hk. exists (round2 cost). split; [|apply round2_near].
    by rewrite Hlook, Hk.
  - intros Hhigh. assert (Hb : Py.Qlt_bool 5.0 total = true).
    { apply Qlt_bool_iff. change (5.0%Q) with (50 # 10). lra. }
    by rewrite Hb.
  - intros Hlow. assert (Hb : Py.Qlt_bool 5.0 total = false).
    { apply Qlt_bool_false. change (5.0%Q) with (50 # 10). lra. }
    rewrite Hb. by rewrite app_nil_r.
Qed.

(** X19.  Each cost is counted once: a pass right after another finds the
    ledger empty, so it leaves the manager, the breakdown and the cost alerts
    as they are and the total of the day at the same value. *)
Theorem cost_pass_twice s :
  let s1 := finalS (_cost_monitor_pass s) in
  let s2 := finalS (_cost_monitor_pass s1) in
  manager s2 = manager s1 /\
  cost_tracker (manager s2) = ∅ /\
  proxy_cost_breakdown s2 = proxy_cost_breakdown s1 /\
  cost_alerts s2 = cost_alerts s1 /\
  exists d1 d2, proxy_cost_today s1 = Some d1 /\ proxy_cost_today s2 = Some d2 /\
                (d2 == d1)%Q.
Proof.
  cbv zeta. rewrite (cost_monitor_run s). cbn [finalS].
  rewrite cost_monitor_run. cbn [finalS].
  cbn [manager proxy_health proxy_cost_today proxy_cost_breakdown cost_alerts
       cost_tracker set_cost_tracker].
  rewrite total_cost_empty, fmap_empty.
  assert (Hb : Py.Qlt_bool 5.0 0 = false) by reflexivity. rewrite Hb.
  split_and!; try done.
  - by rewrite (left_id_L ∅ (∪)).
  - by rewrite app_nil_r.
  - eexists. eexists. split; [reflexivity|]. split; [reflexivity|].
    cbn [default from_option id]. lra.
Qed.

(** The sum over the ledger after a sequence of reports. *)
(** The sum over the ledger after a sequence of reports. *)
Lemma report_many_total_cost calls : forall p m,
  (total_cost (cost_tracker (snd (report_many p calls m))) ==
     total_cost (cost_tracker m)
     + Py.sum ((fun c => _calculate_cost p (u_bandwidth_mb c)) <$> calls))%Q.
Proof.
  induction calls as [|c calls IH]; intros p m.
  - unfold Py.sum. simpl. lra.
  - rewrite report_many_cons.
    destruct (report_usage_final p (u_success c) (u_response_time c)
                (u_bandwidth_mb c) (u_error c) m) as (_ & Hcost & _).
    cbv zeta in Hcost.
    pose proof (usage_update_fields p (u_success c) (u_response_time c)
                  (u_bandwidth_mb c) (u_error c)) as Hf.
    set (p1 := usage_update p (u_success c) (u_response_time c)
                 (u_bandwidth_mb c) (u_error c)) in *.
    set (m1 := final _) in *.
    cbv zeta in Hf. destruct Hf as (_ & Hprov & Htype & _).
    assert (Hc : forall bw, _calculate_cost p1 bw = _calculate_cost p bw).
    { intros bw. unfold _calculate_cost. by rewrite Htype. }
    rewrite IH, Hcost. unfold charged, ledger. cbn [cost_tracker set_cost_tracker].
    rewrite total_cost_add, Hc.
    assert (Hmap : ((fun c => _calculate_cost p1 (u_bandwidth_mb c)) <$> calls)
                   = ((fun c => _calculate_cost p (u_bandwidth_mb c)) <$> calls)).
    { apply list_fmap_ext. intros. apply Hc. }
    rewrite Hmap. unfold Py.sum. rewrite fmap_cons. cbn [foldl].
    rewrite (foldl_Qplus_shift _ (0 + _calculate_cost p (u_bandwidth_mb c))%Q). lra.
Qed.

(** X20.  What is reported reaches the total of the day: after a sequence of
    reports on a proxy, the next pass of the cost monitor stores the earlier
    total of the day, plus what the ledger held before the reports, plus the
    costs of the reported calls; whether a report burned the proxy, or raised
    at the save, makes no difference. *)
Theorem reported_costs_reach_daily_total calls p s :
  let s1 := set_manager (snd (report_many p calls (manager s))) s in
  let s2 := finalS (_cost_monitor_pass s1) in
  exists d,
    proxy_cost_today s2 = Some d /\
    (d == default 0 (proxy_cost_today s)
          + total_cost (cost_tracker (manager s))
          + Py.sum ((fun c => _calculate_cost p (u_bandwidth_mb c)) <$> calls))%Q.
Proof.
  cbv zeta. rewrite cost_monitor_run. cbn [finalS proxy_cost_today].
  eexists. split; [reflexivity|].
  pose proof (report_many_total_cost calls p (manager s)) as Htot.
  cbn [manager set_manager proxy_cost_today]. rewrite Htot. lra.
Qed.

(** ** The rotation scheduler *)

(** What [rotate_ip] of either provider leaves alone. *)
Lemma rotate_ip_keeps (prov : AnyProvider) epoch rnd p p' :
  rotate_ip prov epoch rnd p = Ok p' ->
  url p' = url p /\ provider p' = provider p /\ proxy_type p' = proxy_type p /\
  location p' = location p /\ password p' = password p /\
  requests p' = requests p /\ success p' = success p /\ failures p' = failures p /\
  total_bandwidth_mb p' = total_bandwidth_mb p /\
  response_times p' = response_times p /\
  last_used p' = last_used p /\ last_error p' = last_error p /\
  is_Some (username p') /\
  (is_Some (sticky_session_id p) -> is_Some (sticky_session_id p')) /\
  (truthy (sticky_session_id p) = true -> truthy (sticky_session_id p') = true).
Proof.
  destruct prov as [self|self]; simpl.
  - unfold bd_rotate_ip. intros [= <-]. by split_and!.
  - unfold ox_rotate_ip. destruct (username p) as [u|]; [|done].
    destruct (Str.set_last _ _) as [parts|e]; [|done].
    intros [= <-]. by split_and!.
Qed.

Lemma rotate_ip_succeeds (prov : AnyProvider) epoch rnd p :
  is_Some (username p) -> exists p', rotate_ip prov epoch rnd p = Ok p'.
Proof.
  intros [u Hu]. destruct prov as [self|self]; simpl.
  - by eexists.
  - unfold ox_rotate_ip. rewrite Hu.
    destruct (split_snoc "-" u) as (front & old & Hsplit).
    rewrite Hsplit, set_last_snoc. by eexists.
Qed.

(** Rotating the object read back from a hash succeeds and gives an object
    the store accepts; the hash saved for it keeps the URL, the provider,
    the counters, the time of last use and the samples. *)
Lemma rotate_loaded (prov : AnyProvider) epoch rnd r :
  exists p' h',
    rotate_ip prov epoch rnd (attrs (from_dict r)) = Ok p' /\
    encode (to_dict p') = Some h' /\
    h_url h' = h_url r /\ h_provider h' = h_provider r /\
    h_requests h' = h_requests r /\ h_success h' = h_success r /\
    h_failures h' = h_failures r /\ h_last_used h' = h_last_used r /\
    h_response_times h' = Py.last_n 100 (h_response_times r) /\
    (h_sticky_session_id r <> "" -> h_sticky_session_id h' <> "").
Proof.
  destruct (rotate_ip_succeeds prov epoch rnd (attrs (from_dict r))) as [p' Hrot];
    [by eexists|].
  pose proof (rotate_ip_keeps prov epoch rnd _ p' Hrot)
    as (Hu & Hp & Ht & Hl & Hpw & Hr & Hs & Hf & Hbw & Hrt & Hlu & Hle & Hun & Hsid & Htr).
  cbn [from_dict attrs url provider proxy_type location password requests success
       failures total_bandwidth_mb response_times last_used last_error
       sticky_session_id] in Hu, Hp, Ht, Hl, Hpw, Hr, Hs, Hf, Hbw, Hrt, Hlu, Hle, Hsid, Htr.
  assert (Hst : storable p').
  { unfold storable. rewrite Hl, Hpw, Hlu, Hle.
    split_and!; try (by eexists); [exact Hun|apply Hsid; by eexists]. }
  apply storable_encode_to_dict in Hst as [h' Hh']. exists p', h'.
  pose proof (encode_fields _ _ Hh')
    as (Eu & Ep & _ & _ & _ & _ & Esid & Er & Ef & Es & _ & Elu & _ & Ert).
  cbn [to_dict url provider requests failures success last_used response_times
       sticky_session_id set_response_times] in Eu, Ep, Esid, Er, Ef, Es, Elu, Ert.
  split; [exact Hrot|]. split; [exact Hh'|].
  split; [congruence|]. split; [congruence|]. split; [congruence|].
  split; [congruence|]. split; [congruence|]. split; [congruence|].
  split; [congruence|].
  intros Hne. assert (Htrue : truthy (sticky_session_id p') = true).
  { apply Htr. cbn [truthy]. by apply negb_true_iff, String.eqb_neq. }
  rewrite Esid in Htrue. cbn [truthy] in Htrue.
  by apply negb_true_iff, String.eqb_neq in Htrue.
Qed.

(** The body of the loop, by whether the proxy of the hash is due. *)
Lemma rotate_if_due_run now epoch rnd r k :
  rotate_if_due now epoch rnd (from_dict r) k =
  match rotation_due now (providers k) r with
  | Some prov =>
      match rotate_ip prov epoch rnd (attrs (from_dict r)) with
      | Ok p' => _save_proxy p' k
      | Raise e => Raised e k
      end
  | None => Returned tt k
  end.
Proof.
  unfold rotate_if_due, rotation_due.
  cbn [from_dict attrs sticky_session_id last_used provider truthy].
  destruct (negb (String.eqb (h_sticky_session_id r) "")); [|done].
  cbn [andb]. destruct (Py.Qlt_bool 15 ((now - h_last_used r) / 60)); [|done].
  unfold mbind, M_bind, gets. destruct (dict_get (h_provider r) (providers k)); [|done].
  by destruct (rotate_ip _ epoch rnd _).
Qed.

(** When the proxy of a hash is not due. *)
Lemma rotation_due_None now provs r :
  h_sticky_session_id r = "" \/
  ((now - h_last_used r) / 60 <= 15)%Q \/
  dict_get (h_provider r) provs = None ->
  rotation_due now provs r = None.
Proof.
  unfold rotation_due. intros [H|[Hage|H]].
  - by rewrite H.
  - apply Qlt_bool_false in Hage. rewrite Hage. by rewrite andb_false_r.
  - rewrite H. by destruct (_ && _).
Qed.

Lemma rotation_scan_cons clock epoch rnd x urls k :
  rotation_scan clock epoch rnd (x :: urls) k =
  match records k !! x with
  | Some r =>
      match rotate_if_due (clock x) epoch (rnd x) (from_dict r) k with
      | Returned _ k1 => rotation_scan clock epoch rnd urls k1
      | Raised e k1 => Raised e k1
      end
  | None => rotation_scan clock epoch rnd urls k
  end.
Proof.
  cbn [rotation_scan]. unfold mbind, M_bind, hgetall, gets.
  by destruct (records k !! x).
Qed.

(** What the loop of the rotation scheduler does. *)
Lemma rotation_scan_run clock epoch rnd urls : forall k,
  NoDup urls -> keyed_by_url k ->
  exists k',
    rotation_scan clock epoch rnd urls k = Returned tt k' /\
    (providers k' = providers k /\ cost_tracker k' = cost_tracker k /\
     active k' = active k /\ burned k' = burned k /\ alerts k' = alerts k /\
     expiry k' = expiry k) /\
    keyed_by_url k' /\
    (forall u,
       records k' !! u = records k !! u \/
       u ∈ urls /\
       exists r prov p' h',
         records k !! u = Some r /\ rotation_due (clock u) (providers k) r = Some prov /\
         rotate_ip prov epoch (rnd u) (attrs (from_dict r)) = Ok p' /\
         encode (to_dict p') = Some h' /\
         records k' !! u = Some h') /\
    (forall u r prov, u ∈ urls -> records k !! u = Some r ->
       rotation_due (clock u) (providers k) r = Some prov ->
       exists p' h',
         rotate_ip prov epoch (rnd u) (attrs (from_dict r)) = Ok p' /\
         encode (to_dict p') = Some h' /\
         records k' !! u = Some h').
Proof.
  induction urls as [|x urls IH]; intros k Hnd Hkey.
  - exists k. split; [done|]. split_and!; try done.
    + intros u. by left.
    + intros u r prov Hu. by apply elem_of_nil in Hu.
  - apply NoDup_cons in Hnd as [Hx Hnd].
    rewrite (rotation_scan_cons clock epoch rnd x urls k).
    destruct (records k !! x) as [r0|] eqn:Hr0.
    2:{ destruct (IH k Hnd Hkey) as (k' & Hrun & Hf & Hk' & Hrec & Hpos).
        exists k'. split; [exact Hrun|]. split; [exact Hf|]. split; [exact Hk'|]. split.
        - intros u. destruct (Hrec u) as [?|(Hu & ?)]; [by left|right].
          split; [by right|done].
        - intros u r prov Hu Hr Hdue.
          apply elem_of_cons in Hu as [->|Hu]; [congruence|]. by eapply Hpos. }
    rewrite rotate_if_due_run.
    destruct (rotation_due (clock x) (providers k) r0) as [prov|] eqn:Hdue.
    2:{ destruct (IH k Hnd Hkey) as (k' & Hrun & Hf & Hk' & Hrec & Hpos).
        exists k'. split; [exact Hrun|]. split; [exact Hf|]. split; [exact Hk'|]. split.
        - intros u. destruct (Hrec u) as [?|(Hu & ?)]; [by left|right].
          split; [by right|done].
        - intros u r prov Hu Hr Hdue'.
          apply elem_of_cons in Hu as [->|Hu]; [congruence|]. by eapply Hpos. }
    destruct (rotate_loaded prov epoch (rnd x) r0)
      as (p' & h' & Hrot & Hh' & Hurl & _).
    rewrite Hrot, save_proxy_run, Hh'.
    assert (Hux : url p' = x).
    { apply encode_fields in Hh' as (Eu & _). cbn in Eu. rewrite <- Eu, Hurl.
      by apply Hkey. }
    rewrite Hux.
    set (k1 := set_records (<[x := h']> (records k)) k).
    assert (Hkey1 : keyed_by_url k1).
    { intros u r. unfold k1. cbn [records set_records].
      destruct (decide (u = x)) as [->|Hne].
      - rewrite lookup_insert_eq. intros [= <-]. rewrite Hurl. by apply Hkey.
      - rewrite lookup_insert_ne by done. apply Hkey. }
    destruct (IH k1 Hnd Hkey1) as (k' & Hrun & Hf & Hk' & Hrec & Hpos).
    assert (Hother : forall u, u <> x -> records k1 !! u = records k !! u).
    { intros u Hne. unfold k1. cbn [records set_records]. by rewrite lookup_insert_ne. }
    assert (Hat : records k1 !! x = Some h').
    { unfold k1. cbn [records set_records]. by rewrite lookup_insert_eq. }
    assert (Hstay : records k' !! x = Some h').
    { destruct (Hrec x) as [->|(Hin & _)]; done. }
    exists k'. split; [exact Hrun|].
    split; [|split; [|split]].
    + destruct Hf as (? & ? & ? & ? & ? & ?). by split_and!.
    + done.
    + intros u. destruct (decide (u = x)) as [->|Hne].
      * right. split; [by left|]. by exists r0, prov, p', h'.
      * destruct (Hrec u) as [Heq|(Hu & r & prov' & q & h & Hr & Hd & Hro & Hh & Hr')].
        -- left. by rewrite Heq, Hother.
        -- right. split; [by right|]. exists r, prov', q, h.
           rewrite Hother in Hr by done. done.
    + intros u r prov' Hu Hr Hdue'.
      apply elem_of_cons in Hu as [->|Hu].
      * assert (r = r0) by congruence. subst r.
        assert (prov' = prov) by congruence. subst prov'. by exists p', h'.
      * assert (Hne : u <> x) by (intros ->; done).
        apply (Hpos u r prov' Hu); [by rewrite Hother|done].
Qed.

(** The pass, from its loop. *)
Lemma rotation_pass_run clock epoch rnd m :
  _rotation_scheduler_pass clock epoch rnd m =
  Returned tt (final (rotation_scan clock epoch rnd (elements (active m)) m)).
Proof.
  unfold _rotation_scheduler_pass, try_except, mbind, M_bind, smembers_active, gets.
  by destruct (rotation_scan _ _ _ _ _).
Qed.

(** The score the numbers of a hash give does not change when its samples
    are cut to the last 100. *)
Lemma health_score_last_n t p q :
  requests q = requests p -> success q = success p -> last_used q = last_used p ->
  response_times q = Py.last_n 100 (response_times p) ->
  health_score t q = health_score t p.
Proof.
  intros Hr Hs Hl Hrt.
  assert (Havg : avg_response_time q = avg_response_time p).
  { rewrite <- (avg_response_time_to_dict p). unfold avg_response_time.
    rewrite Hrt. reflexivity. }
  unfold health_score. by rewrite Hr, Hs, Hl, Havg.
Qed.

(** X21.  A pass of the rotation scheduler never raises.  It changes neither
    set, nor the ledger, the alerts, the providers or the expiries; it
    removes no hash and adds none; and the hash it leaves under a URL has the
    URL, provider, counters and time of last use of the one that was there,
    and its numbers give the same health score. *)
Theorem rotation_pass_frame clock epoch rnd m :
  keyed_by_url m ->
  exists m',
    _rotation_scheduler_pass clock epoch rnd m = Returned tt m' /\
    same_books m m' /\ active m' = active m /\ keyed_by_url m' /\
    (forall u, records m' !! u = None <-> records m !! u = None) /\
    (forall u r, records m !! u = Some r ->
       exists r', records m' !! u = Some r' /\
         h_url r' = h_url r /\ h_provider r' = h_provider r /\
         h_requests r' = h_requests r /\ h_success r' = h_success r /\
         h_failures r' = h_failures r /\ h_last_used r' = h_last_used r /\
         forall t, health_score t (attrs (from_dict r'))
                   = health_score t (attrs (from_dict r))).
Proof.
  intros Hkey. eexists. split; [apply rotation_pass_run|].
  destruct (rotation_scan_run clock epoch rnd (elements (active m)) m
              (NoDup_elements _) Hkey)
    as (m' & -> & (Hp & Hc & Ha & Hb & Hal & He) & Hkey' & Hrec & _).
  cbn [final]. split_and!; try done.
  - intros u.
    destruct (Hrec u) as [->|(_ & r & prov & p' & h' & Hr & _ & _ & _ & ->)]; [done|].
    by rewrite Hr.
  - intros u r Hr.
    destruct (Hrec u) as [Heq|(_ & r0 & prov & p' & h' & Hr0 & _ & Hrot & Hh' & Hr')].
    + exists r. rewrite Heq. by split_and!.
    + assert (r0 = r) by congruence. subst r0.
      destruct (rotate_loaded prov epoch (rnd u) r)
        as (q & h & Hrot2 & Hh & Hu & Hpv & Hrq & Hsu & Hfa & Hlu & Hrt & _).
      assert (q = p') by congruence. subst q.
      assert (h = h') by congruence. subst h.
      exists h'. split_and!; try done.
      intros t.
      apply health_score_last_n;
        cbn [from_dict attrs requests success last_used response_times]; congruence.
Qed.

Lemma keyed_by_url_ex_sticky : keyed_by_url ex_sticky.
Proof.
  intros u r. unfold ex_sticky. cbn [records].
  intros [<- <-]%lookup_singleton_Some. reflexivity.
Qed.

Lemma rotation_pass_frame_witness :
  exists m',
    _rotation_scheduler_pass (fun _ => 1200%Q) 1700000600 (fun _ => 417%Z) ex_sticky
      = Returned tt m' /\
    active m' = active ex_sticky.
Proof.
  destruct (rotation_pass_frame (fun _ => 1200%Q) 1700000600 (fun _ => 417%Z) ex_sticky
              keyed_by_url_ex_sticky) as (m' & Hrun & _ & Ha & _).
  exists m'. split; [exact Hrun|exact Ha].
Defined.

(** X22.  What the rotation scheduler never rotates: a hash is left as it is
    when its URL is not active, when its sticky session id is empty, when
    the proxy was last used 15 minutes ago or less, or when its provider is
    not registered. *)
Theorem rotation_skips_ineligible clock epoch rnd m u r :
  keyed_by_url m ->
  records m !! u = Some r ->
  u ∉ active m \/
  h_sticky_session_id r = "" \/
  ((clock u - h_last_used r) / 60 <= 15)%Q \/
  dict_get (h_provider r) (providers m) = None ->
  records (final (_rotation_scheduler_pass clock epoch rnd m)) !! u = Some r.
Proof.
  intros Hkey Hr Hwhy. rewrite rotation_pass_run. cbn [final].
  destruct (rotation_scan_run clock epoch rnd (elements (active m)) m
              (NoDup_elements _) Hkey) as (m' & -> & _ & _ & Hrec & _).
  cbn [final].
  destruct (Hrec u) as [->|(Hu & r0 & prov & p' & h' & Hr0 & Hdue & _)]; [done|].
  exfalso. assert (r0 = r) by congruence. subst r0.
  destruct Hwhy as [Hout|Hwhy].
  - apply Hout. by apply elem_of_elements.
  - rewrite (rotation_due_None (clock u) (providers m) r Hwhy) in Hdue. done.
Qed.

Lemma rotation_skips_ineligible_witness :
  records (final (_rotation_scheduler_pass (fun _ => 600%Q) 1700000600
                    (fun _ => 417%Z) ex_sticky))
    !! bd_base_url = Some ex_hash.
Proof.
  apply (rotation_skips_ineligible (fun _ => 600%Q) 1700000600 (fun _ => 417%Z) ex_sticky).
  - apply keyed_by_url_ex_sticky.
  - reflexivity.
  - right. right. left. vm_compute. discriminate.
Defined.

(** X23.  What the rotation scheduler rotates: each active hash with a
    sticky session id, whose proxy was last used more than 15 minutes ago
    and whose provider is registered, is replaced by the hash of what
    [rotate_ip] of that provider makes of the object read back; the rotation
    does not raise and the store accepts its result. *)
Theorem rotation_rotates_due clock epoch rnd m u r (prov : AnyProvider) :
  keyed_by_url m ->
  u ∈ active m -> records m !! u = Some r ->
  h_sticky_session_id r <> "" ->
  (15 < (clock u - h_last_used r) / 60)%Q ->
  dict_get (h_provider r) (providers m) = Some prov ->
  exists p' h',
    rotate_ip prov epoch (rnd u) (attrs (from_dict r)) = Ok p' /\
    encode (to_dict p') = Some h' /\
    records (final (_rotation_scheduler_pass clock epoch rnd m)) !! u = Some h'.
Proof.
  intros Hkey Hu Hr Hsticky Hage Hprov.
  rewrite rotation_pass_run.
  destruct (rotation_scan_run clock epoch rnd (elements (active m)) m
              (NoDup_elements _) Hkey) as (m' & -> & _ & _ & _ & Hpos).
  cbn [final].
  apply (Hpos u r prov); [by apply elem_of_elements|done|].
  unfold rotation_due. apply String.eqb_neq in Hsticky. rewrite Hsticky.
  apply Qlt_bool_iff in Hage. by rewrite Hage.
Qed.

Lemma rotation_rotates_due_witness :
  exists h',
    records (final (_rotation_scheduler_pass (fun _ => 1200%Q) 1700000600
                      (fun _ => 417%Z) ex_sticky))
      !! bd_base_url = Some h' /\
    h_sticky_session_id h' = "session_1700000600_417".
Proof.
  destruct (rotation_rotates_due (fun _ => 1200%Q) 1700000600 (fun _ => 417%Z) ex_sticky
              bd_base_url ex_hash (BrightData (mkBrightData "cust" "secret" "z")))
    as (p' & h' & Hrot & Hh' & Hrec).
  - apply keyed_by_url_ex_sticky.
  - unfold ex_sticky. cbn [active]. by apply elem_of_singleton.
  - reflexivity.
  - discriminate.
  - vm_compute. reflexivity.
  - reflexivity.
  - exists h'. split; [exact Hrec|].
    simpl in Hrot. unfold bd_rotate_ip in Hrot. injection Hrot as <-.
    cbn in Hh'. injection Hh' as <-. reflexivity.
Defined.



(** ** Start-up and the size of the pool *)

Lemma only_provider_urls_size m : only_provider_urls m -> size (active m) <= 2.
Proof.
  intros H. apply subseteq_size in H.
  rewrite size_union, !size_singleton in H; [done|].
  apply disjoint_singleton_l. rewrite elem_of_singleton. discriminate.
Qed.

(** What [_init_providers] registers on a manager without providers. *)
Lemma init_providers_run env m :
  providers m = [] ->
  _init_providers env m = Returned tt
    (set_providers
       (match env !! "BRIGHT_DATA_CUSTOMER", env !! "BRIGHT_DATA_PASSWORD",
              env !! "BRIGHT_DATA_ZONE" with
        | Some customer, Some pw, Some zone =>
            [("bright_data", BrightData (mkBrightData customer pw zone))]
        | _, _, _ => []
        end ++
        match env !! "OXYLABS_USERNAME", env !! "OXYLABS_PASSWORD" with
        | Some user, Some pw => [("oxylabs", Oxylabs (mkOxylabs user pw))]
        | _, _ => []
        end) m).
Proof.
  intros Hnone. unfold _init_providers, mbind, M_bind, modify, mret, M_ret.
  destruct m as [provs ct ac bu re ex al]. cbn [providers] in Hnone. subst provs.
  destruct (env !! "BRIGHT_DATA_CUSTOMER"), (env !! "BRIGHT_DATA_PASSWORD"),
    (env !! "BRIGHT_DATA_ZONE"), (env !! "OXYLABS_USERNAME"), (env !! "OXYLABS_PASSWORD");
    reflexivity.
Qed.

(** [_init_providers] changes the registered providers only. *)
Lemma init_providers_frame env m :
  exists provs, _init_providers env m = Returned tt (set_providers provs m).
Proof.
  unfold _init_providers, mbind, M_bind, modify, mret, M_ret.
  destruct (env !! "BRIGHT_DATA_CUSTOMER"), (env !! "BRIGHT_DATA_PASSWORD"),
    (env !! "BRIGHT_DATA_ZONE"), (env !! "OXYLABS_USERNAME"), (env !! "OXYLABS_PASSWORD");
    cbn [providers set_providers]; try (by eexists);
    exists (providers m); by destruct m.
Qed.

(** [_load_proxies] changes nothing: what it provisions is refused. *)
Lemma load_proxies_run epoch m : _load_proxies epoch m = Returned tt m.
Proof.
  unfold _load_proxies, mbind, M_bind, scard_active, scard_burned, gets.
  destruct (_ <? 10)%Z; [apply provision_proxies_run|done].
Qed.

Lemma start_frame env epoch m :
  exists provs, start env epoch m = Returned tt (set_providers provs m).
Proof.
  destruct (init_providers_frame env m) as (provs & Hinit). exists provs.
  unfold start, mbind, M_bind. rewrite Hinit. apply load_proxies_run.
Qed.

(** X24.  [start] on a manager without providers never raises.  It registers
    Bright Data when its three variables are all set and Oxylabs when its two
    are, in this order, with the credentials of the environment, and changes
    nothing else: with fewer than 10 active URLs it provisions 20 proxies,
    none of which the store accepts, so the sets and the hashes are as
    before, like the ledger and the alerts. *)
Theorem start_registers_providers env epoch m :
  providers m = [] ->
  exists provs,
    start env epoch m = Returned tt (set_providers provs m) /\
    fst <$> provs =
      (if has_all env ["BRIGHT_DATA_CUSTOMER"; "BRIGHT_DATA_PASSWORD"; "BRIGHT_DATA_ZONE"]
       then ["bright_data"] else []) ++
      (if has_all env ["OXYLABS_USERNAME"; "OXYLABS_PASSWORD"]
       then ["oxylabs"] else []) /\
    (forall name prov, (name, prov) ∈ provs ->
       match prov with
       | BrightData self =>
           name = "bright_data" /\
           env !! "BRIGHT_DATA_CUSTOMER" = Some (bd_customer_id self) /\
           env !! "BRIGHT_DATA_PASSWORD" = Some (bd_password self) /\
           env !! "BRIGHT_DATA_ZONE" = Some (bd_zone self)
       | Oxylabs self =>
           name = "oxylabs" /\
           env !! "OXYLABS_USERNAME" = Some (ox_username self) /\
           env !! "OXYLABS_PASSWORD" = Some (ox_password self)
       end).
Proof.
  intros Hnone.
  pose proof (init_providers_run env m Hnone) as Hinit.
  set (provs := (_ ++ _)) in Hinit.
  exists provs. split.
  { unfold start, mbind, M_bind. rewrite Hinit. apply load_proxies_run. }
  split.
  - unfold provs, has_all. cbn [forallb].
    destruct (env !! "BRIGHT_DATA_CUSTOMER"), (env !! "BRIGHT_DATA_PASSWORD"),
      (env !! "BRIGHT_DATA_ZONE"), (env !! "OXYLABS_USERNAME"), (env !! "OXYLABS_PASSWORD");
      reflexivity.
  - intros name prov. unfold provs.
    destruct (env !! "BRIGHT_DATA_CUSTOMER"), (env !! "BRIGHT_DATA_PASSWORD"),
      (env !! "BRIGHT_DATA_ZONE"), (env !! "OXYLABS_USERNAME"), (env !! "OXYLABS_PASSWORD");
      cbn [app]; intros Hin;
      repeat (apply elem_of_cons in Hin as [[= -> ->]|Hin]; [by split_and!|]);
      by apply elem_of_nil in Hin.
Qed.

Lemma start_registers_providers_witness :
  exists provs,
    start ex_env 1700000000 ex_empty = Returned tt (set_providers provs ex_empty) /\
    fst <$> provs = ["bright_data"; "oxylabs"].
Proof.
  destruct (start_registers_providers ex_env 1700000000 ex_empty)
    as (provs & Hrun & Hnames & _); [reflexivity|].
  exists provs. split; [exact Hrun|exact Hnames].
Defined.

(** What each operation leaves of the manager or of its active set. *)
Lemma get_proxy_final requirements clock now epoch m :
  final (get_proxy requirements clock now epoch m) = m.
Proof. rewrite get_proxy_run. cbv zeta. by destruct (candidates _ _ m). Qed.

Lemma request_final requirements clock now epoch net elapsed_ms m :
  final (request requirements clock now epoch net elapsed_ms m) = m.
Proof.
  unfold request, mbind, M_bind. rewrite get_proxy_run. cbv zeta.
  by destruct (candidates _ _ m).
Qed.

Lemma report_usage_active p ok rt bw err m :
  active (final (snd (report_usage p ok rt bw err m))) ⊆ active m.
Proof. by destruct (report_usage_final p ok rt bw err m) as (_ & _ & ? & _). Qed.

Lemma burn_proxy_active p m :
  active (final (_burn_proxy p m)) = active m ∖ {[url p]}.
Proof. by destruct (burn_proxy_run p m) as (m' & -> & _ & _ & _ & Ha & _). Qed.

Lemma start_active env epoch m : active (final (start env epoch m)) = active m.
Proof. by destruct (start_frame env epoch m) as (provs & ->). Qed.

Lemma rotation_scan_active clock epoch rnd urls : forall k,
  active (final (rotation_scan clock epoch rnd urls k)) = active k.
Proof.
  induction urls as [|x urls IH]; intros k; [done|].
  rewrite rotation_scan_cons. destruct (records k !! x) as [r|]; [|apply IH].
  rewrite rotate_if_due_run. destruct (rotation_due _ (providers k) r); [|apply IH].
  destruct (rotate_ip _ epoch (rnd x) _); [|done].
  rewrite save_proxy_run. destruct (encode _); [|done]. by rewrite IH.
Qed.

Lemma rotation_pass_active clock epoch rnd m :
  active (final (_rotation_scheduler_pass clock epoch rnd m)) = active m.
Proof. rewrite rotation_pass_run. cbn [final]. apply rotation_scan_active. Qed.

Lemma health_pass_manager clock now epoch s :
  manager (finalS (_health_monitor_pass clock now epoch s)) = manager s.
Proof.
  rewrite health_pass_run. cbn [finalS]. by destruct (active_records (manager s)).
Qed.

(** X10.  No operation of the manager adds a URL to the active set.
    Provisioning, [get_proxy], a request of the proxied client and a pass of
    the health monitor leave the whole manager as it was; [start], a pass of
    the rotation scheduler and a pass of the cost monitor leave the active
    set as it was; [report_usage] and [_burn_proxy] can only remove from it.
    So a pool that is short of proxies is never refilled. *)
Theorem active_set_never_grows s :
  let m := manager s in
  (forall count epoch, final (_provision_proxies count epoch m) = m) /\
  (forall requirements clock now epoch,
     final (get_proxy requirements clock now epoch m) = m) /\
  (forall requirements clock now epoch net elapsed_ms,
     final (request requirements clock now epoch net elapsed_ms m) = m) /\
  (forall clock now epoch,
     manager (finalS (_health_monitor_pass clock now epoch s)) = m) /\
  (forall env epoch, active (final (start env epoch m)) = active m) /\
  (forall clock epoch rnd,
     active (final (_rotation_scheduler_pass clock epoch rnd m)) = active m) /\
  active (manager (finalS (_cost_monitor_pass s))) = active m /\
  (forall p ok rt bw err,
     active (final (snd (report_usage p ok rt bw err m))) ⊆ active m) /\
  (forall p, active (final (_burn_proxy p m)) = active m ∖ {[url p]}).
Proof.
  intros m. split_and!.
  - intros. by rewrite provision_proxies_run.
  - intros. apply get_proxy_final.
  - intros. apply request_final.
  - intros. apply health_pass_manager.
  - intros. apply start_active.
  - intros. apply rotation_pass_active.
  - by rewrite cost_monitor_run.
  - intros. apply report_usage_active.
  - intros. apply burn_proxy_active.
Qed.

(** X25.  All proxies of a provider share the provider's one URL, so the
    active set never holds more than the two provider URLs: once it holds
    nothing else, this stays so under provisioning, selection, reporting,
    burning, a request of the proxied client, a start, and a pass of each of
    the three monitors; and it then has at most 2 members, whatever count was
    asked for. *)
Theorem pool_is_at_most_two_urls s :
  let m := manager s in
  only_provider_urls m ->
  size (active m) <= 2 /\
  (forall count epoch, only_provider_urls (final (_provision_proxies count epoch m))) /\
  (forall requirements clock now epoch,
     only_provider_urls (final (get_proxy requirements clock now epoch m))) /\
  (forall p ok rt bw err,
     only_provider_urls (final (snd (report_usage p ok rt bw err m)))) /\
  (forall p, only_provider_urls (final (_burn_proxy p m))) /\
  (forall requirements clock now epoch net elapsed_ms,
     only_provider_urls (final (request requirements clock now epoch net elapsed_ms m))) /\
  (forall env epoch, only_provider_urls (final (start env epoch m))) /\
  (forall clock epoch rnd,
     only_provider_urls (final (_rotation_scheduler_pass clock epoch rnd m))) /\
  (forall clock now epoch,
     only_provider_urls (manager (finalS (_health_monitor_pass clock now epoch s)))) /\
  only_provider_urls (manager (finalS (_cost_monitor_pass s))).
Proof.
  intros m Hm. unfold only_provider_urls in *.
  split; [by apply only_provider_urls_size|].
  split_and!.
  - intros. by rewrite provision_proxies_run.
  - intros. by rewrite get_proxy_final.
  - intros. etrans; [apply report_usage_active|done].
  - intros. rewrite burn_proxy_active. set_solver.
  - intros. by rewrite request_final.
  - intros. by rewrite start_active.
  - intros. by rewrite rotation_pass_active.
  - intros. by rewrite health_pass_manager.
  - by rewrite cost_monitor_run.
Qed.

Lemma pool_is_at_most_two_urls_witness :
  size (active (manager ex_service)) <= 2.
Proof.
  apply (pool_is_at_most_two_urls ex_service).
  unfold ex_service, ex_pool, only_provider_urls. cbn [manager active]. set_solver.
Defined.
